(** * Telink B91 ECP hardware back end for Mbed TLS

    A shallow embedding of
    [b91/adapter/hals/mbedtls/src/mbedtls/internal/ecp_alt_b91_backend.c]:
    the little-endian MPI codec ([mbedtls_mpi_write_binary_le],
    [mbedtls_mpi_read_binary_le]), the curve classifier and registries, and
    the three public entry points that drive the PKE engine. *)

From Stdlib Require Import ZArith Lia List Bool.
From stdpp Require Import base numbers option list.

Local Open Scope nat_scope.

(** ** Result codes

    The numeric values are those of the Mbed TLS headers [bignum.h], [ecp.h]
    and [platform.h]; the back end only ever compares and returns them. *)

Definition MBEDTLS_ERR_MPI_BUFFER_TOO_SMALL : Z := (-8)%Z.              (* -0x0008 *)
Definition MBEDTLS_ERR_MPI_ALLOC_FAILED : Z := (-16)%Z.                 (* -0x0010 *)
Definition MBEDTLS_ERR_ECP_BAD_INPUT_DATA : Z := (-20352)%Z.            (* -0x4F80 *)
Definition MBEDTLS_ERR_ECP_INVALID_KEY : Z := (-19584)%Z.               (* -0x4C80 *)
Definition MBEDTLS_ERR_PLATFORM_HW_ACCEL_FAILED : Z := (-112)%Z.        (* -0x0070 *)
Definition MBEDTLS_ERR_PLATFORM_FEATURE_UNSUPPORTED : Z := (-114)%Z.    (* -0x0072 *)

(** ** Multi-precision integers

    [mbedtls_mpi] is the struct [{ int s; size_t n; mbedtls_mpi_uint *p; }]:
    sign, number of limbs, and the limb array, least significant limb first.
    [mpi_p = None] is the NULL pointer. *)

Record mbedtls_mpi : Type := Build_mpi {
  mpi_s : Z;
  mpi_n : nat;
  mpi_p : option (list Z)
}.

Definition mpi_limbs (X : mbedtls_mpi) : list Z := default [] (mpi_p X).

(** [X->p[k]]; the C code performs no range check, the model reads 0 outside
    the array (never reached for a well-formed MPI, see [mpi_wf]). *)
Definition limb_at (X : mbedtls_mpi) (k : nat) : Z := default 0%Z (mpi_limbs X !! k).

(** [size_t] is 32 bits wide on the B91 (RV32); products of sizes wrap. *)
Definition SIZE_BITS : Z := 32%Z.
Definition size_t_mul (a b : nat) : nat :=
  Z.to_nat ((Z.of_nat a * Z.of_nat b) mod 2 ^ SIZE_BITS).

(** [memset( buf + off, c, len )] on a byte buffer. *)
Fixpoint memset (buf : list Z) (off : nat) (c : Z) (len : nat) : list Z :=
  match len with
  | O => buf
  | S len' => memset (<[off := c]> buf) (S off) c len'
  end.

(** ** Curves, points and groups *)

(** [mbedtls_ecp_group_id] of [ecp.h]. *)
Inductive mbedtls_ecp_group_id : Type :=
  | MBEDTLS_ECP_DP_NONE
  | MBEDTLS_ECP_DP_SECP192R1
  | MBEDTLS_ECP_DP_SECP224R1
  | MBEDTLS_ECP_DP_SECP256R1
  | MBEDTLS_ECP_DP_SECP384R1
  | MBEDTLS_ECP_DP_SECP521R1
  | MBEDTLS_ECP_DP_BP256R1
  | MBEDTLS_ECP_DP_BP384R1
  | MBEDTLS_ECP_DP_BP512R1
  | MBEDTLS_ECP_DP_CURVE25519
  | MBEDTLS_ECP_DP_SECP192K1
  | MBEDTLS_ECP_DP_SECP224K1
  | MBEDTLS_ECP_DP_SECP256K1
  | MBEDTLS_ECP_DP_CURVE448.

#[global] Instance mbedtls_ecp_group_id_eq_dec : EqDecision mbedtls_ecp_group_id.
Proof. solve_decision. Defined.

(** [mbedtls_ecp_point]: the three coordinates [X], [Y], [Z]. *)
Record mbedtls_ecp_point : Type := Build_point {
  pt_X : mbedtls_mpi;
  pt_Y : mbedtls_mpi;
  pt_Z : mbedtls_mpi
}.

(** The fields of [mbedtls_ecp_group] the back end reads: [id], [pbits]
    and the generator [G]. *)
Record mbedtls_ecp_group : Type := Build_group {
  grp_id : mbedtls_ecp_group_id;
  grp_pbits : nat;
  grp_G : mbedtls_ecp_point
}.

(** Curve types: internal for now, might be exposed later. *)
Inductive ecp_curve_type : Type :=
  | ECP_TYPE_NONE
  | ECP_TYPE_SHORT_WEIERSTRASS    (* y^2 = x^3 + a x + b   *)
  | ECP_TYPE_MONTGOMERY.          (* y^2 = x^3 + a x^2 + x *)

#[global] Instance ecp_curve_type_eq_dec : EqDecision ecp_curve_type.
Proof. solve_decision. Defined.

(** Get the type of a curve. *)
Definition ecp_get_type (grp : mbedtls_ecp_group) : ecp_curve_type :=
  match mpi_p (pt_X (grp_G grp)) with
  | None => ECP_TYPE_NONE
  | Some _ =>
      match mpi_p (pt_Y (grp_G grp)) with
      | None => ECP_TYPE_MONTGOMERY
      | Some _ => ECP_TYPE_SHORT_WEIERSTRASS
      end
  end.

(** *** HW unit curve data constants

    The records list the members the initialisers name.  Every Weierstrass
    initialiser designates [.eccp_p_h] twice; in C the later designator
    overrides the earlier one, so [eccp_p_h] holds the one-word array. *)

Record eccp_curve_t : Type := Build_eccp_curve {
  eccp_p_bitLen : nat;
  eccp_p : list Z;
  eccp_p_h : list Z;
  eccp_a : list Z;
  eccp_b : list Z
}.

Record mont_curve_t : Type := Build_mont_curve {
  mont_p_bitLen : nat;
  mont_p : list Z;
  mont_p_h : list Z;
  mont_p_n1 : list Z;
  mont_a24 : list Z
}.

Definition secp256r1 : eccp_curve_t :=
  {| eccp_p_bitLen := 256;
     eccp_p :=
       [0xffffffff; 0xffffffff; 0xffffffff; 0x00000000;
        0x00000000; 0x00000000; 0x00000001; 0xffffffff]%Z;
     eccp_p_h :=
       [0x00000001]%Z;
     eccp_a :=
       [0xfffffffc; 0xffffffff; 0xffffffff; 0x00000000;
        0x00000000; 0x00000000; 0x00000001; 0xffffffff]%Z;
     eccp_b :=
       [0x27d2604b; 0x3bce3c3e; 0xcc53b0f6; 0x651d06b0;
        0x769886bc; 0xb3ebbd55; 0xaa3a93e7; 0x5ac635d8]%Z |}.

Definition secp256k1 : eccp_curve_t :=
  {| eccp_p_bitLen := 256;
     eccp_p :=
       [0xfffffc2f; 0xfffffffe; 0xffffffff; 0xffffffff;
        0xffffffff; 0xffffffff; 0xffffffff; 0xffffffff]%Z;
     eccp_p_h :=
       [0xd2253531]%Z;
     eccp_a :=
       [0x00000000; 0x00000000; 0x00000000; 0x00000000;
        0x00000000; 0x00000000; 0x00000000; 0x00000000]%Z;
     eccp_b :=
       [0x00000007; 0x00000000; 0x00000000; 0x00000000;
        0x00000000; 0x00000000; 0x00000000; 0x00000000]%Z |}.

Definition BP256r1 : eccp_curve_t :=
  {| eccp_p_bitLen := 256;
     eccp_p :=
       [0x1f6e5377; 0x2013481d; 0xd5262028; 0x6e3bf623;
        0x9d838d72; 0x3e660a90; 0xa1eea9bc; 0xa9fb57db]%Z;
     eccp_p_h :=
       [0xcefd89b9]%Z;
     eccp_a :=
       [0xf330b5d9; 0xe94a4b44; 0x26dc5c6c; 0xfb8055c1;
        0x417affe7; 0xeef67530; 0xfc2c3057; 0x7d5a0975]%Z;
     eccp_b :=
       [0xff8c07b6; 0x6bccdc18; 0x5cf7e1ce; 0x95841629;
        0xbbd77cbf; 0xf330b5d9; 0xe94a4b44; 0x26dc5c6c]%Z |}.

Definition secp224r1 : eccp_curve_t :=
  {| eccp_p_bitLen := 224;
     eccp_p :=
       [0x00000001; 0x00000000; 0x00000000; 0xffffffff;
        0xffffffff; 0xffffffff; 0xffffffff]%Z;
     eccp_p_h :=
       [0xffffffff]%Z;
     eccp_a :=
       [0xfffffffe; 0xffffffff; 0xffffffff; 0xfffffffe;
        0xffffffff; 0xffffffff; 0xffffffff]%Z;
     eccp_b :=
       [0x2355ffb4; 0x270b3943; 0xd7bfd8ba; 0x5044b0b7;
        0xf5413256; 0x0c04b3ab; 0xb4050a85]%Z |}.

Definition secp224k1 : eccp_curve_t :=
  {| eccp_p_bitLen := 224;
     eccp_p :=
       [0xffffe56d; 0xfffffffe; 0xffffffff; 0xffffffff;
        0xffffffff; 0xffffffff; 0xffffffff]%Z;
     eccp_p_h :=
       [0x198d139b]%Z;
     eccp_a :=
       [0x00000000; 0x00000000; 0x00000000; 0x00000000;
        0x00000000; 0x00000000; 0x00000000]%Z;
     eccp_b :=
       [0x00000005; 0x00000000; 0x00000000; 0x00000000;
        0x00000000; 0x00000000; 0x00000000]%Z |}.

Definition secp192r1 : eccp_curve_t :=
  {| eccp_p_bitLen := 192;
     eccp_p :=
       [0xffffffff; 0xffffffff; 0xfffffffe; 0xffffffff;
        0xffffffff; 0xffffffff]%Z;
     eccp_p_h :=
       [0x00000001]%Z;
     eccp_a :=
       [0xfffffffc; 0xffffffff; 0xfffffffe; 0xffffffff;
        0xffffffff; 0xffffffff]%Z;
     eccp_b :=
       [0xc146b9b1; 0xfeb8deec; 0x72243049; 0x0fa7e9ab;
        0xe59c80e7; 0x64210519]%Z |}.

Definition secp192k1 : eccp_curve_t :=
  {| eccp_p_bitLen := 192;
     eccp_p :=
       [0xffffee37; 0xfffffffe; 0xffffffff; 0xffffffff;
        0xffffffff; 0xffffffff]%Z;
     eccp_p_h :=
       [0x7446d879]%Z;
     eccp_a :=
       [0x00000000; 0x00000000; 0x00000000; 0x00000000;
        0x00000000; 0x00000000]%Z;
     eccp_b :=
       [0x00000003; 0x00000000; 0x00000000; 0x00000000;
        0x00000000; 0x00000000]%Z |}.

Definition x25519 : mont_curve_t :=
  {| mont_p_bitLen := 255;
     mont_p :=
       [0xffffffed; 0xffffffff; 0xffffffff; 0xffffffff;
        0xffffffff; 0xffffffff; 0xffffffff; 0x7fffffff]%Z;
     mont_p_h :=
       [0x000005a4; 0x00000000; 0x00000000; 0x00000000;
        0x00000000; 0x00000000; 0x00000000; 0x00000000]%Z;
     mont_p_n1 :=
       [0x286bca1b]%Z;
     mont_a24 :=
       [0x0001db41; 0x00000000; 0x00000000; 0x00000000;
        0x00000000; 0x00000000; 0x00000000; 0x00000000]%Z |}.

(** *** Build configuration

    One flag per [MBEDTLS_ECP_DP_..._ENABLED] macro tested by the file. *)
Record mbedtls_config : Type := Build_config {
  MBEDTLS_ECP_DP_SECP192R1_ENABLED : bool;
  MBEDTLS_ECP_DP_SECP224R1_ENABLED : bool;
  MBEDTLS_ECP_DP_SECP256R1_ENABLED : bool;
  MBEDTLS_ECP_DP_SECP384R1_ENABLED : bool;
  MBEDTLS_ECP_DP_SECP521R1_ENABLED : bool;
  MBEDTLS_ECP_DP_BP256R1_ENABLED : bool;
  MBEDTLS_ECP_DP_BP384R1_ENABLED : bool;
  MBEDTLS_ECP_DP_BP512R1_ENABLED : bool;
  MBEDTLS_ECP_DP_SECP192K1_ENABLED : bool;
  MBEDTLS_ECP_DP_SECP224K1_ENABLED : bool;
  MBEDTLS_ECP_DP_SECP256K1_ENABLED : bool;
  MBEDTLS_ECP_DP_CURVE25519_ENABLED : bool;
  MBEDTLS_ECP_DP_CURVE448_ENABLED : bool
}.

Definition ECP_SHORTWEIERSTRASS (cfg : mbedtls_config) : bool :=
  MBEDTLS_ECP_DP_SECP192R1_ENABLED cfg || MBEDTLS_ECP_DP_SECP224R1_ENABLED cfg
  || MBEDTLS_ECP_DP_SECP256R1_ENABLED cfg || MBEDTLS_ECP_DP_SECP384R1_ENABLED cfg
  || MBEDTLS_ECP_DP_SECP521R1_ENABLED cfg || MBEDTLS_ECP_DP_BP256R1_ENABLED cfg
  || MBEDTLS_ECP_DP_BP384R1_ENABLED cfg || MBEDTLS_ECP_DP_BP512R1_ENABLED cfg
  || MBEDTLS_ECP_DP_SECP192K1_ENABLED cfg || MBEDTLS_ECP_DP_SECP224K1_ENABLED cfg
  || MBEDTLS_ECP_DP_SECP256K1_ENABLED cfg.

Definition ECP_MONTGOMERY (cfg : mbedtls_config) : bool :=
  MBEDTLS_ECP_DP_CURVE25519_ENABLED cfg || MBEDTLS_ECP_DP_CURVE448_ENABLED cfg.

(** An array entry guarded by [#if defined( flag )]. *)
Definition if_defined {A : Type} (flag : bool) (entry : A) : list A :=
  if flag then [entry] else [].

(** *** Linking mbedtls to HW unit curve data *)

Definition eccp_curve_linking (cfg : mbedtls_config)
    : list (mbedtls_ecp_group_id * eccp_curve_t) :=
  if_defined (MBEDTLS_ECP_DP_SECP256R1_ENABLED cfg) (MBEDTLS_ECP_DP_SECP256R1, secp256r1)
  ++ if_defined (MBEDTLS_ECP_DP_SECP256K1_ENABLED cfg) (MBEDTLS_ECP_DP_SECP256K1, secp256k1)
  ++ if_defined (MBEDTLS_ECP_DP_BP256R1_ENABLED cfg) (MBEDTLS_ECP_DP_BP256R1, BP256r1)
  ++ if_defined (MBEDTLS_ECP_DP_SECP224R1_ENABLED cfg) (MBEDTLS_ECP_DP_SECP224R1, secp224r1)
  ++ if_defined (MBEDTLS_ECP_DP_SECP224K1_ENABLED cfg) (MBEDTLS_ECP_DP_SECP224K1, secp224k1)
  ++ if_defined (MBEDTLS_ECP_DP_SECP192R1_ENABLED cfg) (MBEDTLS_ECP_DP_SECP192R1, secp192r1)
  ++ if_defined (MBEDTLS_ECP_DP_SECP192K1_ENABLED cfg) (MBEDTLS_ECP_DP_SECP192K1, secp192k1).

Definition mont_curve_linking (cfg : mbedtls_config)
    : list (mbedtls_ecp_group_id * mont_curve_t) :=
  if_defined (MBEDTLS_ECP_DP_CURVE25519_ENABLED cfg) (MBEDTLS_ECP_DP_CURVE25519, x25519).

(** The linear scan shared by [eccp_curve_get] and [mont_curve_get]: the
    first entry whose [group] equals the id, NULL when none does. *)
Fixpoint curve_scan {C : Type} (table : list (mbedtls_ecp_group_id * C))
    (id : mbedtls_ecp_group_id) : option C :=
  match table with
  | [] => None
  | (group, curve_dat) :: rest =>
      if decide (group = id) then Some curve_dat else curve_scan rest id
  end.

Definition eccp_curve_get (cfg : mbedtls_config) (grp : mbedtls_ecp_group)
    : option eccp_curve_t :=
  curve_scan (eccp_curve_linking cfg) (grp_id grp).

Definition mont_curve_get (cfg : mbedtls_config) (grp : mbedtls_ecp_group)
    : option mont_curve_t :=
  curve_scan (mont_curve_linking cfg) (grp_id grp).


(** The registries read as maps from the group id. *)
Definition eccp_curve_of (cfg : mbedtls_config) (id : mbedtls_ecp_group_id)
    : option eccp_curve_t :=
  match id with
  | MBEDTLS_ECP_DP_SECP256R1 =>
      if MBEDTLS_ECP_DP_SECP256R1_ENABLED cfg then Some secp256r1 else None
  | MBEDTLS_ECP_DP_SECP256K1 =>
      if MBEDTLS_ECP_DP_SECP256K1_ENABLED cfg then Some secp256k1 else None
  | MBEDTLS_ECP_DP_BP256R1 =>
      if MBEDTLS_ECP_DP_BP256R1_ENABLED cfg then Some BP256r1 else None
  | MBEDTLS_ECP_DP_SECP224R1 =>
      if MBEDTLS_ECP_DP_SECP224R1_ENABLED cfg then Some secp224r1 else None
  | MBEDTLS_ECP_DP_SECP224K1 =>
      if MBEDTLS_ECP_DP_SECP224K1_ENABLED cfg then Some secp224k1 else None
  | MBEDTLS_ECP_DP_SECP192R1 =>
      if MBEDTLS_ECP_DP_SECP192R1_ENABLED cfg then Some secp192r1 else None
  | MBEDTLS_ECP_DP_SECP192K1 =>
      if MBEDTLS_ECP_DP_SECP192K1_ENABLED cfg then Some secp192k1 else None
  | _ => None
  end.

Definition mont_curve_of (cfg : mbedtls_config) (id : mbedtls_ecp_group_id)
    : option mont_curve_t :=
  match id with
  | MBEDTLS_ECP_DP_CURVE25519 =>
      if MBEDTLS_ECP_DP_CURVE25519_ENABLED cfg then Some x25519 else None
  | _ => None
  end.

(** Every curve enabled in [cfg] is enabled in [cfg']. *)
Definition cfg_le (cfg cfg' : mbedtls_config) : Prop :=
  forall flag,
    In flag [MBEDTLS_ECP_DP_SECP192R1_ENABLED; MBEDTLS_ECP_DP_SECP224R1_ENABLED;
             MBEDTLS_ECP_DP_SECP256R1_ENABLED; MBEDTLS_ECP_DP_SECP384R1_ENABLED;
             MBEDTLS_ECP_DP_SECP521R1_ENABLED; MBEDTLS_ECP_DP_BP256R1_ENABLED;
             MBEDTLS_ECP_DP_BP384R1_ENABLED; MBEDTLS_ECP_DP_BP512R1_ENABLED;
             MBEDTLS_ECP_DP_SECP192K1_ENABLED; MBEDTLS_ECP_DP_SECP224K1_ENABLED;
             MBEDTLS_ECP_DP_SECP256K1_ENABLED; MBEDTLS_ECP_DP_CURVE25519_ENABLED;
             MBEDTLS_ECP_DP_CURVE448_ENABLED] ->
    flag cfg = true -> flag cfg' = true.

(** The number an array of 32-bit words denotes, least significant word
    first, as the engine reads its parameters. *)
Fixpoint words_value (ws : list Z) : Z :=
  match ws with
  | [] => 0%Z
  | x :: rest => (x + 2 ^ 32 * words_value rest)%Z
  end.

Definition is_word (z : Z) : Prop := (0 <= z < 2 ^ 32)%Z.

(** The shape of a short-Weierstrass parameter record: the modulus and the
    two coefficients have the [n] words the bit length calls for (at most
    eight), [eccp_p_h] has one word whatever [n] is, every array holds
    32-bit words, the modulus has exactly the stated bit length and the
    coefficients are below it. *)
Definition eccp_curve_shape (c : eccp_curve_t) : Prop :=
  let n := (eccp_p_bitLen c + 31) / 32 in
  n <= 8
  /\ length (eccp_p c) = n /\ length (eccp_a c) = n /\ length (eccp_b c) = n
  /\ length (eccp_p_h c) = 1
  /\ Forall is_word (eccp_p c ++ eccp_a c ++ eccp_b c ++ eccp_p_h c)
  /\ (2 ^ (Z.of_nat (eccp_p_bitLen c) - 1) <= words_value (eccp_p c)
      < 2 ^ Z.of_nat (eccp_p_bitLen c))%Z
  /\ (words_value (eccp_a c) < words_value (eccp_p c))%Z
  /\ (words_value (eccp_b c) < words_value (eccp_p c))%Z.

(** The shape of a Montgomery parameter record: [mont_p], [mont_p_h] and
    [mont_a24] have [n] words, [mont_p_n1] has one. *)
Definition mont_curve_shape (c : mont_curve_t) : Prop :=
  let n := (mont_p_bitLen c + 31) / 32 in
  n <= 8
  /\ length (mont_p c) = n /\ length (mont_p_h c) = n /\ length (mont_a24 c) = n
  /\ length (mont_p_n1 c) = 1
  /\ Forall is_word (mont_p c ++ mont_p_h c ++ mont_a24 c ++ mont_p_n1 c)
  /\ (2 ^ (Z.of_nat (mont_p_bitLen c) - 1) <= words_value (mont_p c)
      < 2 ^ Z.of_nat (mont_p_bitLen c))%Z
  /\ (words_value (mont_a24 c) < words_value (mont_p c))%Z.

(** [h] is the one-word Montgomery constant of the modulus [p]:
    [h * p = -1] modulo [2 ^ 32]. *)
Definition is_n1_of (h : list Z) (p : list Z) : Prop :=
  exists h0, h = [h0] /\ ((h0 * words_value p + 1) mod 2 ^ 32 = 0)%Z.

(** [h] is the square of [R = 2 ^ (32 * length p)] modulo [p]. *)
Definition is_r2_of (h : list Z) (p : list Z) : Prop :=
  words_value h = ((2 ^ (32 * Z.of_nat (length p))) ^ 2 mod words_value p)%Z.

(** ** The engine, the lock and the stack

    Every interaction with the outside is recorded as an event; an engine
    call is recorded with the operands it was handed, the code it returned
    and the data it produced. *)
Inductive event : Type :=
  | EvLock
  | EvUnlock
  | EvPointVerify (curve : eccp_curve_t) (Px Py : list Z) (r : Z)
  | EvPointMul (curve : eccp_curve_t) (k Px Py : list Z) (r : Z) (ox oy : list Z)
  | EvPointAdd (curve : eccp_curve_t) (P1x P1y P2x P2y : list Z) (r : Z) (ox oy : list Z)
  | EvX25519Mul (curve : mont_curve_t) (k Pu : list Z) (r : Z) (ou : list Z).

Definition is_engine_call (e : event) : bool :=
  match e with
  | EvLock | EvUnlock => false
  | _ => true
  end.

(** The code an engine call returned. *)
Definition event_code (e : event) : option Z :=
  match e with
  | EvLock | EvUnlock => None
  | EvPointVerify _ _ _ r => Some r
  | EvPointMul _ _ _ _ r _ _ => Some r
  | EvPointAdd _ _ _ _ _ r _ _ => Some r
  | EvX25519Mul _ _ _ r _ => Some r
  end.

(** The arrays an engine call was handed. *)
Definition event_operands (e : event) : list (list Z) :=
  match e with
  | EvLock | EvUnlock => []
  | EvPointVerify _ Px Py _ => [Px; Py]
  | EvPointMul _ k Px Py _ _ _ => [k; Px; Py]
  | EvPointAdd _ P1x P1y P2x P2y _ _ _ => [P1x; P1y; P2x; P2y]
  | EvX25519Mul _ k Pu _ _ => [k; Pu]
  end.

(** Memory holds 8-bit chars. *)
Definition byte_wrap (z : Z) : Z := (z mod 256)%Z.

(** An engine result [out] stored into the caller's array [old]: the array
    keeps its size, what the engine produced replaces its leading bytes. *)
Definition overwrite (out old : list Z) : list Z :=
  take (length old) (map byte_wrap out ++ drop (length out) old).

(** [sizeof( unsigned int )] on the B91, and [sizeof( a )] of an array
    [unsigned int a[word_len]].  Such arrays are kept as their bytes, the
    view the codec has of them. *)
Definition sizeof_unsigned_int : nat := 4.
Definition sizeof_words (word_len : nat) : nat := word_len * sizeof_unsigned_int.


(** ** Firmware signature check ([blt_fw_sign.c])

    What [blt_firmware_signature_check] calls is declared in headers of
    the SDK and taken as given, as the fields of [flash_env]: reading the
    flash MID and UID (a flag, the MID and the content of the UID array),
    deriving the key from the UID, reading a page of flash, and the two
    constants that locate the stored key.  Array arguments are passed as
    the content before the call and returned as the content after it. *)
Record flash_env : Type := Build_flash_env {
  flash_read_mid_uid_with_check : list Z -> Z * Z * list Z;
  firmware_encrypt_based_on_uid : list Z -> list Z -> list Z;
  flash_read_page : Z -> nat -> list Z -> list Z;
  flash_sector_calibration : Z;
  CALIB_OFFSET_FIRMWARE_SIGNKEY : Z
}.

(** [memcmp( a, b, n )] of the C library: the difference of the first pair
    of bytes that differ among the first [n], 0 when none does. *)
Fixpoint memcmp (a b : list Z) (n : nat) {struct n} : Z :=
  match n with
  | O => 0%Z
  | S n' =>
      match a, b with
      | x :: a', y :: b' => if (x =? y)%Z then memcmp a' b' n' else (x - y)%Z
      | _, _ => 0%Z
      end
  end.

(** The function returns nothing; it either returns or stays in one of its
    [while(1) { }] loops for ever. *)
Inductive check_outcome : Type := Returns | Hangs.

(** Address arithmetic on 32-bit unsigned integers. *)
Definition u32_add (a b : Z) : Z := ((a + b) mod 2 ^ 32)%Z.

(** [blt_firmware_signature_check]; [uid0], [enc0] and [key0] are what the
    stack holds where the three local arrays are placed. *)
Definition blt_firmware_signature_check (env : flash_env)
    (uid0 enc0 key0 : list Z) : check_outcome :=
  let '(flag, flash_mid, flash_uid) := flash_read_mid_uid_with_check env uid0 in
  if (flag =? 0)%Z then Hangs                      (* reading flash UID error *)
  else
    let signature_enc_key := firmware_encrypt_based_on_uid env flash_uid enc0 in
    let signature_flash_key :=
      flash_read_page env
        (u32_add (flash_sector_calibration env) (CALIB_OFFSET_FIRMWARE_SIGNKEY env))
        16 key0 in
    if negb (memcmp signature_enc_key signature_flash_key 16 =? 0)%Z
    then Hangs                                     (* signature not match *)
    else Returns.

(** A group id that has no entry in either registry. *)
Definition without_entry (id : mbedtls_ecp_group_id) : Prop :=
  In id [MBEDTLS_ECP_DP_NONE; MBEDTLS_ECP_DP_SECP384R1; MBEDTLS_ECP_DP_SECP521R1;
         MBEDTLS_ECP_DP_BP384R1; MBEDTLS_ECP_DP_BP512R1; MBEDTLS_ECP_DP_CURVE448].

(** The family the group is classified in and the family of its id
    disagree: two generator coordinates with the id of Curve25519, or an X
    coordinate only with any other id. *)
Definition family_mismatch (grp : mbedtls_ecp_group) : Prop :=
  (ecp_get_type grp = ECP_TYPE_SHORT_WEIERSTRASS
   /\ grp_id grp = MBEDTLS_ECP_DP_CURVE25519)
  \/ (ecp_get_type grp = ECP_TYPE_MONTGOMERY
      /\ grp_id grp <> MBEDTLS_ECP_DP_CURVE25519).

(** The same point with another [Z]. *)
Definition with_Z (P : mbedtls_ecp_point) (Z' : mbedtls_mpi) : mbedtls_ecp_point :=
  {| pt_X := pt_X P; pt_Y := pt_Y P; pt_Z := Z' |}.

(** What a call can observe and change besides its arguments: the engine
    (in a state of type [HW]), the log of events, and the bytes lying on the
    stack where the local arrays are placed ([w_stack k j] is byte [j] of
    the [k]-th array). *)
Record world (HW : Type) : Type := Build_world {
  w_hw : HW;
  w_trace : list event;
  w_stack : nat -> nat -> Z
}.
Arguments Build_world {HW}.
Arguments w_hw {HW}.
Arguments w_trace {HW}.
Arguments w_stack {HW}.

(** *** Fixtures: a concrete configuration, engine and operands *)

(** Every curve enabled. *)
Definition cfg_all : mbedtls_config :=
  Build_config true true true true true true true true true true true true true.

(** [GET_WORD_LEN] and [PKE_OPERAND_MAX_WORD_LEN] for 32-bit words and
    256-bit operands. *)
Definition word_len_32 (bits : nat) : nat := (bits + 31) / 32.

(** A [calloc] that grants every request. *)
Definition calloc_always (n : nat) : bool := true.

(** The positive MPI whose limbs are the given 32-bit words. *)
Definition mpi_of_words (ws : list Z) : mbedtls_mpi :=
  {| mpi_s := 1; mpi_n := length ws; mpi_p := Some ws |}.

(** An MPI of nine 32-bit limbs, the top one set: it needs 33 bytes. *)
Definition mpi_nine_words : mbedtls_mpi :=
  mpi_of_words [5; 0; 0; 0; 0; 0; 0; 0; 1]%Z.

Definition point_of_words (x y : list Z) : mbedtls_ecp_point :=
  {| pt_X := mpi_of_words x; pt_Y := mpi_of_words y; pt_Z := mpi_of_words [1%Z] |}.

(** A short-Weierstrass group (both generator coordinates present) and a
    Montgomery group (no Y coordinate). *)
Definition grp_secp256r1 : mbedtls_ecp_group :=
  {| grp_id := MBEDTLS_ECP_DP_SECP256R1; grp_pbits := 256;
     grp_G := point_of_words [1%Z] [2%Z] |}.

Definition grp_curve25519 : mbedtls_ecp_group :=
  {| grp_id := MBEDTLS_ECP_DP_CURVE25519; grp_pbits := 255;
     grp_G := {| pt_X := mpi_of_words [9%Z];
                 pt_Y := {| mpi_s := 1; mpi_n := 0; mpi_p := None |};
                 pt_Z := mpi_of_words [1%Z] |} |}.

(** A configuration with secp256r1 only. *)
Definition cfg_p256_only : mbedtls_config :=
  Build_config false false true false false false false false false false false false false.

(** A flash whose UID reads well and whose stored key is the one derived
    from the UID (the derivation adds 1 to every byte of the UID). *)
Definition flash_signed : flash_env :=
  {| flash_read_mid_uid_with_check := fun _ => (1%Z, 0x1460c8%Z, replicate 16 7%Z);
     firmware_encrypt_based_on_uid := fun uid _ => map (fun b => ((b + 1) mod 256)%Z) uid;
     flash_read_page := fun _ _ _ => replicate 16 8%Z;
     flash_sector_calibration := 0xfe000%Z;
     CALIB_OFFSET_FIRMWARE_SIGNKEY := 0x180%Z |}.

(** An engine whose state is the list of codes its next calls return (0
    once the list is used up); data results copy the first operand point. *)
Definition next_code (hw : list Z) : Z * list Z :=
  match hw with
  | [] => (0%Z, [])
  | r :: hw' => (r, hw')
  end.

Definition fake_verify (c : eccp_curve_t) (Px Py : list Z) (hw : list Z)
    : Z * list Z := next_code hw.
Definition fake_mul (c : eccp_curve_t) (k Px Py : list Z) (hw : list Z)
    : Z * (list Z * list Z) * list Z :=
  let (r, hw') := next_code hw in (r, (Px, Py), hw').
Definition fake_add (c : eccp_curve_t) (P1x P1y P2x P2y : list Z) (hw : list Z)
    : Z * (list Z * list Z) * list Z :=
  let (r, hw') := next_code hw in (r, (P1x, P1y), hw').
Definition fake_x25519 (c : mont_curve_t) (k Pu : list Z) (hw : list Z)
    : Z * list Z * list Z :=
  let (r, hw') := next_code hw in (r, Pu, hw').

(** A world whose engine will return the given codes, with no event logged
    yet and 0xAA in every stack byte. *)
Definition world_with (codes : list Z) : world (list Z) :=
  {| w_hw := codes; w_trace := []; w_stack := fun _ _ => 170%Z |}.

(** What the answer of that engine to a point verification means: 0 the
    point is on the curve, 1 it is not, anything else an internal fault. *)
Inductive engine_answer : Type := OnCurve | NotOnCurve | EngineFault.

Definition fake_answer (r : Z) : engine_answer :=
  if (r =? 0)%Z then OnCurve else if (r =? 1)%Z then NotOnCurve else EngineFault.

Section Backend.

(** [ciL = sizeof(mbedtls_mpi_uint)], the number of chars in a limb. *)
Variable ciL : nat.

(** Bits in a limb, and the wrap-around of [mbedtls_mpi_uint] arithmetic. *)
Definition biL : Z := (8 * Z.of_nat ciL)%Z.
Definition limb_wrap (z : Z) : Z := (z mod 2 ^ biL)%Z.

(** [#define GET_BYTE( X, i ) ( ( (X)->p[(i) / ciL] >> ( ( (i) % ciL ) * 8 ) ) & 0xff )] *)
Definition GET_BYTE (X : mbedtls_mpi) (i : nat) : Z :=
  Z.land (Z.shiftr (limb_at X (i / ciL)) (Z.of_nat ((i mod ciL) * 8))) 255.

(** [#define CHARS_TO_LIMBS(i) ( (i) / ciL + ( (i) % ciL != 0 ) )] *)
Definition CHARS_TO_LIMBS (i : nat) : nat :=
  i / ciL + (if i mod ciL =? 0 then 0 else 1).

(** The scan [for( i = bytes_to_copy; i < stored_bytes; i++ )
    if( GET_BYTE( X, i ) != 0 ) return BUFFER_TOO_SMALL], started at [i] with
    [count] iterations left; [true] means the early return is taken. *)
Fixpoint excess_nonzero (X : mbedtls_mpi) (i count : nat) : bool :=
  match count with
  | O => false
  | S count' =>
      if (GET_BYTE X i =? 0)%Z then excess_nonzero X (S i) count' else true
  end.

(** The loop [for( i = 0; i < bytes_to_copy; i++ ) buf[i] = GET_BYTE( X, i )]. *)
Fixpoint copy_bytes (X : mbedtls_mpi) (i count : nat) (buf : list Z) : list Z :=
  match count with
  | O => buf
  | S count' => copy_bytes X (S i) count' (<[i := GET_BYTE X i]> buf)
  end.

(** Export [X] into unsigned binary data, little endian.  [buf] is the
    content of the destination before the call; the result pairs the return
    code with the content after it. *)
Definition mbedtls_mpi_write_binary_le
    (X : mbedtls_mpi) (buf : list Z) (buflen : nat) : Z * list Z :=
  let stored_bytes := size_t_mul (mpi_n X) ciL in
  let bytes_to_copy := if stored_bytes <? buflen then stored_bytes else buflen in
  if negb (stored_bytes <? buflen)
     && excess_nonzero X bytes_to_copy (stored_bytes - bytes_to_copy)
  then (MBEDTLS_ERR_MPI_BUFFER_TOO_SMALL, buf)
  else
    let buf1 := copy_bytes X 0 bytes_to_copy buf in
    let buf2 :=
      if stored_bytes <? buflen
      then memset buf1 stored_bytes 0%Z (buflen - stored_bytes)
      else buf1 in
    (0%Z, buf2).

(** *** Storage primitives of the big-number library *)

(** Upper bound on the limb count and the outcome of [calloc( n, ciL )]. *)
Variable MBEDTLS_MPI_MAX_LIMBS : nat.
Variable calloc_ok : nat -> bool.

(** Modelled from the spec: the big-integer library (growing, freeing and
    setting storage) is an external collaborator whose code is absent;
    [mbedtls_mpi_init] leaves an empty positive number. *)
Definition mbedtls_mpi_init (X : mbedtls_mpi) : mbedtls_mpi :=
  {| mpi_s := 1; mpi_n := 0; mpi_p := None |}.

(** Modelled from the spec: freeing storage (absent big-integer library)
    releases the limbs and leaves the MPI as after [mbedtls_mpi_init]. *)
Definition mbedtls_mpi_free (X : mbedtls_mpi) : mbedtls_mpi :=
  {| mpi_s := 1; mpi_n := 0; mpi_p := None |}.

(** Modelled from the spec: growing storage (absent big-integer library)
    enlarges [X] to [nblimbs] limbs, keeping the old limbs and zero-filling
    the new ones; it fails when the limit is exceeded or memory runs out and
    never shrinks. *)
Definition mbedtls_mpi_grow (X : mbedtls_mpi) (nblimbs : nat) : Z * mbedtls_mpi :=
  if MBEDTLS_MPI_MAX_LIMBS <? nblimbs then (MBEDTLS_ERR_MPI_ALLOC_FAILED, X)
  else if mpi_n X <? nblimbs then
    if calloc_ok nblimbs then
      (0%Z, {| mpi_s := mpi_s X;
               mpi_n := nblimbs;
               mpi_p := Some (take (mpi_n X) (mpi_limbs X)
                              ++ replicate (nblimbs - mpi_n X) 0%Z) |})
    else (MBEDTLS_ERR_MPI_ALLOC_FAILED, X)
  else (0%Z, X).

(** [MBEDTLS_MPI_CHK( f )]: on a non-zero code jump to [cleanup] and return
    that code, otherwise continue. *)
Definition MBEDTLS_MPI_CHK (r : Z * mbedtls_mpi)
    (k : mbedtls_mpi -> Z * mbedtls_mpi) : Z * mbedtls_mpi :=
  if (fst r =? 0)%Z then k (snd r) else r.

(** Modelled from the spec: setting a value (absent big-integer library)
    makes room for one limb, clears every limb, stores [|z|] in limb 0 and
    the sign of [z] in [s]. *)
Definition mbedtls_mpi_lset (X : mbedtls_mpi) (z : Z) : Z * mbedtls_mpi :=
  MBEDTLS_MPI_CHK (mbedtls_mpi_grow X 1) (fun X1 =>
    (0%Z, {| mpi_s := if (z <? 0)%Z then (-1)%Z else 1%Z;
             mpi_n := mpi_n X1;
             mpi_p := (fun _ => <[0 := limb_wrap (Z.abs z)]> (replicate (mpi_n X1) 0%Z))
                        <$> mpi_p X1 |})).

(** The loop [for( i = 0; i < buflen; i++ )
    X->p[i / ciL] |= ((mbedtls_mpi_uint) buf[i]) << ((i % ciL) << 3)]. *)
Fixpoint or_bytes (buf : list Z) (i count : nat) (limbs : list Z) : list Z :=
  match count with
  | O => limbs
  | S count' =>
      or_bytes buf (S i) count'
        (alter (fun l => Z.lor l (limb_wrap (Z.shiftl (default 0%Z (buf !! i))
                                              (Z.shiftl (Z.of_nat (i mod ciL)) 3))))
               (i / ciL) limbs)
  end.

(** Import [X] from unsigned binary data, little endian.  [X] is the
    destination before the call. *)
Definition mbedtls_mpi_read_binary_le
    (X : mbedtls_mpi) (buf : list Z) (buflen : nat) : Z * mbedtls_mpi :=
  let limbs := CHARS_TO_LIMBS buflen in
  MBEDTLS_MPI_CHK
    (if negb (mpi_n X =? limbs)
     then mbedtls_mpi_grow (mbedtls_mpi_init (mbedtls_mpi_free X)) limbs
     else (0%Z, X))
    (fun X1 =>
       MBEDTLS_MPI_CHK (mbedtls_mpi_lset X1 0)
         (fun X2 =>
            (0%Z, {| mpi_s := mpi_s X2;
                     mpi_n := mpi_n X2;
                     mpi_p := or_bytes buf 0 buflen <$> mpi_p X2 |}))).

(** *** The build configuration and the PKE driver interface ([pke.h])

    What the back end uses of the driver header is taken as given: the
    word-length macro, the operand limit, the success code and the four
    engine entry points.  The engine works on an internal state [HW]; an
    entry point maps its operands and that state to a return code, the data
    it produces and the next state.  Operands are handed over as the bytes
    of the arrays; [pke_eccp_point_verify] only reads its operands. *)
Variable cfg : mbedtls_config.
Variable GET_WORD_LEN : nat -> nat.
Variable PKE_OPERAND_MAX_WORD_LEN : nat.
Variable PKE_SUCCESS : Z.
Variable HW : Type.
Variable pke_eccp_point_verify :
  eccp_curve_t -> list Z -> list Z -> HW -> Z * HW.
Variable pke_eccp_point_mul :
  eccp_curve_t -> list Z -> list Z -> list Z -> HW -> Z * (list Z * list Z) * HW.
Variable pke_eccp_point_add :
  eccp_curve_t -> list Z -> list Z -> list Z -> list Z -> HW -> Z * (list Z * list Z) * HW.
Variable pke_x25519_point_mul :
  mont_curve_t -> list Z -> list Z -> HW -> Z * list Z * HW.

(** A small state monad over [world]. *)
Definition M (A : Type) : Type := world HW -> A * world HW.
Definition ret {A : Type} (a : A) : M A := fun w => (a, w).
Definition bind {A B : Type} (m : M A) (k : A -> M B) : M B :=
  fun w => let (a, w') := m w in k a w'.

Notation "'do' x <- m ; k" := (bind m (fun x => k))
  (at level 10, x name, m at level 100, k at level 200, only parsing).
Notation "'do' ' p <- m ; k" := (bind m (fun p => k))
  (at level 10, p pattern, m at level 100, k at level 200, only parsing).
Notation "m ;; k" := (bind m (fun _ => k))
  (at level 100, k at level 200, right associativity, only parsing).

Definition log (e : event) : M unit :=
  fun w => (tt, {| w_hw := w_hw w; w_trace := w_trace w ++ [e]; w_stack := w_stack w |}).

(** [mbedtls_ecp_lock()] and [mbedtls_ecp_unlock()] of [multithread.h]. *)
Definition mbedtls_ecp_lock : M unit := log EvLock.
Definition mbedtls_ecp_unlock : M unit := log EvUnlock.

(** Declaration of the [k]-th local array [unsigned int a[word_len]]: it is
    not initialised and holds whatever the stack holds there. *)
Definition stack_array (w : world HW) (k word_len : nat) : list Z :=
  map (fun j => byte_wrap (w_stack w k j)) (seq 0 (sizeof_words word_len)).
Definition local_array (k word_len : nat) : M (list Z) :=
  fun w => (stack_array w k word_len, w).

(** Running an engine entry point: the engine state advances and the call
    is logged. *)
Definition engine {A : Type} (f : HW -> A * HW) (e : A -> event) : M A :=
  fun w => let (a, hw') := f (w_hw w) in
           (a, {| w_hw := hw'; w_trace := w_trace w ++ [e a]; w_stack := w_stack w |}).

(** [pke_eccp_point_verify( curve, Px, Py )]. *)
Definition call_point_verify (curve : eccp_curve_t) (Px Py : list Z) : M Z :=
  engine (pke_eccp_point_verify curve Px Py) (EvPointVerify curve Px Py).

(** [pke_eccp_point_mul( curve, k, Px, Py, Qx, Qy )]: the result is stored
    in the arrays [Qx], [Qy], whose new content is returned. *)
Definition call_point_mul (curve : eccp_curve_t) (k Px Py Qx Qy : list Z)
    : M (Z * list Z * list Z) :=
  do '(r, (ox, oy)) <- engine (pke_eccp_point_mul curve k Px Py)
                         (fun '(r, (ox, oy)) => EvPointMul curve k Px Py r ox oy);
  ret (r, overwrite ox Qx, overwrite oy Qy).

(** [pke_eccp_point_add( curve, P1x, P1y, P2x, P2y, Qx, Qy )]. *)
Definition call_point_add (curve : eccp_curve_t) (P1x P1y P2x P2y Qx Qy : list Z)
    : M (Z * list Z * list Z) :=
  do '(r, (ox, oy)) <- engine (pke_eccp_point_add curve P1x P1y P2x P2y)
                         (fun '(r, (ox, oy)) => EvPointAdd curve P1x P1y P2x P2y r ox oy);
  ret (r, overwrite ox Qx, overwrite oy Qy).

(** [pke_x25519_point_mul( curve, k, Pu, Qu )]. *)
Definition call_x25519_point_mul (curve : mont_curve_t) (k Pu Qu : list Z)
    : M (Z * list Z) :=
  do '(r, ou) <- engine (pke_x25519_point_mul curve k Pu)
                   (fun '(r, ou) => EvX25519Mul curve k Pu r ou);
  ret (r, overwrite ou Qu).

(** [( void ) mbedtls_mpi_write_binary_le( X, ( unsigned char * )a, sizeof( a ) )]:
    the return code is dropped, the array keeps what the call left in it. *)
Definition void_write (X : mbedtls_mpi) (a : list Z) (word_len : nat) : list Z :=
  snd (mbedtls_mpi_write_binary_le X a (sizeof_words word_len)).

(** [( void ) mbedtls_mpi_read_binary_le( X, ( const unsigned char * )a, sizeof( a ) )]. *)
Definition void_read (X : mbedtls_mpi) (a : list Z) (word_len : nat) : mbedtls_mpi :=
  snd (mbedtls_mpi_read_binary_le X a (sizeof_words word_len)).

(** [( void ) mbedtls_mpi_lset( X, z )]. *)
Definition void_lset (X : mbedtls_mpi) (z : Z) : mbedtls_mpi :=
  snd (mbedtls_mpi_lset X z).

(** Whether the build keeps a store to an object that is not read again
    before its lifetime ends.  Such a store is no observable behaviour of a
    C program and a compiler may remove it: a build without optimisation
    keeps it, an optimising build removes it. *)
Variable keeps_dead_stores : bool.

(** [memset( a, 0, sizeof( a ) )] on a local array as the last statements
    before [return]: a plain [memset] whose target is never read again, so
    the bytes are cleared only in a build that keeps dead stores. *)
Definition wipe (a : list Z) (word_len : nat) : list Z :=
  if keeps_dead_stores then memset a 0 0%Z (sizeof_words word_len) else a.

(** *** Public functions

    A pointer argument is [None] when NULL.  Besides the return code a
    function yields the content of its local arrays at the moment it
    returns ([None] when they were never declared), and, where it has an
    output point [R], the content of [R] afterwards. *)

Definition ecp_alt_b91_backend_check_pubkey
    (grp : option mbedtls_ecp_group) (pt : option mbedtls_ecp_point)
    : M (Z * option (list (list Z))) :=
  match grp, pt with
  | Some grp, Some pt =>
      let word_len := GET_WORD_LEN (grp_pbits grp) in
      if word_len <=? PKE_OPERAND_MAX_WORD_LEN then
        do Qx <- local_array 0 word_len;
        do Qy <- local_array 1 word_len;
        do '(result, Qx, Qy) <-
          (if ECP_SHORTWEIERSTRASS cfg
              && bool_decide (ecp_get_type grp = ECP_TYPE_SHORT_WEIERSTRASS)
           then
             match eccp_curve_get cfg grp with
             | Some eccp_curve =>
                 let Qx := void_write (pt_X pt) Qx word_len in
                 let Qy := void_write (pt_Y pt) Qy word_len in
                 mbedtls_ecp_lock ;;
                 do r <- call_point_verify eccp_curve Qx Qy;
                 let result :=
                   if (r =? PKE_SUCCESS)%Z then 0%Z else MBEDTLS_ERR_ECP_INVALID_KEY in
                 mbedtls_ecp_unlock ;;
                 ret (result, Qx, Qy)
             | None => ret (MBEDTLS_ERR_PLATFORM_FEATURE_UNSUPPORTED, Qx, Qy)
             end
           else ret (MBEDTLS_ERR_PLATFORM_FEATURE_UNSUPPORTED, Qx, Qy));
        let Qx := wipe Qx word_len in
        let Qy := wipe Qy word_len in
        ret (result, Some [Qx; Qy])
      else ret (MBEDTLS_ERR_PLATFORM_FEATURE_UNSUPPORTED, None)
  | _, _ => ret (MBEDTLS_ERR_ECP_BAD_INPUT_DATA, None)
  end.

(** The short-Weierstrass block of [ecp_alt_b91_backend_mul], acting on the
    function's variables [result], [R], [ms], [Qx], [Qy]. *)
Definition mul_short_weierstrass (grp : mbedtls_ecp_group) (m : mbedtls_mpi)
    (P : mbedtls_ecp_point) (word_len : nat)
    (st : Z * mbedtls_ecp_point * list Z * list Z * list Z)
    : M (Z * mbedtls_ecp_point * list Z * list Z * list Z) :=
  let '(result, R, ms, Qx, Qy) := st in
  if ECP_SHORTWEIERSTRASS cfg
     && bool_decide (ecp_get_type grp = ECP_TYPE_SHORT_WEIERSTRASS)
  then
    match eccp_curve_get cfg grp with
    | Some eccp_curve =>
        let ms := void_write m ms word_len in
        let Qx := void_write (pt_X P) Qx word_len in
        let Qy := void_write (pt_Y P) Qy word_len in
        mbedtls_ecp_lock ;;
        do '(r, Qx, Qy) <- call_point_mul eccp_curve ms Qx Qy Qx Qy;
        let '(result, R) :=
          if (r =? PKE_SUCCESS)%Z then
            let RX := void_read (pt_X R) Qx word_len in
            let RY := void_read (pt_Y R) Qy word_len in
            let RZ := void_lset (pt_Z R) 1 in
            (0%Z, {| pt_X := RX; pt_Y := RY; pt_Z := RZ |})
          else (MBEDTLS_ERR_PLATFORM_HW_ACCEL_FAILED, R) in
        mbedtls_ecp_unlock ;;
        ret (result, R, ms, Qx, Qy)
    | None => ret st
    end
  else ret st.

(** The Montgomery block of [ecp_alt_b91_backend_mul]. *)
Definition mul_montgomery (grp : mbedtls_ecp_group) (m : mbedtls_mpi)
    (P : mbedtls_ecp_point) (word_len : nat)
    (st : Z * mbedtls_ecp_point * list Z * list Z * list Z)
    : M (Z * mbedtls_ecp_point * list Z * list Z * list Z) :=
  let '(result, R, ms, Qx, Qy) := st in
  if ECP_MONTGOMERY cfg
     && bool_decide (ecp_get_type grp = ECP_TYPE_MONTGOMERY)
  then
    match mont_curve_get cfg grp with
    | Some mont_curve =>
        let ms := void_write m ms word_len in
        let Qx := void_write (pt_X P) Qx word_len in
        mbedtls_ecp_lock ;;
        do '(r, Qx) <- call_x25519_point_mul mont_curve ms Qx Qx;
        let '(result, R) :=
          if (r =? PKE_SUCCESS)%Z then
            let RX := void_read (pt_X R) Qx word_len in
            let RY := void_lset (pt_Y R) 0 in
            let RZ := void_lset (pt_Z R) 1 in
            (0%Z, {| pt_X := RX; pt_Y := RY; pt_Z := RZ |})
          else (MBEDTLS_ERR_PLATFORM_HW_ACCEL_FAILED, R) in
        mbedtls_ecp_unlock ;;
        ret (result, R, ms, Qx, Qy)
    | None => ret st
    end
  else ret st.

Definition ecp_alt_b91_backend_mul
    (grp : option mbedtls_ecp_group) (R : option mbedtls_ecp_point)
    (m : option mbedtls_mpi) (P : option mbedtls_ecp_point)
    : M (Z * option mbedtls_ecp_point * option (list (list Z))) :=
  match grp, R, m, P with
  | Some grp, Some R, Some m, Some P =>
      let word_len := GET_WORD_LEN (grp_pbits grp) in
      if word_len <=? PKE_OPERAND_MAX_WORD_LEN then
        do ms <- local_array 0 word_len;
        do Qx <- local_array 1 word_len;
        do Qy <- local_array 2 word_len;
        do st <- mul_short_weierstrass grp m P word_len
                   (MBEDTLS_ERR_PLATFORM_FEATURE_UNSUPPORTED, R, ms, Qx, Qy);
        do '(result, R, ms, Qx, Qy) <- mul_montgomery grp m P word_len st;
        let ms := wipe ms word_len in
        let Qx := wipe Qx word_len in
        let Qy := wipe Qy word_len in
        ret (result, Some R, Some [ms; Qx; Qy])
      else ret (MBEDTLS_ERR_PLATFORM_FEATURE_UNSUPPORTED, Some R, None)
  | _, _, _, _ => ret (MBEDTLS_ERR_ECP_BAD_INPUT_DATA, R, None)
  end.

(** The body of the [do { ... } while ( 0 )] of
    [ecp_alt_b91_backend_muladd]; each [break] leaves with the variables as
    they are at that point. *)
Definition muladd_steps (eccp_curve : eccp_curve_t)
    (m n : mbedtls_mpi) (word_len : nat)
    (st : Z * mbedtls_ecp_point * list Z * list Z * list Z * list Z * list Z)
    : M (Z * mbedtls_ecp_point * list Z * list Z * list Z * list Z * list Z) :=
  let '(result, R, ms, Q1x, Q1y, Q2x, Q2y) := st in
  let ms := void_write m ms word_len in
  do '(r, Q1x, Q1y) <- call_point_mul eccp_curve ms Q1x Q1y Q1x Q1y;
  if negb (r =? PKE_SUCCESS)%Z then ret (result, R, ms, Q1x, Q1y, Q2x, Q2y)
  else
    let ms := void_write n ms word_len in
    do '(r, Q2x, Q2y) <- call_point_mul eccp_curve ms Q2x Q2y Q2x Q2y;
    if negb (r =? PKE_SUCCESS)%Z then ret (result, R, ms, Q1x, Q1y, Q2x, Q2y)
    else
      do '(r, Q1x, Q1y) <- call_point_add eccp_curve Q1x Q1y Q2x Q2y Q1x Q1y;
      if negb (r =? PKE_SUCCESS)%Z then ret (result, R, ms, Q1x, Q1y, Q2x, Q2y)
      else
        let RX := void_read (pt_X R) Q1x word_len in
        let RY := void_read (pt_Y R) Q1y word_len in
        let RZ := void_lset (pt_Z R) 1 in
        ret (0%Z, {| pt_X := RX; pt_Y := RY; pt_Z := RZ |}, ms, Q1x, Q1y, Q2x, Q2y).

Definition ecp_alt_b91_backend_muladd
    (grp : option mbedtls_ecp_group) (R : option mbedtls_ecp_point)
    (m : option mbedtls_mpi) (P : option mbedtls_ecp_point)
    (n : option mbedtls_mpi) (Q : option mbedtls_ecp_point)
    : M (Z * option mbedtls_ecp_point * option (list (list Z))) :=
  match grp, R, m, P, n, Q with
  | Some grp, Some R, Some m, Some P, Some n, Some Q =>
      let word_len := GET_WORD_LEN (grp_pbits grp) in
      if word_len <=? PKE_OPERAND_MAX_WORD_LEN then
        do ms <- local_array 0 word_len;
        do Q1x <- local_array 1 word_len;
        do Q1y <- local_array 2 word_len;
        do Q2x <- local_array 3 word_len;
        do Q2y <- local_array 4 word_len;
        do '(result, R, ms, Q1x, Q1y, Q2x, Q2y) <-
          (if ECP_SHORTWEIERSTRASS cfg
              && bool_decide (ecp_get_type grp = ECP_TYPE_SHORT_WEIERSTRASS)
           then
             match eccp_curve_get cfg grp with
             | Some eccp_curve =>
                 let Q1x := void_write (pt_X P) Q1x word_len in
                 let Q1y := void_write (pt_Y P) Q1y word_len in
                 let Q2x := void_write (pt_X Q) Q2x word_len in
                 let Q2y := void_write (pt_Y Q) Q2y word_len in
                 mbedtls_ecp_lock ;;
                 do st <- muladd_steps eccp_curve m n word_len
                            (MBEDTLS_ERR_PLATFORM_HW_ACCEL_FAILED,
                             R, ms, Q1x, Q1y, Q2x, Q2y);
                 mbedtls_ecp_unlock ;;
                 ret st
             | None =>
                 ret (MBEDTLS_ERR_PLATFORM_FEATURE_UNSUPPORTED,
                      R, ms, Q1x, Q1y, Q2x, Q2y)
             end
           else ret (MBEDTLS_ERR_PLATFORM_FEATURE_UNSUPPORTED,
                     R, ms, Q1x, Q1y, Q2x, Q2y));
        let ms := wipe ms word_len in
        let Q1x := wipe Q1x word_len in
        let Q1y := wipe Q1y word_len in
        let Q2x := wipe Q2x word_len in
        let Q2y := wipe Q2y word_len in
        ret (result, Some R, Some [ms; Q1x; Q1y; Q2x; Q2y])
      else ret (MBEDTLS_ERR_PLATFORM_FEATURE_UNSUPPORTED, Some R, None)
  | _, _, _, _, _, _ => ret (MBEDTLS_ERR_ECP_BAD_INPUT_DATA, R, None)
  end.

(** ** Notions the statements are written in *)

(** The number a sequence of bytes denotes, least significant byte first. *)
Fixpoint le_value (bytes : list Z) : Z :=
  match bytes with
  | [] => 0%Z
  | b :: rest => (b + 256 * le_value rest)%Z
  end.

(** The number a sequence of limbs denotes, least significant limb first. *)
Fixpoint limbs_value (limbs : list Z) : Z :=
  match limbs with
  | [] => 0%Z
  | l :: rest => (l + 2 ^ biL * limbs_value rest)%Z
  end.

(** The unsigned number stored in an MPI, and the signed number it denotes. *)
Definition mpi_magnitude (X : mbedtls_mpi) : Z := limbs_value (mpi_limbs X).
Definition mpi_value (X : mbedtls_mpi) : Z := (mpi_s X * mpi_magnitude X)%Z.

Definition is_byte (z : Z) : Prop := (0 <= z < 256)%Z.
Definition is_limb (z : Z) : Prop := (0 <= z < 2 ^ biL)%Z.

(** Well-formed MPIs, the invariant the big-number library maintains: [n]
    is the size of the array [p] (NULL only when [n] is 0), limbs fit the
    limb type, the sign is 1 or -1, and the byte size [n * ciL] is a
    [size_t]. *)
Definition mpi_wf (X : mbedtls_mpi) : Prop :=
  length (mpi_limbs X) = mpi_n X
  /\ (mpi_n X = 0 \/ is_Some (mpi_p X))
  /\ Forall is_limb (mpi_limbs X)
  /\ (mpi_s X = 1 \/ mpi_s X = -1)%Z
  /\ (Z.of_nat (mpi_n X) * Z.of_nat ciL < 2 ^ SIZE_BITS)%Z.

(** The stored representation of [X]: its [n * ciL] bytes. *)
Definition stored_representation (X : mbedtls_mpi) : list Z :=
  map (GET_BYTE X) (seq 0 (mpi_n X * ciL)).

(** Byte [i] of the number [X] stores.  The limbs are the digits of the
    magnitude in base [2 ^ biL], least significant first, and a limb is
    [ciL] bytes: byte [i] is the digit of weight [256 ^ i] of the
    magnitude. *)
Definition stored_byte (X : mbedtls_mpi) (i : nat) : Z :=
  ((mpi_magnitude X / 256 ^ Z.of_nat i) mod 256)%Z.

(** What a successful export leaves in the destination. *)
Definition exported (X : mbedtls_mpi) (buflen : nat) (buf' : list Z) : Prop :=
  length buf' = buflen
  /\ forall i, i < buflen ->
       buf' !! i = Some (if decide (i < mpi_n X * ciL) then GET_BYTE X i else 0%Z).

(** [n] limbs hold the number [v]; an MPI whose limb count is the least
    that holds its value. *)
Definition holds_in (v : Z) (n : nat) : Prop := (0 <= v < 2 ^ (biL * Z.of_nat n))%Z.
Definition minimal_limb_count (X : mbedtls_mpi) : Prop :=
  forall n, holds_in (mpi_value X) n -> mpi_n X <= n.

(** A request for [nblimbs] limbs of storage is granted. *)
Definition alloc_granted (nblimbs : nat) : Prop :=
  nblimbs <= MBEDTLS_MPI_MAX_LIMBS /\ calloc_ok nblimbs = true.

(** The [ciL] bytes of one limb, least significant first. *)
Definition limb_bytes (l : Z) : list Z :=
  map (fun j => Z.land (Z.shiftr l (Z.of_nat (j * 8))) 255) (seq 0 ciL).

(** The state of the limb array after [i] bytes have been or-ed in: it
    denotes the first [i] bytes, and limb [k] only has bits below those of
    the bytes already met. *)
Definition imported (buf : list Z) (i : nat) (limbs : list Z) : Prop :=
  limbs_value limbs = le_value (take i buf)
  /\ forall k l, limbs !! k = Some l ->
       (0 <= l < 256 ^ Z.of_nat (Nat.min ciL (i - k * ciL)))%Z.

(** The MPI a successful import produces. *)
Definition decoded (buf : list Z) (buflen : nat) : mbedtls_mpi :=
  {| mpi_s := 1;
     mpi_n := Nat.max 1 (CHARS_TO_LIMBS buflen);
     mpi_p := Some (or_bytes buf 0 buflen
                      (replicate (Nat.max 1 (CHARS_TO_LIMBS buflen)) 0%Z)) |}.

(** The pieces of what a public function yields. *)
Definition op_result {A B : Type} (r : Z * A * B) : Z := fst (fst r).
Definition op_R {A B : Type} (r : Z * A * B) : A := snd (fst r).
Definition op_frame {A B : Type} (r : Z * A * B) : B := snd r.

(** An engine call that returned [PKE_SUCCESS], and one that did not. *)
Definition succeeded (e : event) : Prop := event_code e = Some PKE_SUCCESS.
Definition failed (e : event) : Prop :=
  exists r, event_code e = Some r /\ r <> PKE_SUCCESS.

(** The curve of the group is found in the registry of its family. *)
Definition registered (grp : mbedtls_ecp_group) : bool :=
  match ecp_get_type grp with
  | ECP_TYPE_NONE => false
  | ECP_TYPE_SHORT_WEIERSTRASS => bool_decide (is_Some (eccp_curve_get cfg grp))
  | ECP_TYPE_MONTGOMERY => bool_decide (is_Some (mont_curve_get cfg grp))
  end.

(** The local arrays as a function leaves them when all are cleared. *)
Definition cleared (arrays word_len : nat) : list (list Z) :=
  replicate arrays (replicate (sizeof_words word_len) 0%Z).

(** [X] does not fit an array of [word_len] words: exporting it fails. *)
Definition encode_fails (X : mbedtls_mpi) (word_len : nat) : Prop :=
  forall a, fst (mbedtls_mpi_write_binary_le X a (sizeof_words word_len))
            = MBEDTLS_ERR_MPI_BUFFER_TOO_SMALL.

(** How the sequence ends: after a failed call, which is then the last one,
    with [result] and [R] as they were; or after three successful calls,
    the last one the addition, with [R] read from its result. *)
Definition muladd_ending (curve : eccp_curve_t) (word_len : nat)
    (result0 : Z) (R : mbedtls_ecp_point)
    (calls : list event) (result' : Z) (R' : mbedtls_ecp_point) : Prop :=
  (exists pre e,
      calls = pre ++ [e] /\ Forall succeeded pre /\ failed e /\ length pre <= 2
      /\ result' = result0 /\ R' = R)
  \/ (exists e1 e2 P1x P1y P2x P2y ox oy,
        calls = [e1; e2; EvPointAdd curve P1x P1y P2x P2y PKE_SUCCESS ox oy]
        /\ succeeded e1 /\ succeeded e2
        /\ result' = 0%Z
        /\ R' = {| pt_X := void_read (pt_X R) (overwrite ox P1x) word_len;
                   pt_Y := void_read (pt_Y R) (overwrite oy P1y) word_len;
                   pt_Z := void_lset (pt_Z R) 1 |}).

(** The calls of the three-step sequence, each handed what the steps before
    left in the arrays: the first multiplication gets the scalar array [k1]
    and the point [Q1x], [Q1y]; if it succeeds the second gets [k2] and
    [Q2x], [Q2y]; if that succeeds the addition gets what the two
    multiplications wrote over their points.  A failed call ends the
    sequence. *)
Definition muladd_flow (curve : eccp_curve_t) (k1 k2 Q1x Q1y Q2x Q2y : list Z)
    (calls : list event) : Prop :=
  exists r1 ox1 oy1 rest1,
    calls = EvPointMul curve k1 Q1x Q1y r1 ox1 oy1 :: rest1
    /\ (r1 <> PKE_SUCCESS -> rest1 = [])
    /\ (r1 = PKE_SUCCESS ->
        exists r2 ox2 oy2 rest2,
          rest1 = EvPointMul curve k2 Q2x Q2y r2 ox2 oy2 :: rest2
          /\ (r2 <> PKE_SUCCESS -> rest2 = [])
          /\ (r2 = PKE_SUCCESS ->
              exists r3 ox3 oy3,
                rest2 = [EvPointAdd curve (overwrite ox1 Q1x) (overwrite oy1 Q1y)
                           (overwrite ox2 Q2x) (overwrite oy2 Q2y) r3 ox3 oy3])).

(** The engine calls of the three-step sequence by kind and outcome: a
    point multiplication that failed; or a point multiplication that
    succeeded and a second one that failed; or two point multiplications
    that succeeded and a point addition.  All on the same curve, and
    nothing else. *)
Definition muladd_calls (curve : eccp_curve_t) (calls : list event) : Prop :=
  (exists k Px Py r ox oy,
      calls = [EvPointMul curve k Px Py r ox oy] /\ r <> PKE_SUCCESS)
  \/ (exists k1 P1x P1y ox1 oy1 k2 P2x P2y r ox2 oy2,
        calls = [EvPointMul curve k1 P1x P1y PKE_SUCCESS ox1 oy1;
                 EvPointMul curve k2 P2x P2y r ox2 oy2]
        /\ r <> PKE_SUCCESS)
  \/ (exists k1 P1x P1y ox1 oy1 k2 P2x P2y ox2 oy2 Q1x Q1y Q2x Q2y r ox oy,
        calls = [EvPointMul curve k1 P1x P1y PKE_SUCCESS ox1 oy1;
                 EvPointMul curve k2 P2x P2y PKE_SUCCESS ox2 oy2;
                 EvPointAdd curve Q1x Q1y Q2x Q2y r ox oy]).

(** An array fit to be an engine operand for [word_len]-word curves: that
    many words, all of them bytes. *)
Definition operand_ok (word_len : nat) (a : list Z) : Prop :=
  length a = sizeof_words word_len /\ Forall is_byte a.

(** Running a call from a given world: its value and the events it added. *)
Definition value_of {A : Type} (m : M A) (w : world HW) : A := fst (m w).
Definition world_after {A : Type} (m : M A) (w : world HW) : world HW := snd (m w).

(** ** The word codec *)

Lemma size_t_mul_nowrap (a b : nat) :
  (Z.of_nat a * Z.of_nat b < 2 ^ SIZE_BITS)%Z -> size_t_mul a b = a * b.
Proof.
  intros Hlt. unfold size_t_mul.
  rewrite Z.mod_small by lia. lia.
Qed.

Lemma length_memset (buf : list Z) (off : nat) (c : Z) (len : nat) :
  length (memset buf off c len) = length buf.
Proof.
  revert buf off. induction len as [|len IH]; intros buf off; simpl; [done|].
  by rewrite IH, length_insert.
Qed.

Lemma lookup_memset (buf : list Z) (off : nat) (c : Z) (len j : nat) :
  memset buf off c len !! j =
  if decide (off <= j < off + len /\ j < length buf) then Some c else buf !! j.
Proof.
  revert buf off. induction len as [|len IH]; intros buf off; simpl.
  - case_decide; [lia|done].
  - rewrite IH, length_insert.
    destruct (decide (j = off)) as [->|Hne].
    + rewrite decide_False by lia.
      case_decide.
      * apply list_lookup_insert_eq. lia.
      * rewrite list_insert_ge by lia. done.
    + rewrite list_lookup_insert_ne by done.
      repeat case_decide; try done; lia.
Qed.

Lemma length_copy_bytes (X : mbedtls_mpi) (i count : nat) (buf : list Z) :
  length (copy_bytes X i count buf) = length buf.
Proof.
  revert buf i. induction count as [|count IH]; intros buf i; simpl; [done|].
  by rewrite IH, length_insert.
Qed.

Lemma lookup_copy_bytes (X : mbedtls_mpi) (i count : nat) (buf : list Z) (j : nat) :
  copy_bytes X i count buf !! j =
  if decide (i <= j < i + count /\ j < length buf)
  then Some (GET_BYTE X j) else buf !! j.
Proof.
  revert buf i. induction count as [|count IH]; intros buf i; simpl.
  - case_decide; [lia|done].
  - rewrite IH, length_insert.
    destruct (decide (j = i)) as [->|Hne].
    + rewrite decide_False by lia.
      case_decide.
      * apply list_lookup_insert_eq. lia.
      * rewrite list_insert_ge by lia. done.
    + rewrite list_lookup_insert_ne by done.
      repeat case_decide; try done; lia.
Qed.

Lemma excess_nonzero_true (X : mbedtls_mpi) (i count : nat) :
  excess_nonzero X i count = true <->
  exists j, i <= j < i + count /\ GET_BYTE X j <> 0%Z.
Proof.
  revert i. induction count as [|count IH]; intros i; simpl.
  - split; [done|]. intros (j & Hj & _). lia.
  - destruct (Z.eqb_spec (GET_BYTE X i) 0) as [Hz|Hnz].
    + rewrite IH. split.
      * intros (j & Hj & Hb). exists j. split; [lia|done].
      * intros (j & Hj & Hb). exists j. split; [|done].
        destruct (decide (j = i)) as [->|]; [done|lia].
    + split; [|done]. intros _. exists i. split; [lia|done].
Qed.

Lemma write_binary_le_cases (X : mbedtls_mpi) (buf : list Z) (buflen : nat) :
  mpi_wf X -> length buf = buflen ->
  ((exists i, buflen <= i < mpi_n X * ciL /\ GET_BYTE X i <> 0%Z)
   /\ mbedtls_mpi_write_binary_le X buf buflen = (MBEDTLS_ERR_MPI_BUFFER_TOO_SMALL, buf))
  \/ ((forall i, buflen <= i < mpi_n X * ciL -> GET_BYTE X i = 0%Z)
      /\ exists buf', mbedtls_mpi_write_binary_le X buf buflen = (0%Z, buf')
                      /\ exported X buflen buf').
Proof.
  intros (_ & _ & _ & _ & Hsz) Hlen.
  unfold mbedtls_mpi_write_binary_le.
  rewrite (size_t_mul_nowrap _ _ Hsz).
  destruct (Nat.ltb_spec (mpi_n X * ciL) buflen) as [Hlt|Hge]; simpl.
  - right. split; [intros i Hi; lia|].
    eexists. split; [done|]. split.
    + by rewrite length_memset, length_copy_bytes.
    + intros i Hi. rewrite lookup_memset, lookup_copy_bytes, length_copy_bytes.
      repeat case_decide; try done; lia.
  - destruct (excess_nonzero X buflen (mpi_n X * ciL - buflen)) eqn:Hex.
    + left. split; [|done].
      apply excess_nonzero_true in Hex as (j & Hj & Hb). exists j. split; [lia|done].
    + right. split.
      * intros i Hi. destruct (Z.eq_dec (GET_BYTE X i) 0%Z) as [|Hnz]; [done|].
        assert (excess_nonzero X buflen (mpi_n X * ciL - buflen) = true) as Habs.
        { apply excess_nonzero_true. exists i. split; [lia|done]. }
        congruence.
      * eexists. split; [done|]. split.
        -- by rewrite length_copy_bytes.
        -- intros i Hi. rewrite lookup_copy_bytes.
           repeat case_decide; try done; lia.
Qed.

(** *** Storage *)

Lemma limbs_value_replicate_0 (n : nat) : limbs_value (replicate n 0%Z) = 0%Z.
Proof. induction n as [|n IH]; simpl; [done|]. rewrite IH. lia. Qed.

Lemma pow_biL : (2 ^ biL = 256 ^ Z.of_nat ciL)%Z.
Proof.
  unfold biL. rewrite Z.pow_mul_r by lia. done.
Qed.

Lemma limb_wrap_0 : limb_wrap (Z.abs 0) = 0%Z.
Proof. unfold limb_wrap. simpl. apply Z.mod_0_l. apply Z.pow_nonzero; unfold biL; lia. Qed.

Lemma insert_0_replicate (n : nat) :
  <[0 := 0%Z]> (replicate n 0%Z) = replicate n 0%Z.
Proof. destruct n; done. Qed.

(** Whatever the destination held, an import whose storage request is
    granted returns 0 and leaves [decoded buf buflen]. *)
Lemma read_binary_le_decoded (X : mbedtls_mpi) (buf : list Z) (buflen : nat) :
  mpi_wf X -> alloc_granted (Nat.max 1 (CHARS_TO_LIMBS buflen)) ->
  mbedtls_mpi_read_binary_le X buf buflen = (0%Z, decoded buf buflen).
Proof.
  intros (Hlen & Hnull & _) [Hmax Hcalloc].
  unfold mbedtls_mpi_read_binary_le, decoded.
  set (limbs := CHARS_TO_LIMBS buflen) in *.
  assert ((MBEDTLS_MPI_MAX_LIMBS <? 1) = false) as Hmax1 by (apply Nat.ltb_ge; lia).
  assert ((MBEDTLS_MPI_MAX_LIMBS <? limbs) = false) as Hmaxl by (apply Nat.ltb_ge; lia).
  destruct (Nat.eqb_spec (mpi_n X) limbs) as [Heq|Hne]; simpl negb; cbv iota.
  - unfold MBEDTLS_MPI_CHK at 1. simpl fst. simpl snd. cbv iota.
    unfold mbedtls_mpi_lset, mbedtls_mpi_grow. rewrite Hmax1.
    destruct (Nat.ltb_spec (mpi_n X) 1) as [Hlt|Hge].
    + assert (limbs = 0) as Hl0 by lia. rewrite Hl0 in *.
      simpl Nat.max in *. rewrite Hcalloc. unfold MBEDTLS_MPI_CHK. simpl.
      replace (mpi_n X) with 0 by lia. simpl.
      by rewrite limb_wrap_0.
    + destruct Hnull as [Hn0|[ls Hp]]; [lia|].
      unfold MBEDTLS_MPI_CHK. simpl. rewrite Hp. simpl.
      rewrite limb_wrap_0, insert_0_replicate.
      replace (Nat.max 1 limbs) with (mpi_n X) by lia. done.
  - unfold mbedtls_mpi_grow at 1. simpl mpi_n. rewrite Hmaxl.
    destruct (Nat.ltb_spec 0 limbs) as [Hpos|Hz].
    + replace (Nat.max 1 limbs) with limbs in * by lia. rewrite Hcalloc.
      unfold MBEDTLS_MPI_CHK at 1. simpl fst. simpl snd. cbv iota.
      unfold mbedtls_mpi_lset, mbedtls_mpi_grow. rewrite Hmax1. simpl mpi_n.
      replace (limbs <? 1) with false by (symmetry; apply Nat.ltb_ge; lia).
      unfold MBEDTLS_MPI_CHK. simpl.
      rewrite limb_wrap_0, insert_0_replicate. done.
    + assert (limbs = 0) as Hl0 by lia. rewrite Hl0 in *. simpl Nat.max in *.
      unfold MBEDTLS_MPI_CHK at 1. simpl fst. simpl snd. cbv iota.
      unfold mbedtls_mpi_lset, mbedtls_mpi_grow. rewrite Hmax1. simpl.
      rewrite Hcalloc. unfold MBEDTLS_MPI_CHK. simpl.
      by rewrite limb_wrap_0.
Qed.

Lemma lset_value (X : mbedtls_mpi) (z : Z) :
  mpi_wf X -> alloc_granted 1 -> (Z.abs z < 2 ^ biL)%Z ->
  exists X', mbedtls_mpi_lset X z = (0%Z, X') /\ mpi_value X' = z
             /\ mpi_n X' = Nat.max 1 (mpi_n X).
Proof.
  intros (Hlen & Hnull & _) [Hmax Hcalloc] Hz.
  unfold mbedtls_mpi_lset, mbedtls_mpi_grow.
  replace (MBEDTLS_MPI_MAX_LIMBS <? 1) with false by (symmetry; apply Nat.ltb_ge; lia).
  assert (limb_wrap (Z.abs z) = Z.abs z) as Hwrap.
  { unfold limb_wrap. apply Z.mod_small. lia. }
  assert (forall n, 0 < n ->
            limbs_value (<[0 := Z.abs z]> (replicate n 0%Z)) = Z.abs z) as Hval.
  { intros [|n] Hn; [lia|]. simpl. rewrite limbs_value_replicate_0. lia. }
  destruct (Nat.ltb_spec (mpi_n X) 1) as [Hlt|Hge].
  - rewrite Hcalloc. unfold MBEDTLS_MPI_CHK. simpl.
    eexists. split; [done|]. split; [|simpl; lia].
    unfold mpi_value, mpi_magnitude, mpi_limbs. simpl.
    rewrite Hwrap. destruct (Z.ltb_spec z 0); lia.
  - destruct Hnull as [Hn0|[ls Hp]]; [lia|].
    unfold MBEDTLS_MPI_CHK. simpl. rewrite Hp. simpl.
    eexists. split; [done|]. split; [|simpl; lia].
    unfold mpi_value, mpi_magnitude, mpi_limbs. simpl.
    rewrite Hwrap, Hval by lia. destruct (Z.ltb_spec z 0); lia.
Qed.

(** *** Bytes and limbs as numbers *)

Section PositiveLimb.

(** A limb holds at least one char. *)
Hypothesis ciL_pos : 0 < ciL.

Lemma le_value_app (a b : list Z) :
  le_value (a ++ b) = (le_value a + 256 ^ Z.of_nat (length a) * le_value b)%Z.
Proof.
  induction a as [|x a IH]; simpl length; simpl app; simpl le_value.
  - lia.
  - rewrite IH, Nat2Z.inj_succ, Z.pow_succ_r by lia. lia.
Qed.

Lemma le_value_zeros (a : list Z) :
  (forall i, default 0%Z (a !! i) = 0%Z) -> le_value a = 0%Z.
Proof.
  induction a as [|x a IH]; intros Hz; simpl; [done|].
  pose proof (Hz 0) as H0. simpl in H0. subst x.
  rewrite IH; [lia|]. intros i. apply (Hz (S i)).
Qed.

(** The value of a byte sequence only depends on its bytes, absent ones
    counting as zero. *)
Lemma le_value_ext (a b : list Z) :
  (forall i, default 0%Z (a !! i) = default 0%Z (b !! i)) -> le_value a = le_value b.
Proof.
  revert b. induction a as [|x a IH]; intros b Hab.
  - symmetry. apply le_value_zeros. intros i. by rewrite <- Hab.
  - destruct b as [|y b].
    + apply le_value_zeros. intros i. by rewrite Hab.
    + simpl. pose proof (Hab 0) as H0. simpl in H0. subst y.
      rewrite (IH b); [done|]. intros i. apply (Hab (S i)).
Qed.

Lemma le_value_nonneg (a : list Z) : Forall is_byte a -> (0 <= le_value a)%Z.
Proof.
  induction 1 as [|x a Hx _ IH]; simpl; [lia|]. unfold is_byte in Hx. lia.
Qed.

Lemma le_value_bound (a : list Z) :
  Forall is_byte a -> (le_value a < 256 ^ Z.of_nat (length a))%Z.
Proof.
  induction 1 as [|x a Hx _ IH]; simpl length; simpl le_value; [simpl; lia|].
  rewrite Nat2Z.inj_succ, Z.pow_succ_r by lia. unfold is_byte in Hx. lia.
Qed.

(** A set byte at position [i] makes the value at least [256 ^ i]. *)
Lemma le_value_byte_le (a : list Z) (i : nat) (b : Z) :
  Forall is_byte a -> a !! i = Some b -> (256 ^ Z.of_nat i * b <= le_value a)%Z.
Proof.
  intros Ha. revert i. induction Ha as [|x a Hx Ha IH]; intros i Hi; [done|].
  pose proof (le_value_nonneg a Ha) as Hnn. unfold is_byte in Hx.
  change (le_value (x :: a)) with (x + 256 * le_value a)%Z.
  destruct i as [|i].
  - injection Hi as ->. simpl. lia.
  - specialize (IH i Hi). rewrite Nat2Z.inj_succ, Z.pow_succ_r by lia. lia.
Qed.

Lemma limbs_value_app (a b : list Z) :
  limbs_value (a ++ b)
  = (limbs_value a + 2 ^ (biL * Z.of_nat (length a)) * limbs_value b)%Z.
Proof.
  induction a as [|x a IH]; simpl length; simpl app; simpl limbs_value.
  - rewrite Z.mul_0_r. simpl. lia.
  - rewrite IH, Nat2Z.inj_succ.
    replace (biL * Z.succ (Z.of_nat (length a)))%Z
      with (biL + biL * Z.of_nat (length a))%Z by lia.
    rewrite Z.pow_add_r by (unfold biL; lia). lia.
Qed.

Lemma GET_BYTE_is_byte (X : mbedtls_mpi) (i : nat) : is_byte (GET_BYTE X i).
Proof.
  unfold GET_BYTE, is_byte. change 255%Z with (Z.ones 8).
  rewrite Z.land_ones by lia. apply Z.mod_pos_bound. lia.
Qed.

Lemma le_value_digits (l : Z) (c : nat) :
  (0 <= l)%Z ->
  le_value (map (fun j => Z.land (Z.shiftr l (Z.of_nat (j * 8))) 255) (seq 0 c))
  = (l mod 256 ^ Z.of_nat c)%Z.
Proof.
  revert l. induction c as [|c IH]; intros l Hl.
  - simpl. by rewrite Z.mod_1_r.
  - rewrite <- cons_seq. simpl map. simpl le_value.
    rewrite <- fmap_S_seq, <- list_fmap_compose.
    rewrite (list_fmap_ext _ (fun j => Z.land (Z.shiftr (l / 256) (Z.of_nat (j * 8))) 255) (seq 0 c)).
    2:{ intros k j _. unfold compose.
        replace (Z.of_nat (S j * 8)) with (8 + Z.of_nat (j * 8))%Z by lia.
        change (l / 256)%Z with (l / 2 ^ 8)%Z.
        rewrite <- Z.shiftr_div_pow2, Z.shiftr_shiftr by lia. done. }
    rewrite IH by (apply Z.div_pos; lia).
    rewrite Z.shiftr_0_r. change 255%Z with (Z.ones 8).
    rewrite Z.land_ones by lia.
    rewrite Nat2Z.inj_succ, Z.pow_succ_r by lia.
    rewrite Z.rem_mul_r by lia. change (2 ^ 8)%Z with 256%Z. lia.
Qed.

Lemma le_value_limb_bytes (l : Z) : is_limb l -> le_value (limb_bytes l) = l.
Proof.
  intros [Hl Hu]. unfold limb_bytes.
  rewrite le_value_digits by done. rewrite <- pow_biL. by apply Z.mod_small.
Qed.

Lemma length_limb_bytes (l : Z) : length (limb_bytes l) = ciL.
Proof. unfold limb_bytes. by rewrite length_map, length_seq. Qed.

Lemma GET_BYTE_at (X : mbedtls_mpi) (k j : nat) :
  j < ciL ->
  GET_BYTE X (k * ciL + j) = Z.land (Z.shiftr (limb_at X k) (Z.of_nat (j * 8))) 255.
Proof.
  intros Hj. unfold GET_BYTE.
  replace ((k * ciL + j) / ciL) with k.
  2:{ apply Nat.div_unique with j; lia. }
  replace ((k * ciL + j) mod ciL) with j.
  2:{ apply Nat.mod_unique with k; lia. }
  done.
Qed.

Lemma stored_bytes_flat (X : mbedtls_mpi) (ls : list Z) (k0 : nat) :
  (forall k l, ls !! k = Some l -> limb_at X (k0 + k) = l) ->
  map (GET_BYTE X) (seq (k0 * ciL) (length ls * ciL)) = flat_map limb_bytes ls.
Proof.
  revert k0. induction ls as [|l ls IH]; intros k0 Hls; [done|].
  simpl length. simpl flat_map.
  replace (S (length ls) * ciL) with (ciL + length ls * ciL) by lia.
  rewrite seq_app, map_app. f_equal.
  - unfold limb_bytes. apply list_eq. intros i.
    rewrite !list_lookup_fmap.
    destruct (decide (i < ciL)) as [Hi|Hi].
    + rewrite !lookup_seq_lt by done. simpl.
      rewrite GET_BYTE_at by done.
      specialize (Hls 0 l eq_refl). rewrite Nat.add_0_r in Hls. by rewrite Hls.
    + rewrite !lookup_seq_ge by lia. done.
  - replace (k0 * ciL + ciL) with (S k0 * ciL) by lia.
    apply IH. intros k l' Hk. rewrite <- (Hls (S k) l' Hk). f_equal. lia.
Qed.

Lemma le_value_flat_limbs (ls : list Z) :
  Forall is_limb ls -> le_value (flat_map limb_bytes ls) = limbs_value ls.
Proof.
  induction 1 as [|l ls Hl _ IH]; [done|].
  simpl. rewrite le_value_app, length_limb_bytes, IH, le_value_limb_bytes by done.
  by rewrite pow_biL.
Qed.

(** The stored bytes of a well-formed MPI denote its magnitude. *)
Lemma le_value_stored (X : mbedtls_mpi) :
  mpi_wf X -> le_value (stored_representation X) = mpi_magnitude X.
Proof.
  intros (Hlen & _ & Hlimbs & _). unfold stored_representation, mpi_magnitude.
  rewrite <- Hlen. change (length (mpi_limbs X) * ciL) with (length (mpi_limbs X) * ciL).
  rewrite <- (le_value_flat_limbs _ Hlimbs).
  f_equal. apply (stored_bytes_flat X (mpi_limbs X) 0).
  intros k l Hk. unfold limb_at. simpl. by rewrite Hk.
Qed.

Lemma lookup_stored (X : mbedtls_mpi) (i : nat) :
  stored_representation X !! i
  = if decide (i < mpi_n X * ciL) then Some (GET_BYTE X i) else None.
Proof.
  unfold stored_representation. case_decide.
  - rewrite list_lookup_fmap, lookup_seq_lt by done. done.
  - rewrite list_lookup_fmap, lookup_seq_ge by lia. done.
Qed.

Lemma stored_is_bytes (X : mbedtls_mpi) : Forall is_byte (stored_representation X).
Proof.
  unfold stored_representation. apply Forall_fmap, Forall_forall.
  intros i _. apply GET_BYTE_is_byte.
Qed.

(** The byte at position [i] of a byte sequence is the digit of weight
    [256 ^ i] of the number it denotes. *)
Lemma le_value_digit (a : list Z) (i : nat) (b : Z) :
  Forall is_byte a -> a !! i = Some b ->
  ((le_value a / 256 ^ Z.of_nat i) mod 256)%Z = b.
Proof.
  intros Ha. revert i. induction Ha as [|x rest Hx Hrest IH]; intros i Hi; [done|].
  unfold is_byte in Hx. destruct i as [|i]; simpl in Hi.
  - injection Hi as <-. cbn [le_value].
    change (Z.of_nat 0) with 0%Z. rewrite Z.pow_0_r, Z.div_1_r.
    replace (x + 256 * le_value rest)%Z with (x + le_value rest * 256)%Z by lia.
    rewrite Z.mod_add by lia. by apply Z.mod_small.
  - cbn [le_value]. rewrite Nat2Z.inj_succ, Z.pow_succ_r by lia.
    rewrite <- Z.div_div by lia.
    replace (x + 256 * le_value rest)%Z with (le_value rest * 256 + x)%Z by lia.
    rewrite Z.div_add_l by lia.
    rewrite (Z.div_small x) by lia. rewrite Z.add_0_r. by apply IH.
Qed.

(** What [GET_BYTE] reads off the limbs of a well-formed MPI is the byte
    of the number stored. *)
Lemma GET_BYTE_stored_byte (X : mbedtls_mpi) (i : nat) :
  mpi_wf X -> i < mpi_n X * ciL -> GET_BYTE X i = stored_byte X i.
Proof.
  intros Hwf Hi. unfold stored_byte. rewrite <- (le_value_stored X) by done.
  symmetry. apply le_value_digit; [apply stored_is_bytes|].
  rewrite lookup_stored. by rewrite decide_True.
Qed.

(** C2.  For a well-formed MPI, [mbedtls_mpi_write_binary_le] returns
    [MBEDTLS_ERR_MPI_BUFFER_TOO_SMALL] exactly when some byte of the number
    stored in [X], among its [n * ciL] bytes, at or beyond the width of the
    destination is not zero; when all those bytes are zero it returns 0,
    having copied the low bytes of the number and zero-filled the rest of
    the destination.  The bytes are read off the number the limbs denote
    ([stored_byte]), independently of [GET_BYTE]. *)
Theorem write_binary_le_too_small_iff (X : mbedtls_mpi) (buf : list Z) (buflen : nat) :
  mpi_wf X -> length buf = buflen ->
  (fst (mbedtls_mpi_write_binary_le X buf buflen) = MBEDTLS_ERR_MPI_BUFFER_TOO_SMALL
   <-> exists i, buflen <= i < mpi_n X * ciL /\ stored_byte X i <> 0%Z)
  /\ ((forall i, buflen <= i < mpi_n X * ciL -> stored_byte X i = 0%Z) ->
      exists buf',
        mbedtls_mpi_write_binary_le X buf buflen = (0%Z, buf')
        /\ length buf' = buflen
        /\ forall i, i < buflen ->
             buf' !! i = Some (if decide (i < mpi_n X * ciL)
                               then stored_byte X i else 0%Z)).
Proof.
  intros Hwf Hlen.
  destruct (write_binary_le_cases X buf buflen Hwf Hlen)
    as [[(i & Hi & Hb) Hw]|[Hz (buf' & Hw & Hl & Hex)]]; rewrite Hw; simpl.
  - rewrite GET_BYTE_stored_byte in Hb by (done || lia).
    split; [split; [eauto|done]|].
    intros Hall. exfalso. apply Hb, Hall, Hi.
  - split.
    + split; [done|]. intros (i & Hi & Hb). exfalso. apply Hb.
      rewrite <- GET_BYTE_stored_byte by (done || lia). apply Hz, Hi.
    + intros _. exists buf'. split; [done|]. split; [done|].
      intros i Hi. rewrite Hex by done.
      destruct (decide (i < mpi_n X * ciL)); [|done].
      by rewrite GET_BYTE_stored_byte.
Qed.

(** A successful export denotes the magnitude of [X]. *)
Lemma exported_value (X : mbedtls_mpi) (buflen : nat) (buf' : list Z) :
  mpi_wf X ->
  (forall i, buflen <= i < mpi_n X * ciL -> GET_BYTE X i = 0%Z) ->
  exported X buflen buf' ->
  le_value buf' = mpi_magnitude X.
Proof.
  intros Hwf Hz [Hlen Hbuf]. rewrite <- (le_value_stored X Hwf).
  apply le_value_ext. intros i. rewrite lookup_stored.
  destruct (decide (i < buflen)) as [Hi|Hi].
  - rewrite (Hbuf i Hi). by case_decide.
  - rewrite lookup_ge_None_2 by lia.
    case_decide; simpl; [|done]. symmetry. apply Hz. lia.
Qed.

Lemma exported_is_bytes (X : mbedtls_mpi) (buflen : nat) (buf' : list Z) :
  exported X buflen buf' -> Forall is_byte buf'.
Proof.
  intros [Hlen Hbuf]. apply Forall_lookup. intros i b Hi.
  assert (i < buflen) as Hlt by (rewrite <- Hlen; by eapply lookup_lt_Some).
  rewrite (Hbuf i Hlt) in Hi. injection Hi as <-.
  case_decide; [apply GET_BYTE_is_byte|unfold is_byte; lia].
Qed.

(** A magnitude below [256 ^ w] has no set byte at or beyond position [w]. *)
Lemma fits_no_excess (X : mbedtls_mpi) (w : nat) :
  mpi_wf X -> (mpi_magnitude X < 256 ^ Z.of_nat w)%Z ->
  forall i, w <= i < mpi_n X * ciL -> GET_BYTE X i = 0%Z.
Proof.
  intros Hwf Hfit i Hi.
  pose proof (GET_BYTE_is_byte X i) as Hb. unfold is_byte in Hb.
  destruct (Z.eq_dec (GET_BYTE X i) 0%Z) as [|Hnz]; [done|exfalso].
  pose proof (le_value_byte_le (stored_representation X) i (GET_BYTE X i)
                (stored_is_bytes X)) as Hle.
  rewrite lookup_stored, decide_True in Hle by lia. specialize (Hle eq_refl).
  rewrite (le_value_stored X Hwf) in Hle.
  assert (256 ^ Z.of_nat w <= 256 ^ Z.of_nat i)%Z by (apply Z.pow_le_mono_r; lia).
  nia.
Qed.

(** *** Import *)

Lemma limbs_value_alter (f : Z -> Z) (limbs : list Z) (k : nat) (l : Z) :
  limbs !! k = Some l ->
  limbs_value (alter f k limbs)
  = (limbs_value limbs + (f l - l) * 2 ^ (biL * Z.of_nat k))%Z.
Proof.
  revert k. induction limbs as [|x limbs IH]; intros k Hk; [done|].
  destruct k as [|k].
  - injection Hk as ->. simpl. rewrite Z.mul_0_r. simpl. lia.
  - change (alter f (S k) (x :: limbs)) with (x :: alter f k limbs).
    change (limbs_value (x :: alter f k limbs))
      with (x + 2 ^ biL * limbs_value (alter f k limbs))%Z.
    change (limbs_value (x :: limbs)) with (x + 2 ^ biL * limbs_value limbs)%Z.
    rewrite (IH k Hk), Nat2Z.inj_succ.
    replace (biL * Z.succ (Z.of_nat k))%Z with (biL + biL * Z.of_nat k)%Z by lia.
    rewrite Z.pow_add_r by (unfold biL; lia). lia.
Qed.

(** Or-ing a shifted value into a limb whose bits at and above the shift
    are clear adds it. *)
Lemma lor_shifted (l b m : Z) :
  (0 <= m)%Z -> (0 <= l < 2 ^ m)%Z -> Z.lor l (Z.shiftl b m) = (l + b * 2 ^ m)%Z.
Proof.
  intros Hm Hl.
  assert (Z.land l (Z.shiftl b m) = 0%Z) as Hdisj.
  { apply Z.bits_inj'. intros n Hn. rewrite Z.land_spec, Z.bits_0.
    destruct (Z.lt_ge_cases n m) as [Hlt|Hge].
    - rewrite Z.shiftl_spec_low by done. apply andb_false_r.
    - assert (Z.testbit l n = false) as ->; [|done].
      apply Z.testbit_false; [done|].
      rewrite Z.div_small; [done|]. split; [lia|].
      apply Z.lt_le_trans with (2 ^ m)%Z; [lia|].
      apply Z.pow_le_mono_r; lia. }
  rewrite <- Z.lxor_lor by done.
  rewrite <- Z.add_nocarry_lxor by done.
  by rewrite Z.shiftl_mul_pow2.
Qed.

Lemma imported_step (buf : list Z) (i : nat) (limbs : list Z) (b : Z) :
  buf !! i = Some b -> is_byte b -> i < length limbs * ciL ->
  imported buf i limbs ->
  imported buf (S i)
    (alter (fun l => Z.lor l (limb_wrap (Z.shiftl (default 0%Z (buf !! i))
                                          (Z.shiftl (Z.of_nat (i mod ciL)) 3))))
           (i / ciL) limbs).
Proof.
  intros Hb Hbyte Hi [Hval Hbits]. rewrite Hb. simpl default.
  pose proof (Nat.div_mod_eq i ciL) as Hdm.
  pose proof (Nat.mod_upper_bound i ciL ltac:(lia)) as Hmod.
  set (k0 := i / ciL) in *. set (j := i mod ciL) in *.
  assert (k0 < length limbs) as Hk0 by nia.
  destruct (lookup_lt_is_Some_2 limbs k0 Hk0) as [l Hl].
  pose proof (Hbits k0 l Hl) as Hlb.
  replace (Nat.min ciL (i - k0 * ciL)) with j in Hlb by lia.
  unfold is_byte in Hbyte.
  assert (Z.shiftl (Z.of_nat j) 3 = 8 * Z.of_nat j)%Z as Hsh.
  { rewrite Z.shiftl_mul_pow2 by lia. change (2 ^ 3)%Z with 8%Z. lia. }
  assert (2 ^ (8 * Z.of_nat j) = 256 ^ Z.of_nat j)%Z as Hp.
  { rewrite Z.pow_mul_r by lia. done. }
  assert (0 < 256 ^ Z.of_nat j)%Z as Hppos by (apply Z.pow_pos_nonneg; lia).
  assert (256 ^ Z.of_nat (S j) <= 2 ^ biL)%Z as Hcap.
  { rewrite pow_biL. apply Z.pow_le_mono_r; lia. }
  rewrite Nat2Z.inj_succ, Z.pow_succ_r in Hcap by lia.
  assert (limb_wrap (Z.shiftl b (Z.shiftl (Z.of_nat j) 3)) = b * 256 ^ Z.of_nat j)%Z
    as Hwrap.
  { unfold limb_wrap. rewrite Hsh, Z.shiftl_mul_pow2, Hp by lia.
    apply Z.mod_small. nia. }
  assert (Z.lor l (limb_wrap (Z.shiftl b (Z.shiftl (Z.of_nat j) 3)))
          = l + b * 256 ^ Z.of_nat j)%Z as Hor.
  { rewrite Hwrap, <- Hp.
    rewrite <- (lor_shifted l b (8 * Z.of_nat j)) by (rewrite ?Hp; lia).
    by rewrite Z.shiftl_mul_pow2 by lia. }
  split.
  - rewrite (limbs_value_alter _ limbs k0 l Hl), Hor, Hval.
    rewrite (take_S_r buf i b Hb), le_value_app. simpl le_value.
    rewrite length_take_le by (apply Nat.lt_le_incl; by eapply lookup_lt_Some).
    replace (l + b * 256 ^ Z.of_nat j - l)%Z with (b * 256 ^ Z.of_nat j)%Z by lia.
    unfold biL.
    replace (8 * Z.of_nat ciL * Z.of_nat k0)%Z with (8 * Z.of_nat (ciL * k0))%Z by lia.
    rewrite Z.pow_mul_r by lia. change (2 ^ 8)%Z with 256%Z.
    rewrite <- Z.mul_assoc, <- Z.pow_add_r by lia.
    replace (Z.of_nat j + Z.of_nat (ciL * k0))%Z with (Z.of_nat i) by lia. lia.
  - intros k l' Hk. destruct (decide (k = k0)) as [->|Hne].
    + rewrite list_lookup_alter_eq, Hl in Hk. injection Hk as <-.
      rewrite Hor. replace (Nat.min ciL (S i - k0 * ciL)) with (S j) by lia.
      rewrite Nat2Z.inj_succ, Z.pow_succ_r by lia. nia.
    + rewrite list_lookup_alter_ne in Hk by done.
      pose proof (Hbits k l' Hk) as Hb'.
      split; [lia|]. eapply Z.lt_le_trans; [apply Hb'|].
      apply Z.pow_le_mono_r; lia.
Qed.

Lemma length_or_bytes (buf : list Z) (i count : nat) (limbs : list Z) :
  length (or_bytes buf i count limbs) = length limbs.
Proof.
  revert i limbs. induction count as [|count IH]; intros i limbs; simpl; [done|].
  by rewrite IH, length_alter.
Qed.

Lemma imported_or_bytes (buf : list Z) (count i : nat) (limbs : list Z) :
  Forall is_byte buf -> i + count <= length buf -> i + count <= length limbs * ciL ->
  imported buf i limbs -> imported buf (i + count) (or_bytes buf i count limbs).
Proof.
  intros Hbytes. revert i limbs.
  induction count as [|count IH]; intros i limbs Hbuf Hroom Hinv; simpl.
  - by rewrite Nat.add_0_r.
  - replace (i + S count) with (S i + count) by lia.
    destruct (lookup_lt_is_Some_2 buf i ltac:(lia)) as [b Hb].
    apply IH; [lia|rewrite length_alter; lia|].
    apply (imported_step buf i limbs b); [done| |lia|done].
    eapply Forall_lookup_1; eauto.
Qed.

Lemma imported_zeros (buf : list Z) (n : nat) : imported buf 0 (replicate n 0%Z).
Proof.
  split.
  - by rewrite limbs_value_replicate_0.
  - intros k l Hk. apply lookup_replicate in Hk as [-> _].
    split; [lia|]. apply Z.pow_pos_nonneg; lia.
Qed.

Lemma imported_is_limb (buf : list Z) (i : nat) (limbs : list Z) :
  imported buf i limbs -> Forall is_limb limbs.
Proof.
  intros [_ Hbits]. apply Forall_lookup. intros k l Hk.
  destruct (Hbits k l Hk) as [Hlo Hhi]. split; [done|].
  rewrite pow_biL. eapply Z.lt_le_trans; [apply Hhi|].
  apply Z.pow_le_mono_r; lia.
Qed.

Lemma CHARS_TO_LIMBS_room (buflen : nat) : buflen <= CHARS_TO_LIMBS buflen * ciL.
Proof.
  unfold CHARS_TO_LIMBS.
  pose proof (Nat.div_mod_eq buflen ciL) as Hdm.
  pose proof (Nat.mod_upper_bound buflen ciL ltac:(lia)) as Hmod.
  destruct (Nat.eqb_spec (buflen mod ciL) 0); nia.
Qed.

Lemma decoded_imported (buf : list Z) (buflen : nat) :
  Forall is_byte buf -> length buf = buflen ->
  imported buf buflen (mpi_limbs (decoded buf buflen)).
Proof.
  intros Hbytes Hlen. unfold decoded, mpi_limbs. simpl.
  apply (imported_or_bytes buf buflen 0); [done|lia| |apply imported_zeros].
  rewrite length_replicate. pose proof (CHARS_TO_LIMBS_room buflen). nia.
Qed.

Lemma decoded_wf (buf : list Z) (buflen : nat) :
  Forall is_byte buf -> length buf = buflen ->
  (Z.of_nat (Nat.max 1 (CHARS_TO_LIMBS buflen)) * Z.of_nat ciL < 2 ^ SIZE_BITS)%Z ->
  mpi_wf (decoded buf buflen).
Proof.
  intros Hbytes Hlen Hsz. pose proof (decoded_imported buf buflen Hbytes Hlen) as Himp.
  unfold mpi_wf. split; [|split; [|split; [|split]]].
  - unfold decoded, mpi_limbs. simpl. by rewrite length_or_bytes, length_replicate.
  - right. by eexists.
  - by eapply imported_is_limb.
  - by left.
  - done.
Qed.

Lemma decoded_value (buf : list Z) (buflen : nat) :
  Forall is_byte buf -> length buf = buflen ->
  mpi_value (decoded buf buflen) = le_value buf.
Proof.
  intros Hbytes Hlen. destruct (decoded_imported buf buflen Hbytes Hlen) as [Hval _].
  unfold mpi_value, mpi_magnitude. rewrite Hval. simpl mpi_s.
  rewrite take_ge by lia. lia.
Qed.

Lemma limbs_value_nonneg (ls : list Z) : Forall is_limb ls -> (0 <= limbs_value ls)%Z.
Proof.
  induction 1 as [|l ls [Hl _] _ IH]; simpl; [lia|].
  assert (0 < 2 ^ biL)%Z by (apply Z.pow_pos_nonneg; unfold biL; lia). nia.
Qed.

(** A non-negative MPI denotes its magnitude. *)
Lemma nonneg_value_magnitude (X : mbedtls_mpi) :
  mpi_wf X -> (0 <= mpi_value X)%Z -> mpi_magnitude X = mpi_value X.
Proof.
  intros (_ & _ & Hlimbs & Hs & _) Hnn. unfold mpi_value, mpi_magnitude in *.
  pose proof (limbs_value_nonneg _ Hlimbs) as Hm.
  destruct Hs as [Hs|Hs]; rewrite Hs in *; lia.
Qed.

(** C3.  Round trip: exporting a non-negative [v] into a buffer of [w]
    bytes, [w] large enough for the value of [v], succeeds, and importing
    that buffer (into any destination, the storage request being granted)
    succeeds with an MPI whose value is that of [v]. *)
Theorem codec_round_trip (v X0 : mbedtls_mpi) (buf : list Z) (w : nat) :
  mpi_wf v -> mpi_wf X0 -> length buf = w ->
  (0 <= mpi_value v < 256 ^ Z.of_nat w)%Z ->
  alloc_granted (Nat.max 1 (CHARS_TO_LIMBS w)) ->
  exists buf' X',
    mbedtls_mpi_write_binary_le v buf w = (0%Z, buf')
    /\ mbedtls_mpi_read_binary_le X0 buf' w = (0%Z, X')
    /\ mpi_value X' = mpi_value v.
Proof.
  intros Hv HX0 Hlen [Hnn Hfit] Halloc.
  pose proof (nonneg_value_magnitude v Hv Hnn) as Hmag.
  assert (forall i, w <= i < mpi_n v * ciL -> GET_BYTE v i = 0%Z) as Hz.
  { apply fits_no_excess; [done|]. by rewrite Hmag. }
  destruct (write_binary_le_cases v buf w Hv Hlen)
    as [[(i & Hi & Hb) _]|[_ (buf' & Hw & Hex)]].
  { exfalso. apply Hb, Hz, Hi. }
  exists buf', (decoded buf' w). split; [done|]. split.
  - by apply read_binary_le_decoded.
  - rewrite decoded_value.
    + rewrite <- Hmag. by apply (exported_value v w).
    + by eapply exported_is_bytes.
    + by destruct Hex.
Qed.

Lemma CHARS_TO_LIMBS_least (buflen n : nat) :
  buflen <= n * ciL -> CHARS_TO_LIMBS buflen <= n.
Proof.
  intros Hn. unfold CHARS_TO_LIMBS.
  pose proof (Nat.div_mod_eq buflen ciL) as Hdm.
  pose proof (Nat.mod_upper_bound buflen ciL ltac:(lia)) as Hmod.
  destruct (Nat.eqb_spec (buflen mod ciL) 0); nia.
Qed.

(** C4, as amended.  For any well-formed destination and any buffer of
    bytes, an import whose storage request is granted returns 0 and
    produces the MPI [decoded buf buflen], which does not depend on what
    the destination held: its value is the little-endian number in the
    buffer, and its limb count is the least number of limbs that hold
    [buflen] bytes (at least one), whatever the value. *)
Theorem read_binary_le_spec (X : mbedtls_mpi) (buf : list Z) (buflen : nat) :
  mpi_wf X -> Forall is_byte buf -> length buf = buflen ->
  alloc_granted (Nat.max 1 (CHARS_TO_LIMBS buflen)) ->
  mbedtls_mpi_read_binary_le X buf buflen = (0%Z, decoded buf buflen)
  /\ mpi_value (decoded buf buflen) = le_value buf
  /\ mpi_n (decoded buf buflen) = Nat.max 1 (CHARS_TO_LIMBS buflen)
  /\ length (mpi_limbs (decoded buf buflen)) = mpi_n (decoded buf buflen)
  /\ Forall is_limb (mpi_limbs (decoded buf buflen))
  /\ buflen <= CHARS_TO_LIMBS buflen * ciL
  /\ (forall n, buflen <= n * ciL -> CHARS_TO_LIMBS buflen <= n).
Proof.
  intros HX Hbytes Hlen Halloc.
  split; [by apply read_binary_le_decoded|].
  split; [by apply decoded_value|].
  split; [done|].
  split; [unfold decoded, mpi_limbs; simpl; by rewrite length_or_bytes, length_replicate|].
  split; [eapply imported_is_limb; by apply decoded_imported|].
  split; [apply CHARS_TO_LIMBS_room|apply CHARS_TO_LIMBS_least].
Qed.

(** *** Export and import by value *)

Lemma exported_length_bytes (X : mbedtls_mpi) (buflen : nat) (buf' : list Z) :
  exported X buflen buf' -> (le_value buf' < 256 ^ Z.of_nat buflen)%Z.
Proof.
  intros Hex. destruct Hex as [Hlen Hbuf] eqn:E. rewrite <- Hlen.
  apply le_value_bound. by eapply exported_is_bytes.
Qed.

(** X2.  For a well-formed MPI and a destination of [buflen] bytes,
    [mbedtls_mpi_write_binary_le] returns 0 exactly when the magnitude of
    the number is below [256 ^ buflen]; otherwise it returns
    [MBEDTLS_ERR_MPI_BUFFER_TOO_SMALL]. *)
Theorem write_binary_le_succeeds_iff_fits (X : mbedtls_mpi) (buf : list Z) (buflen : nat) :
  mpi_wf X -> length buf = buflen ->
  (fst (mbedtls_mpi_write_binary_le X buf buflen) = 0%Z
   <-> (mpi_magnitude X < 256 ^ Z.of_nat buflen)%Z)
  /\ (fst (mbedtls_mpi_write_binary_le X buf buflen) <> 0%Z ->
      fst (mbedtls_mpi_write_binary_le X buf buflen) = MBEDTLS_ERR_MPI_BUFFER_TOO_SMALL).
Proof.
  intros Hwf Hlen.
  destruct (write_binary_le_cases X buf buflen Hwf Hlen)
    as [[(i & Hi & Hb) Hw]|[Hz (buf' & Hw & Hex)]]; rewrite Hw; simpl.
  - split; [|done]. split; [done|].
    intros Hfit. exfalso. apply Hb. by apply (fits_no_excess X buflen).
  - split; [|done]. split; [|done]. intros _.
    rewrite <- (exported_value X buflen buf' Hwf Hz Hex).
    by eapply exported_length_bytes.
Qed.

(** X3.  A successful export writes [buflen] bytes that denote, least
    significant byte first, the absolute value of the number: the sign is
    not exported. *)
Theorem write_binary_le_value (X : mbedtls_mpi) (buf buf' : list Z) (buflen : nat) :
  mpi_wf X -> length buf = buflen ->
  mbedtls_mpi_write_binary_le X buf buflen = (0%Z, buf') ->
  length buf' = buflen /\ Forall is_byte buf' /\ le_value buf' = Z.abs (mpi_value X).
Proof.
  intros Hwf Hlen Hw.
  destruct (write_binary_le_cases X buf buflen Hwf Hlen)
    as [[_ Hw']|[Hz (buf'' & Hw' & Hex)]]; rewrite Hw' in Hw; [discriminate Hw|].
  injection Hw as <-.
  split; [by destruct Hex|]. split; [by eapply exported_is_bytes|].
  rewrite (exported_value X buflen buf'' Hwf Hz Hex).
  destruct Hwf as (_ & _ & Hlimbs & Hs & _).
  pose proof (limbs_value_nonneg _ Hlimbs) as Hm.
  unfold mpi_value, mpi_magnitude in *. destruct Hs as [Hs|Hs]; rewrite Hs; lia.
Qed.

(** Base 256 digits are unique. *)
Lemma le_value_inj (a b : list Z) :
  Forall is_byte a -> Forall is_byte b -> length a = length b ->
  le_value a = le_value b -> a = b.
Proof.
  intros Ha. revert b. induction Ha as [|x a Hx Ha IH]; intros b Hb Hlen Hval.
  - destruct b; [done|discriminate Hlen].
  - destruct Hb as [|y b Hy Hb]; [discriminate Hlen|].
    simpl in Hval. unfold is_byte in Hx, Hy.
    assert (x = y /\ le_value a = le_value b) as [-> Hab] by lia.
    f_equal. apply IH; [done|by injection Hlen|done].
Qed.

Lemma le_value_app_zeros (a : list Z) (n : nat) :
  le_value (a ++ replicate n 0%Z) = le_value a.
Proof.
  rewrite le_value_app, (le_value_zeros (replicate n 0%Z)); [lia|].
  intros i. destruct (replicate n 0%Z !! i) as [z|] eqn:E; [|done].
  by apply lookup_replicate in E as [-> _].
Qed.

(** The stored bytes of an imported buffer are the buffer, zero-extended. *)
Lemma stored_decoded (buf : list Z) (buflen : nat) :
  Forall is_byte buf -> length buf = buflen ->
  stored_representation (decoded buf buflen)
  = buf ++ replicate (mpi_n (decoded buf buflen) * ciL - buflen) 0%Z.
Proof.
  intros Hbytes Hlen.
  pose proof (CHARS_TO_LIMBS_room buflen) as Hroom.
  assert (buflen <= mpi_n (decoded buf buflen) * ciL) as Hn by (simpl; nia).
  apply le_value_inj.
  - apply stored_is_bytes.
  - apply Forall_app. split; [done|].
    apply Forall_replicate. unfold is_byte. lia.
  - unfold stored_representation.
    rewrite length_map, length_seq, length_app, length_replicate. lia.
  - rewrite le_value_app_zeros.
    pose proof (decoded_imported buf buflen Hbytes Hlen) as Himp.
    pose proof (decoded_value buf buflen Hbytes Hlen) as Hval.
    rewrite <- Hval. unfold mpi_value. simpl mpi_s. rewrite Z.mul_1_l.
    (* the stored bytes of the limbs denote the limbs *)
    unfold stored_representation, mpi_magnitude.
    assert (length (mpi_limbs (decoded buf buflen)) = mpi_n (decoded buf buflen)) as Hl.
    { unfold decoded, mpi_limbs. simpl. by rewrite length_or_bytes, length_replicate. }
    rewrite <- Hl.
    rewrite <- (le_value_flat_limbs (mpi_limbs (decoded buf buflen)))
      by (by eapply imported_is_limb).
    f_equal. apply (stored_bytes_flat (decoded buf buflen) _ 0).
    intros k l Hk. unfold limb_at. simpl. by rewrite Hk.
Qed.

(** X5.  Import then export: for a buffer of [w] bytes, importing it (the
    storage request being granted, the limbs fitting a [size_t]) gives a
    well-formed MPI, and exporting that MPI into any destination of [w]
    bytes succeeds and reproduces the buffer byte for byte. *)
Theorem import_export_round_trip (X0 : mbedtls_mpi) (buf out : list Z) (w : nat) :
  mpi_wf X0 -> Forall is_byte buf -> length buf = w -> length out = w ->
  alloc_granted (Nat.max 1 (CHARS_TO_LIMBS w)) ->
  (Z.of_nat (Nat.max 1 (CHARS_TO_LIMBS w)) * Z.of_nat ciL < 2 ^ SIZE_BITS)%Z ->
  exists X',
    mbedtls_mpi_read_binary_le X0 buf w = (0%Z, X')
    /\ mpi_wf X'
    /\ mbedtls_mpi_write_binary_le X' out w = (0%Z, buf).
Proof.
  intros HX0 Hbytes Hlen Hout Halloc Hsz.
  exists (decoded buf w).
  split; [by apply read_binary_le_decoded|].
  pose proof (decoded_wf buf w Hbytes Hlen Hsz) as Hwf.
  split; [done|].
  pose proof (stored_decoded buf w Hbytes Hlen) as Hst.
  assert (forall i, GET_BYTE (decoded buf w) i
                    = if decide (i < mpi_n (decoded buf w) * ciL)
                      then default 0%Z (buf !! i) else GET_BYTE (decoded buf w) i) as Hget.
  { intros i. case_decide as Hi; [|done].
    pose proof (lookup_stored (decoded buf w) i) as Hlk.
    rewrite decide_True in Hlk by done. rewrite Hst in Hlk.
    destruct (decide (i < w)) as [Hiw|Hiw].
    - rewrite lookup_app_l in Hlk by lia.
      destruct (buf !! i) as [b|]; [by injection Hlk|discriminate Hlk].
    - rewrite lookup_app_r in Hlk by lia.
      rewrite (lookup_ge_None_2 buf i) by lia. simpl.
      destruct (replicate _ 0%Z !! (i - length buf)) as [z|] eqn:E; [|discriminate Hlk].
      apply lookup_replicate in E as [-> _]. by injection Hlk. }
  destruct (write_binary_le_cases (decoded buf w) out w Hwf Hout)
    as [[(i & Hi & Hb) _]|[_ (out' & Hw & [Hlen' Hex])]].
  - exfalso. apply Hb. rewrite Hget, decide_True by lia.
    by rewrite (lookup_ge_None_2 buf i) by lia.
  - rewrite Hw. f_equal. apply list_eq. intros i.
    destruct (decide (i < w)) as [Hi|Hi].
    + rewrite (Hex i Hi).
      pose proof (CHARS_TO_LIMBS_room w) as Hroom.
      assert (i < mpi_n (decoded buf w) * ciL) as Hin by (simpl; nia).
      rewrite decide_True by done. rewrite Hget, decide_True by done.
      destruct (lookup_lt_is_Some_2 buf i ltac:(lia)) as [b ->]. done.
    + by rewrite !lookup_ge_None_2 by lia.
Qed.

End PositiveLimb.

(** ** More on the codec *)

(** X1.  Whatever the MPI and the destination, [mbedtls_mpi_write_binary_le]
    returns 0 or [MBEDTLS_ERR_MPI_BUFFER_TOO_SMALL], never changes a byte at
    or beyond index [buflen], and, when it fails, has not written to the
    destination at all. *)
Theorem write_binary_le_in_bounds (X : mbedtls_mpi) (buf : list Z) (buflen : nat) :
  (fst (mbedtls_mpi_write_binary_le X buf buflen) = 0%Z
   \/ fst (mbedtls_mpi_write_binary_le X buf buflen) = MBEDTLS_ERR_MPI_BUFFER_TOO_SMALL)
  /\ length (snd (mbedtls_mpi_write_binary_le X buf buflen)) = length buf
  /\ (forall j, buflen <= j ->
        snd (mbedtls_mpi_write_binary_le X buf buflen) !! j = buf !! j)
  /\ (fst (mbedtls_mpi_write_binary_le X buf buflen) <> 0%Z ->
      snd (mbedtls_mpi_write_binary_le X buf buflen) = buf).
Proof.
  unfold mbedtls_mpi_write_binary_le.
  set (stored := size_t_mul (mpi_n X) ciL).
  destruct (Nat.ltb_spec stored buflen) as [Hlt|Hge]; simpl.
  - split; [by left|]. split; [by rewrite length_memset, length_copy_bytes|].
    split; [|done]. intros j Hj.
    rewrite lookup_memset, lookup_copy_bytes, length_copy_bytes.
    repeat case_decide; try done; lia.
  - destruct (excess_nonzero X buflen (stored - buflen)); simpl.
    + split; [by right|]. by repeat split.
    + split; [by left|]. split; [by rewrite length_copy_bytes|].
      split; [|done]. intros j Hj. rewrite lookup_copy_bytes.
      case_decide; [lia|done].
Qed.

(** X4.  Widening the destination: when a well-formed MPI is exported
    successfully into [w] bytes, exporting it into [w'] bytes, [w <= w'],
    succeeds too and gives the same bytes followed by zeros. *)
Theorem write_binary_le_widen (X : mbedtls_mpi) (buf1 buf2 out : list Z) (w w' : nat) :
  mpi_wf X -> length buf1 = w -> length buf2 = w' -> w <= w' ->
  mbedtls_mpi_write_binary_le X buf1 w = (0%Z, out) ->
  mbedtls_mpi_write_binary_le X buf2 w' = (0%Z, out ++ replicate (w' - w) 0%Z).
Proof.
  intros Hwf Hl1 Hl2 Hle Hw1.
  destruct (write_binary_le_cases X buf1 w Hwf Hl1)
    as [[_ Hw]|[Hz (out1 & Hw & [Hlen1 Hex1])]]; rewrite Hw in Hw1; [discriminate Hw1|].
  injection Hw1 as <-.
  destruct (write_binary_le_cases X buf2 w' Hwf Hl2)
    as [[(i & Hi & Hb) _]|[_ (out2 & Hw2 & [Hlen2 Hex2])]].
  - exfalso. apply Hb, Hz. lia.
  - rewrite Hw2. f_equal. apply list_eq. intros i.
    destruct (decide (i < w)) as [Hi|Hi].
    + rewrite lookup_app_l by lia. rewrite (Hex1 i Hi), (Hex2 i) by lia. done.
    + rewrite lookup_app_r by lia. rewrite Hlen1.
      destruct (decide (i < w')) as [Hi'|Hi'].
      * rewrite (Hex2 i Hi'). rewrite lookup_replicate_2 by lia.
        case_decide as Hin; [|done]. f_equal. apply Hz. lia.
      * rewrite lookup_ge_None_2 by lia.
        symmetry. apply lookup_ge_None_2. rewrite length_replicate. lia.
Qed.

(** X6.  An import can only fail for lack of storage, and then before any
    input is copied: when [mbedtls_mpi_read_binary_le] does not return 0 it
    returns [MBEDTLS_ERR_MPI_ALLOC_FAILED], the destination is either
    untouched or empty, and it is the same whatever the buffer holds. *)
Theorem read_binary_le_failure (X : mbedtls_mpi) (buf : list Z) (buflen : nat) :
  fst (mbedtls_mpi_read_binary_le X buf buflen) <> 0%Z ->
  fst (mbedtls_mpi_read_binary_le X buf buflen) = MBEDTLS_ERR_MPI_ALLOC_FAILED
  /\ (snd (mbedtls_mpi_read_binary_le X buf buflen) = X
      \/ snd (mbedtls_mpi_read_binary_le X buf buflen)
         = {| mpi_s := 1; mpi_n := 0; mpi_p := None |})
  /\ forall buf2, mbedtls_mpi_read_binary_le X buf2 buflen
                  = mbedtls_mpi_read_binary_le X buf buflen.
Proof.
  unfold mbedtls_mpi_read_binary_le, mbedtls_mpi_lset, mbedtls_mpi_grow,
    mbedtls_mpi_init, mbedtls_mpi_free, MBEDTLS_MPI_CHK.
  set (limbs := CHARS_TO_LIMBS buflen).
  destruct (mpi_n X =? limbs); simpl.
  - destruct (MBEDTLS_MPI_MAX_LIMBS <? 1); simpl; [by auto|].
    destruct (mpi_n X <? 1); simpl; [|done].
    destruct (calloc_ok 1); simpl; [done|by auto].
  - destruct (MBEDTLS_MPI_MAX_LIMBS <? limbs) eqn:Hmax; simpl; [by auto|].
    destruct (0 <? limbs) eqn:Hpos; simpl.
    + destruct (calloc_ok limbs); simpl; [|by auto].
      destruct (MBEDTLS_MPI_MAX_LIMBS <? 1) eqn:Hmax1; simpl.
      * apply Nat.ltb_lt in Hmax1, Hpos. apply Nat.ltb_ge in Hmax. lia.
      * destruct (limbs <? 1) eqn:Hl1; simpl; [|done].
        apply Nat.ltb_lt in Hl1, Hpos. lia.
    + destruct (MBEDTLS_MPI_MAX_LIMBS <? 1); simpl; [by auto|].
      destruct (calloc_ok 1); simpl; [done|by auto].
Qed.

(** X7.  Importing into a well-formed MPI that already has exactly the
    limbs the buffer needs (at least one) reuses its storage: it succeeds
    whether or not [calloc] would grant anything, provided one limb is
    within [MBEDTLS_MPI_MAX_LIMBS]. *)
Theorem read_binary_le_reuses_storage (X : mbedtls_mpi) (buf : list Z) (buflen : nat) :
  mpi_wf X -> mpi_n X = CHARS_TO_LIMBS buflen -> 1 <= mpi_n X ->
  1 <= MBEDTLS_MPI_MAX_LIMBS ->
  mbedtls_mpi_read_binary_le X buf buflen = (0%Z, decoded buf buflen).
Proof.
  intros (Hlen & Hnull & _) Hn Hpos Hmax.
  unfold mbedtls_mpi_read_binary_le, decoded. rewrite <- Hn.
  rewrite Nat.eqb_refl. simpl negb. cbv iota.
  unfold MBEDTLS_MPI_CHK at 1. simpl fst. simpl snd. cbv iota.
  unfold mbedtls_mpi_lset, mbedtls_mpi_grow.
  replace (MBEDTLS_MPI_MAX_LIMBS <? 1) with false by (symmetry; apply Nat.ltb_ge; lia).
  replace (mpi_n X <? 1) with false by (symmetry; apply Nat.ltb_ge; lia).
  destruct Hnull as [Hn0|[ls Hp]]; [lia|].
  unfold MBEDTLS_MPI_CHK. simpl. rewrite Hp. simpl.
  rewrite limb_wrap_0, insert_0_replicate.
  replace (Nat.max 1 (mpi_n X)) with (mpi_n X) by lia. done.
Qed.

(** ** The registries *)

Lemma eccp_curve_get_enabled (grp : mbedtls_ecp_group) (c : eccp_curve_t) :
  eccp_curve_get cfg grp = Some c -> ECP_SHORTWEIERSTRASS cfg = true.
Proof.
  intros Hget. destruct (ECP_SHORTWEIERSTRASS cfg) eqn:E; [done|exfalso].
  unfold ECP_SHORTWEIERSTRASS in E.
  repeat (apply orb_false_elim in E as [E ?]).
  unfold eccp_curve_get, eccp_curve_linking in Hget.
  repeat match goal with H : _ cfg = false |- _ => rewrite H in Hget; clear H end.
  discriminate Hget.
Qed.

Lemma mont_curve_get_enabled (grp : mbedtls_ecp_group) (c : mont_curve_t) :
  mont_curve_get cfg grp = Some c -> ECP_MONTGOMERY cfg = true.
Proof.
  intros Hget. destruct (ECP_MONTGOMERY cfg) eqn:E; [done|exfalso].
  unfold ECP_MONTGOMERY in E. apply orb_false_elim in E as [E _].
  unfold mont_curve_get, mont_curve_linking in Hget. by rewrite E in Hget.
Qed.

Lemma registered_short_weierstrass (grp : mbedtls_ecp_group) :
  ecp_get_type grp = ECP_TYPE_SHORT_WEIERSTRASS -> registered grp = false ->
  eccp_curve_get cfg grp = None.
Proof.
  unfold registered. intros -> Hreg.
  apply bool_decide_eq_false in Hreg.
  destruct (eccp_curve_get cfg grp); [|done]. exfalso. apply Hreg. by eexists.
Qed.

Lemma registered_montgomery (grp : mbedtls_ecp_group) :
  ecp_get_type grp = ECP_TYPE_MONTGOMERY -> registered grp = false ->
  mont_curve_get cfg grp = None.
Proof.
  unfold registered. intros -> Hreg.
  apply bool_decide_eq_false in Hreg.
  destruct (mont_curve_get cfg grp); [|done]. exfalso. apply Hreg. by eexists.
Qed.


(** *** The registries as maps *)

Ltac case_flags :=
  repeat match goal with
         | |- context [if_defined (?f ?c) _] => destruct (f c)
         end.

Lemma eccp_curve_get_direct (cfg0 : mbedtls_config) (grp : mbedtls_ecp_group) :
  eccp_curve_get cfg0 grp = eccp_curve_of cfg0 (grp_id grp).
Proof.
  unfold eccp_curve_get, eccp_curve_linking, eccp_curve_of.
  destruct (grp_id grp); case_flags; reflexivity.
Qed.

Lemma mont_curve_get_direct (cfg0 : mbedtls_config) (grp : mbedtls_ecp_group) :
  mont_curve_get cfg0 grp = mont_curve_of cfg0 (grp_id grp).
Proof.
  unfold mont_curve_get, mont_curve_linking, mont_curve_of.
  destruct (grp_id grp); case_flags; reflexivity.
Qed.

(** X8.  The linear scans of the two registries are lookups by group id:
    for every build configuration, [eccp_curve_get] and [mont_curve_get]
    return the record of the group's id when that curve is enabled and has
    an entry, and NULL otherwise; no entry hides another. *)
Theorem registries_are_maps (cfg0 : mbedtls_config) (grp : mbedtls_ecp_group) :
  eccp_curve_get cfg0 grp = eccp_curve_of cfg0 (grp_id grp)
  /\ mont_curve_get cfg0 grp = mont_curve_of cfg0 (grp_id grp).
Proof. split; [apply eccp_curve_get_direct|apply mont_curve_get_direct]. Qed.

(** X9.  The registries are disjoint: in no build configuration does a
    group id resolve in both the short-Weierstrass and the Montgomery
    table. *)
Theorem registries_disjoint (cfg0 : mbedtls_config) (grp : mbedtls_ecp_group) :
  eccp_curve_get cfg0 grp = None \/ mont_curve_get cfg0 grp = None.
Proof.
  rewrite eccp_curve_get_direct, mont_curve_get_direct.
  unfold eccp_curve_of, mont_curve_of. destruct (grp_id grp); auto.
Qed.

(** X10.  Enabling more curves never changes what is found: a curve
    resolved under a configuration is resolved to the same record under
    every configuration that enables at least the same curves. *)
Theorem registries_monotone (cfg0 cfg' : mbedtls_config) (grp : mbedtls_ecp_group) :
  cfg_le cfg0 cfg' ->
  (forall c, eccp_curve_get cfg0 grp = Some c -> eccp_curve_get cfg' grp = Some c)
  /\ (forall c, mont_curve_get cfg0 grp = Some c -> mont_curve_get cfg' grp = Some c).
Proof.
  intros Hle. rewrite !eccp_curve_get_direct, !mont_curve_get_direct.
  unfold eccp_curve_of, mont_curve_of.
  split; intros c; destruct (grp_id grp); try discriminate;
    match goal with
    | |- (if ?f cfg0 then _ else _) = _ -> _ =>
        destruct (f cfg0) eqn:E; [|discriminate];
        rewrite (Hle f) by (done || (simpl; repeat (first [left; reflexivity|right]))); done
    end.
Qed.

(** X11.  The shape of every record a registry can return: at most eight
    words per operand; the modulus and the coefficients ([eccp_p],
    [eccp_a], [eccp_b]; [mont_p], [mont_p_h], [mont_a24]) have the number
    of words the bit length calls for, while [eccp_p_h] and [mont_p_n1]
    have one word; all are 32-bit words; the modulus has exactly the stated
    bit length and the coefficients are below it. *)
Theorem registered_curves_shape (cfg0 : mbedtls_config) (grp : mbedtls_ecp_group) :
  (forall c, eccp_curve_get cfg0 grp = Some c -> eccp_curve_shape c)
  /\ (forall c, mont_curve_get cfg0 grp = Some c -> mont_curve_shape c).
Proof.
  rewrite eccp_curve_get_direct, mont_curve_get_direct.
  unfold eccp_curve_of, mont_curve_of.
  split; intros c; destruct (grp_id grp); try discriminate;
    match goal with
    | |- (if ?b then _ else _) = _ -> _ => destruct b; [|discriminate]
    end;
    intros Hc; injection Hc as <-;
    unfold eccp_curve_shape, mont_curve_shape, is_word;
    (split; [vm_compute; lia|]);
    do 4 (split; [reflexivity|]);
    (split; [simpl; repeat constructor; lia|]);
    (split; [vm_compute; split; congruence|]);
    try (split; vm_compute; reflexivity);
    vm_compute; reflexivity.
Qed.

(** X12.  The reduction constants: in every short-Weierstrass record a
    registry can return, [eccp_p_h] is the single word [-1 / p] modulo
    [2 ^ 32] (the later of the two initialisers of that member); in the
    Montgomery record [mont_p_n1] is that word and [mont_p_h] is
    [R ^ 2 mod p] for [R = 2 ^ 256]. *)
Theorem registered_reduction_constants (cfg0 : mbedtls_config) (grp : mbedtls_ecp_group) :
  (forall c, eccp_curve_get cfg0 grp = Some c -> is_n1_of (eccp_p_h c) (eccp_p c))
  /\ (forall c, mont_curve_get cfg0 grp = Some c ->
        is_n1_of (mont_p_n1 c) (mont_p c) /\ is_r2_of (mont_p_h c) (mont_p c)).
Proof.
  rewrite eccp_curve_get_direct, mont_curve_get_direct.
  unfold eccp_curve_of, mont_curve_of.
  split; intros c; destruct (grp_id grp); try discriminate;
    match goal with
    | |- (if ?b then _ else _) = _ -> _ => destruct b; [|discriminate]
    end;
    intros Hc; injection Hc as <-; unfold is_n1_of, is_r2_of;
    try (split; [|vm_compute; reflexivity]);
    (eexists; split; [reflexivity|vm_compute; reflexivity]).
Qed.
(** ** Local arrays *)

Lemma length_stack_array (w : world HW) (k word_len : nat) :
  length (stack_array w k word_len) = sizeof_words word_len.
Proof. unfold stack_array. by rewrite length_map, length_seq. Qed.

Lemma length_void_write (X : mbedtls_mpi) (a : list Z) (word_len : nat) :
  length (void_write X a word_len) = length a.
Proof.
  unfold void_write, mbedtls_mpi_write_binary_le.
  destruct (_ && _); simpl; [done|].
  destruct (_ <? _); by rewrite ?length_memset, length_copy_bytes.
Qed.

Lemma void_write_fails (X : mbedtls_mpi) (a : list Z) (word_len : nat) :
  encode_fails X word_len -> void_write X a word_len = a.
Proof.
  intros Hf. specialize (Hf a). unfold void_write.
  unfold mbedtls_mpi_write_binary_le in *.
  destruct (_ && _); [done|]. simpl in Hf. discriminate Hf.
Qed.

Lemma length_overwrite (out old : list Z) : length (overwrite out old) = length old.
Proof.
  unfold overwrite. rewrite length_take, length_app, length_map, length_drop. lia.
Qed.

Lemma wipe_cleared (a : list Z) (word_len : nat) :
  keeps_dead_stores = true ->
  length a = sizeof_words word_len -> wipe a word_len = replicate (sizeof_words word_len) 0%Z.
Proof.
  intros Hkept Hlen. unfold wipe. rewrite Hkept. apply list_eq. intros j.
  rewrite lookup_memset, Hlen.
  destruct (decide (j < sizeof_words word_len)) as [Hj|Hj].
  - rewrite decide_True by lia. symmetry. by apply lookup_replicate_2.
  - rewrite decide_False by lia.
    rewrite !lookup_ge_None_2; [done|rewrite length_replicate; lia|lia].
Qed.

(** ** The three-call sequence of [ecp_alt_b91_backend_muladd] *)

Arguments void_write : simpl never.
Arguments void_read : simpl never.
Arguments void_lset : simpl never.
Arguments wipe : simpl never.
Arguments overwrite : simpl never.
Arguments stack_array : simpl never.
Arguments mul_short_weierstrass : simpl never.
Arguments mul_montgomery : simpl never.
Arguments muladd_steps : simpl never.

Lemma succeeded_code (e : event) (r : Z) :
  event_code e = Some r -> (r =? PKE_SUCCESS)%Z = true -> succeeded e.
Proof. intros He Hr. apply Z.eqb_eq in Hr. unfold succeeded. by rewrite He, Hr. Qed.

Lemma failed_code (e : event) (r : Z) :
  event_code e = Some r -> (r =? PKE_SUCCESS)%Z = false -> failed e.
Proof. intros He Hr. apply Z.eqb_neq in Hr. exists r. by split. Qed.

Lemma muladd_steps_cases (curve : eccp_curve_t) (m n : mbedtls_mpi) (word_len : nat)
    (result0 : Z) (R : mbedtls_ecp_point) (ms Q1x Q1y Q2x Q2y : list Z) (w : world HW) :
  exists calls result' R' ms' Q1x' Q1y' Q2x' Q2y' hw',
    muladd_steps curve m n word_len (result0, R, ms, Q1x, Q1y, Q2x, Q2y) w
    = ((result', R', ms', Q1x', Q1y', Q2x', Q2y'),
       {| w_hw := hw'; w_trace := w_trace w ++ calls; w_stack := w_stack w |})
    /\ (length ms' = length ms /\ length Q1x' = length Q1x /\ length Q1y' = length Q1y
        /\ length Q2x' = length Q2x /\ length Q2y' = length Q2y)
    /\ Forall (fun e => is_engine_call e = true) calls
    /\ (exists r ox oy rest,
          calls = EvPointMul curve (void_write m ms word_len) Q1x Q1y r ox oy :: rest)
    /\ muladd_ending curve word_len result0 R calls result' R'.
Proof.
  unfold muladd_steps, call_point_mul, call_point_add, engine, bind, ret.
  destruct (pke_eccp_point_mul curve (void_write m ms word_len) Q1x Q1y (w_hw w))
    as [[r1 [ox1 oy1]] hw1] eqn:E1.
  simpl.
  destruct (r1 =? PKE_SUCCESS)%Z eqn:Hr1; simpl.
  2:{ do 9 eexists. split; [done|].
      split; [by rewrite !length_overwrite, length_void_write|].
      split; [by repeat constructor|].
      split; [by do 4 eexists|].
      left. exists [], (EvPointMul curve (void_write m ms word_len) Q1x Q1y r1 ox1 oy1).
      repeat split; [by constructor|by eapply failed_code|simpl; lia]. }
  destruct (pke_eccp_point_mul curve
              (void_write n (void_write m ms word_len) word_len) Q2x Q2y hw1)
    as [[r2 [ox2 oy2]] hw2] eqn:E2.
  simpl.
  destruct (r2 =? PKE_SUCCESS)%Z eqn:Hr2; simpl.
  2:{ do 9 eexists. split; [by rewrite <- app_assoc|].
      split; [by rewrite !length_overwrite, !length_void_write|].
      split; [by repeat constructor|].
      split; [by do 4 eexists|].
      left. eexists [_], _.
      repeat split; [repeat constructor; by eapply succeeded_code
                    |by eapply failed_code|simpl; lia]. }
  destruct (pke_eccp_point_add curve (overwrite ox1 Q1x) (overwrite oy1 Q1y)
              (overwrite ox2 Q2x) (overwrite oy2 Q2y) hw2)
    as [[r3 [ox3 oy3]] hw3] eqn:E3.
  simpl.
  destruct (r3 =? PKE_SUCCESS)%Z eqn:Hr3; simpl.
  2:{ do 9 eexists. split; [by rewrite <- !app_assoc|].
      split; [by rewrite !length_overwrite, !length_void_write|].
      split; [by repeat constructor|].
      split; [by do 4 eexists|].
      left. eexists [_; _], _.
      repeat split; [repeat constructor; by eapply succeeded_code
                    |by eapply failed_code|simpl; lia]. }
  do 9 eexists. split; [by rewrite <- !app_assoc|].
  split; [by rewrite !length_overwrite, !length_void_write|].
  split; [by repeat constructor|].
  split; [by do 4 eexists|].
  right. apply Z.eqb_eq in Hr3. subst r3. do 8 eexists.
  repeat split; by eapply succeeded_code.
Qed.

(** ** The two blocks of [ecp_alt_b91_backend_mul] *)

Lemma mul_short_weierstrass_skip (grp : mbedtls_ecp_group) (m : mbedtls_mpi)
    (P : mbedtls_ecp_point) (word_len : nat)
    (st : Z * mbedtls_ecp_point * list Z * list Z * list Z) (w : world HW) :
  ecp_get_type grp <> ECP_TYPE_SHORT_WEIERSTRASS \/ eccp_curve_get cfg grp = None ->
  mul_short_weierstrass grp m P word_len st w = (st, w).
Proof.
  intros Hskip. unfold mul_short_weierstrass.
  destruct st as [[[[result R] ms] Qx] Qy].
  destruct (ECP_SHORTWEIERSTRASS cfg); simpl; [|done].
  case_bool_decide as Hty; simpl; [|done].
  destruct Hskip as [Hne|Hnone]; [done|]. by rewrite Hnone.
Qed.

Lemma mul_montgomery_skip (grp : mbedtls_ecp_group) (m : mbedtls_mpi)
    (P : mbedtls_ecp_point) (word_len : nat)
    (st : Z * mbedtls_ecp_point * list Z * list Z * list Z) (w : world HW) :
  ecp_get_type grp <> ECP_TYPE_MONTGOMERY \/ mont_curve_get cfg grp = None ->
  mul_montgomery grp m P word_len st w = (st, w).
Proof.
  intros Hskip. unfold mul_montgomery.
  destruct st as [[[[result R] ms] Qx] Qy].
  destruct (ECP_MONTGOMERY cfg); simpl; [|done].
  case_bool_decide as Hty; simpl; [|done].
  destruct Hskip as [Hne|Hnone]; [done|]. by rewrite Hnone.
Qed.

Lemma mul_short_weierstrass_lengths (grp : mbedtls_ecp_group) (m : mbedtls_mpi)
    (P : mbedtls_ecp_point) (word_len : nat)
    (result : Z) (R : mbedtls_ecp_point) (ms Qx Qy : list Z) (w : world HW) :
  exists result' R' ms' Qx' Qy' w',
    mul_short_weierstrass grp m P word_len (result, R, ms, Qx, Qy) w
    = ((result', R', ms', Qx', Qy'), w')
    /\ length ms' = length ms /\ length Qx' = length Qx /\ length Qy' = length Qy.
Proof.
  unfold mul_short_weierstrass.
  destruct (_ && _); [|by do 6 eexists].
  destruct (eccp_curve_get cfg grp) as [c|]; [|by do 6 eexists].
  unfold call_point_mul, mbedtls_ecp_lock, mbedtls_ecp_unlock, log, engine, bind, ret.
  simpl.
  destruct (pke_eccp_point_mul _ _ _ _ _) as [[r [ox oy]] hw']. simpl.
  destruct (r =? PKE_SUCCESS)%Z; simpl; do 6 eexists;
    (split; [done|]); by rewrite !length_overwrite, !length_void_write.
Qed.

Lemma mul_montgomery_lengths (grp : mbedtls_ecp_group) (m : mbedtls_mpi)
    (P : mbedtls_ecp_point) (word_len : nat)
    (result : Z) (R : mbedtls_ecp_point) (ms Qx Qy : list Z) (w : world HW) :
  exists result' R' ms' Qx' Qy' w',
    mul_montgomery grp m P word_len (result, R, ms, Qx, Qy) w
    = ((result', R', ms', Qx', Qy'), w')
    /\ length ms' = length ms /\ length Qx' = length Qx /\ length Qy' = length Qy.
Proof.
  unfold mul_montgomery.
  destruct (_ && _); [|by do 6 eexists].
  destruct (mont_curve_get cfg grp) as [c|]; [|by do 6 eexists].
  unfold call_x25519_point_mul, mbedtls_ecp_lock, mbedtls_ecp_unlock, log, engine, bind, ret.
  simpl.
  destruct (pke_x25519_point_mul _ _ _ _) as [[r ou] hw']. simpl.
  destruct (r =? PKE_SUCCESS)%Z; simpl; do 6 eexists;
    (split; [done|]); by rewrite ?length_overwrite, !length_void_write.
Qed.

(** ** The public functions *)

(** C5.  Each of the three public functions returns
    [MBEDTLS_ERR_ECP_BAD_INPUT_DATA] when a pointer argument is NULL, and,
    the arguments being present, returns
    [MBEDTLS_ERR_PLATFORM_FEATURE_UNSUPPORTED] when the word length of the
    curve exceeds [PKE_OPERAND_MAX_WORD_LEN] or the curve is not found in
    the registry of its family; in all these cases the world is left as it
    was: no lock is taken and the engine is not invoked. *)
Theorem preconditions_fail_before_engine :
  (forall grp pt w,
      grp = None \/ pt = None ->
      fst (value_of (ecp_alt_b91_backend_check_pubkey grp pt) w)
      = MBEDTLS_ERR_ECP_BAD_INPUT_DATA
      /\ world_after (ecp_alt_b91_backend_check_pubkey grp pt) w = w)
  /\ (forall grp R m P w,
      grp = None \/ R = None \/ m = None \/ P = None ->
      op_result (value_of (ecp_alt_b91_backend_mul grp R m P) w)
      = MBEDTLS_ERR_ECP_BAD_INPUT_DATA
      /\ world_after (ecp_alt_b91_backend_mul grp R m P) w = w)
  /\ (forall grp R m P n Q w,
      grp = None \/ R = None \/ m = None \/ P = None \/ n = None \/ Q = None ->
      op_result (value_of (ecp_alt_b91_backend_muladd grp R m P n Q) w)
      = MBEDTLS_ERR_ECP_BAD_INPUT_DATA
      /\ world_after (ecp_alt_b91_backend_muladd grp R m P n Q) w = w)
  /\ (forall grp pt w,
      PKE_OPERAND_MAX_WORD_LEN < GET_WORD_LEN (grp_pbits grp) \/ registered grp = false ->
      fst (value_of (ecp_alt_b91_backend_check_pubkey (Some grp) (Some pt)) w)
      = MBEDTLS_ERR_PLATFORM_FEATURE_UNSUPPORTED
      /\ world_after (ecp_alt_b91_backend_check_pubkey (Some grp) (Some pt)) w = w)
  /\ (forall grp R m P w,
      PKE_OPERAND_MAX_WORD_LEN < GET_WORD_LEN (grp_pbits grp) \/ registered grp = false ->
      op_result (value_of (ecp_alt_b91_backend_mul (Some grp) (Some R) (Some m) (Some P)) w)
      = MBEDTLS_ERR_PLATFORM_FEATURE_UNSUPPORTED
      /\ world_after (ecp_alt_b91_backend_mul (Some grp) (Some R) (Some m) (Some P)) w = w)
  /\ (forall grp R m P n Q w,
      PKE_OPERAND_MAX_WORD_LEN < GET_WORD_LEN (grp_pbits grp) \/ registered grp = false ->
      op_result (value_of (ecp_alt_b91_backend_muladd
                             (Some grp) (Some R) (Some m) (Some P) (Some n) (Some Q)) w)
      = MBEDTLS_ERR_PLATFORM_FEATURE_UNSUPPORTED
      /\ world_after (ecp_alt_b91_backend_muladd
                        (Some grp) (Some R) (Some m) (Some P) (Some n) (Some Q)) w = w).
Proof.
  unfold value_of, world_after, op_result.
  split; [|split; [|split; [|split; [|split]]]].
  - intros [grp|] [pt|] w H; try done. destruct H as [H|H]; discriminate H.
  - intros [grp|] [R|] [m|] [P|] w H; try done.
    destruct H as [H|[H|[H|H]]]; discriminate H.
  - intros [grp|] [R|] [m|] [P|] [n|] [Q|] w H; try done.
    destruct H as [H|[H|[H|[H|[H|H]]]]]; discriminate H.
  - intros grp pt w H. unfold ecp_alt_b91_backend_check_pubkey.
    destruct (Nat.leb_spec (GET_WORD_LEN (grp_pbits grp)) PKE_OPERAND_MAX_WORD_LEN)
      as [Hle|Hgt]; [|done].
    destruct H as [H|Hreg]; [lia|].
    unfold bind, ret, local_array. simpl.
    destruct (ECP_SHORTWEIERSTRASS cfg); simpl; [|done].
    case_bool_decide as Hty; simpl; [|done].
    by rewrite (registered_short_weierstrass grp Hty Hreg).
  - intros grp R m P w H. unfold ecp_alt_b91_backend_mul.
    destruct (Nat.leb_spec (GET_WORD_LEN (grp_pbits grp)) PKE_OPERAND_MAX_WORD_LEN)
      as [Hle|Hgt]; [|done].
    destruct H as [H|Hreg]; [lia|].
    unfold bind, ret, local_array. simpl.
    rewrite mul_short_weierstrass_skip.
    2:{ destruct (decide (ecp_get_type grp = ECP_TYPE_SHORT_WEIERSTRASS)) as [Hty|Hty];
          [right; by apply registered_short_weierstrass|by left]. }
    rewrite mul_montgomery_skip.
    2:{ destruct (decide (ecp_get_type grp = ECP_TYPE_MONTGOMERY)) as [Hty|Hty];
          [right; by apply registered_montgomery|by left]. }
    done.
  - intros grp R m P n Q w H. unfold ecp_alt_b91_backend_muladd.
    destruct (Nat.leb_spec (GET_WORD_LEN (grp_pbits grp)) PKE_OPERAND_MAX_WORD_LEN)
      as [Hle|Hgt]; [|done].
    destruct H as [H|Hreg]; [lia|].
    unfold bind, ret, local_array. simpl.
    destruct (ECP_SHORTWEIERSTRASS cfg); simpl; [|done].
    case_bool_decide as Hty; simpl; [|done].
    by rewrite (registered_short_weierstrass grp Hty Hreg).
Qed.

(** C7.  For a group classified as Montgomery (the generator has an X
    coordinate and no Y coordinate), [ecp_alt_b91_backend_check_pubkey] and
    [ecp_alt_b91_backend_muladd], called with all arguments present, return
    [MBEDTLS_ERR_PLATFORM_FEATURE_UNSUPPORTED]. *)
Theorem montgomery_unsupported (grp : mbedtls_ecp_group)
    (pt R P Q : mbedtls_ecp_point) (m n : mbedtls_mpi) (w : world HW) :
  ecp_get_type grp = ECP_TYPE_MONTGOMERY ->
  fst (value_of (ecp_alt_b91_backend_check_pubkey (Some grp) (Some pt)) w)
  = MBEDTLS_ERR_PLATFORM_FEATURE_UNSUPPORTED
  /\ op_result (value_of (ecp_alt_b91_backend_muladd
                            (Some grp) (Some R) (Some m) (Some P) (Some n) (Some Q)) w)
     = MBEDTLS_ERR_PLATFORM_FEATURE_UNSUPPORTED.
Proof.
  intros Hty. unfold value_of, op_result.
  unfold ecp_alt_b91_backend_check_pubkey, ecp_alt_b91_backend_muladd.
  rewrite Hty.
  destruct (_ <=? _); [|done].
  unfold bind, ret, local_array. simpl.
  destruct (ECP_SHORTWEIERSTRASS cfg); done.
Qed.

(** In a build that keeps dead stores, once the local arrays exist (all
    arguments present and the word length within
    [PKE_OPERAND_MAX_WORD_LEN]), each of the three public functions returns
    with every one of them filled with zeros, whichever path it took. *)
Lemma buffers_cleared_when_stores_kept (grp : mbedtls_ecp_group)
    (pt R P Q : mbedtls_ecp_point) (m n : mbedtls_mpi) (w : world HW) :
  keeps_dead_stores = true ->
  GET_WORD_LEN (grp_pbits grp) <= PKE_OPERAND_MAX_WORD_LEN ->
  snd (value_of (ecp_alt_b91_backend_check_pubkey (Some grp) (Some pt)) w)
  = Some (cleared 2 (GET_WORD_LEN (grp_pbits grp)))
  /\ op_frame (value_of (ecp_alt_b91_backend_mul
                           (Some grp) (Some R) (Some m) (Some P)) w)
     = Some (cleared 3 (GET_WORD_LEN (grp_pbits grp)))
  /\ op_frame (value_of (ecp_alt_b91_backend_muladd
                           (Some grp) (Some R) (Some m) (Some P) (Some n) (Some Q)) w)
     = Some (cleared 5 (GET_WORD_LEN (grp_pbits grp))).
Proof.
  intros Hkept Hle. apply Nat.leb_le in Hle.
  pose proof (fun a wl => wipe_cleared a wl Hkept) as wipe_kept.
  unfold value_of, op_frame, cleared.
  unfold ecp_alt_b91_backend_check_pubkey, ecp_alt_b91_backend_mul,
    ecp_alt_b91_backend_muladd.
  rewrite Hle. set (wl := GET_WORD_LEN (grp_pbits grp)).
  unfold bind, ret, local_array. simpl.
  split; [|split].
  - destruct (_ && _); simpl.
    + destruct (eccp_curve_get cfg grp) as [c|]; simpl.
      * unfold call_point_verify, engine.
        destruct (pke_eccp_point_verify _ _ _ _) as [r hw']. simpl.
        by rewrite !wipe_kept by (by rewrite length_void_write, length_stack_array).
      * by rewrite !wipe_kept by apply length_stack_array.
    + by rewrite !wipe_kept by apply length_stack_array.
  - destruct (mul_short_weierstrass_lengths grp m P wl
                MBEDTLS_ERR_PLATFORM_FEATURE_UNSUPPORTED R
                (stack_array w 0 wl) (stack_array w 1 wl) (stack_array w 2 wl) w)
      as (result1 & R1 & ms1 & Qx1 & Qy1 & w1 & -> & Hms1 & Hqx1 & Hqy1).
    destruct (mul_montgomery_lengths grp m P wl result1 R1 ms1 Qx1 Qy1 w1)
      as (result2 & R2 & ms2 & Qx2 & Qy2 & w2 & -> & Hms2 & Hqx2 & Hqy2).
    simpl.
    by rewrite !wipe_kept by (rewrite ?Hms2, ?Hqx2, ?Hqy2, ?Hms1, ?Hqx1, ?Hqy1;
                                  apply length_stack_array).
  - destruct (_ && _); simpl.
    + destruct (eccp_curve_get cfg grp) as [c|]; simpl.
      * destruct (muladd_steps_cases c m n wl MBEDTLS_ERR_PLATFORM_HW_ACCEL_FAILED R
                    (stack_array w 0 wl)
                    (void_write (pt_X P) (stack_array w 1 wl) wl)
                    (void_write (pt_Y P) (stack_array w 2 wl) wl)
                    (void_write (pt_X Q) (stack_array w 3 wl) wl)
                    (void_write (pt_Y Q) (stack_array w 4 wl) wl)
                    {| w_hw := w_hw w; w_trace := w_trace w ++ [EvLock];
                       w_stack := w_stack w |})
          as (calls & result' & R' & ms' & Q1x' & Q1y' & Q2x' & Q2y' & hw' & ->
              & (Hms & H1x & H1y & H2x & H2y) & _).
        simpl.
        by rewrite !wipe_kept
          by (rewrite ?Hms, ?H1x, ?H1y, ?H2x, ?H2y, ?length_void_write;
              apply length_stack_array).
      * by rewrite !wipe_kept by apply length_stack_array.
    + by rewrite !wipe_kept by apply length_stack_array.
Qed.

Lemma check_pubkey_run (grp : mbedtls_ecp_group) (pt : mbedtls_ecp_point)
    (c : eccp_curve_t) (w : world HW) :
  ecp_get_type grp = ECP_TYPE_SHORT_WEIERSTRASS ->
  eccp_curve_get cfg grp = Some c ->
  GET_WORD_LEN (grp_pbits grp) <= PKE_OPERAND_MAX_WORD_LEN ->
  let wl := GET_WORD_LEN (grp_pbits grp) in
  let Qx := void_write (pt_X pt) (stack_array w 0 wl) wl in
  let Qy := void_write (pt_Y pt) (stack_array w 1 wl) wl in
  exists r hw',
    ecp_alt_b91_backend_check_pubkey (Some grp) (Some pt) w
    = ((if (r =? PKE_SUCCESS)%Z then 0%Z else MBEDTLS_ERR_ECP_INVALID_KEY,
        Some [wipe Qx wl; wipe Qy wl]),
       {| w_hw := hw';
          w_trace := w_trace w ++ [EvLock; EvPointVerify c Qx Qy r; EvUnlock];
          w_stack := w_stack w |})
    /\ ((if (r =? PKE_SUCCESS)%Z then 0%Z else MBEDTLS_ERR_ECP_INVALID_KEY) = 0%Z
        \/ (if (r =? PKE_SUCCESS)%Z then 0%Z else MBEDTLS_ERR_ECP_INVALID_KEY)
           = MBEDTLS_ERR_ECP_INVALID_KEY).
Proof.
  intros Hty Hget Hle. apply Nat.leb_le in Hle.
  pose proof (eccp_curve_get_enabled grp c Hget) as Hen.
  unfold ecp_alt_b91_backend_check_pubkey.
  rewrite Hle, Hen, Hty, Hget.
  unfold bind, ret, local_array, call_point_verify, engine,
    mbedtls_ecp_lock, mbedtls_ecp_unlock, log. simpl.
  destruct (pke_eccp_point_verify _ _ _ _) as [r hw']. simpl.
  exists r, hw'. split; [by rewrite <- !app_assoc|].
  destruct (r =? PKE_SUCCESS)%Z; [by left|by right].
Qed.

(** C1, as amended.  For a short-Weierstrass group whose curve is
    registered, with present arguments and a word length within the limit,
    [ecp_alt_b91_backend_check_pubkey] asks the engine once, under the lock,
    and returns 0 when the engine returns [PKE_SUCCESS] and
    [MBEDTLS_ERR_ECP_INVALID_KEY] for every other code of the engine; once
    the engine has been asked it never returns
    [MBEDTLS_ERR_PLATFORM_FEATURE_UNSUPPORTED]. *)
Theorem check_pubkey_outcome (grp : mbedtls_ecp_group) (pt : mbedtls_ecp_point)
    (c : eccp_curve_t) (w : world HW) :
  ecp_get_type grp = ECP_TYPE_SHORT_WEIERSTRASS ->
  eccp_curve_get cfg grp = Some c ->
  GET_WORD_LEN (grp_pbits grp) <= PKE_OPERAND_MAX_WORD_LEN ->
  let wl := GET_WORD_LEN (grp_pbits grp) in
  let Qx := void_write (pt_X pt) (stack_array w 0 wl) wl in
  let Qy := void_write (pt_Y pt) (stack_array w 1 wl) wl in
  let r := fst (pke_eccp_point_verify c Qx Qy (w_hw w)) in
  let call := ecp_alt_b91_backend_check_pubkey (Some grp) (Some pt) in
  w_trace (world_after call w)
  = w_trace w ++ [EvLock; EvPointVerify c Qx Qy r; EvUnlock]
  /\ (r = PKE_SUCCESS -> fst (value_of call w) = 0%Z)
  /\ (r <> PKE_SUCCESS -> fst (value_of call w) = MBEDTLS_ERR_ECP_INVALID_KEY)
  /\ fst (value_of call w) <> MBEDTLS_ERR_PLATFORM_FEATURE_UNSUPPORTED.
Proof.
  intros Hty Hget Hle. apply Nat.leb_le in Hle.
  pose proof (eccp_curve_get_enabled grp c Hget) as Hen.
  unfold value_of, world_after, ecp_alt_b91_backend_check_pubkey.
  rewrite Hle, Hen, Hty, Hget.
  unfold bind, ret, local_array, call_point_verify, engine,
    mbedtls_ecp_lock, mbedtls_ecp_unlock, log. simpl.
  destruct (pke_eccp_point_verify _ _ _ _) as [r hw']. simpl.
  split; [by rewrite <- !app_assoc|].
  destruct (Z.eqb_spec r PKE_SUCCESS) as [Hr|Hr]; simpl; repeat split; done.
Qed.

Lemma mul_short_weierstrass_run (grp : mbedtls_ecp_group) (m : mbedtls_mpi)
    (P : mbedtls_ecp_point) (word_len : nat) (c : eccp_curve_t)
    (result : Z) (R : mbedtls_ecp_point) (ms Qx Qy : list Z) (w : world HW) :
  ecp_get_type grp = ECP_TYPE_SHORT_WEIERSTRASS ->
  eccp_curve_get cfg grp = Some c ->
  exists r ox oy result' R' ms' Qx' Qy' hw',
    mul_short_weierstrass grp m P word_len (result, R, ms, Qx, Qy) w
    = ((result', R', ms', Qx', Qy'),
       {| w_hw := hw';
          w_trace := w_trace w ++
            [EvLock;
             EvPointMul c (void_write m ms word_len) (void_write (pt_X P) Qx word_len)
               (void_write (pt_Y P) Qy word_len) r ox oy;
             EvUnlock];
          w_stack := w_stack w |})
    /\ (result' = 0%Z \/ result' = MBEDTLS_ERR_PLATFORM_HW_ACCEL_FAILED).
Proof.
  intros Hty Hget. pose proof (eccp_curve_get_enabled grp c Hget) as Hen.
  unfold mul_short_weierstrass. rewrite Hen, Hty, Hget.
  unfold call_point_mul, mbedtls_ecp_lock, mbedtls_ecp_unlock, log, engine, bind, ret.
  simpl.
  destruct (pke_eccp_point_mul _ _ _ _ _) as [[r [ox oy]] hw']. simpl.
  destruct (r =? PKE_SUCCESS)%Z; simpl; do 9 eexists;
    (split; [by rewrite <- !app_assoc|]); [by left|by right].
Qed.

(** C6.  In [ecp_alt_b91_backend_muladd] on a registered short-Weierstrass
    curve, the engine calls are made between one lock and one unlock.
    Either one of them fails: it is then the last call made, at most two
    successful calls precede it, the function returns
    [MBEDTLS_ERR_PLATFORM_HW_ACCEL_FAILED] and [R] is what it was.  Or the
    two multiplications and the addition all succeed: the function returns
    0 and [R] holds the import of the two arrays the addition wrote, with
    [Z] set to 1 (for limbs of at least one char and a well-formed [R]
    whose storage requests are granted: the decoded arrays and the value
    1). *)
Theorem muladd_all_or_nothing (grp : mbedtls_ecp_group) (R P Q : mbedtls_ecp_point)
    (m n : mbedtls_mpi) (c : eccp_curve_t) (w : world HW) :
  ecp_get_type grp = ECP_TYPE_SHORT_WEIERSTRASS ->
  eccp_curve_get cfg grp = Some c ->
  GET_WORD_LEN (grp_pbits grp) <= PKE_OPERAND_MAX_WORD_LEN ->
  let wl := GET_WORD_LEN (grp_pbits grp) in
  let call := ecp_alt_b91_backend_muladd
                (Some grp) (Some R) (Some m) (Some P) (Some n) (Some Q) in
  exists calls,
    w_trace (world_after call w) = w_trace w ++ EvLock :: calls ++ [EvUnlock]
    /\ Forall (fun e => is_engine_call e = true) calls
    /\ ((exists pre e,
           calls = pre ++ [e] /\ Forall succeeded pre /\ failed e /\ length pre <= 2
           /\ op_result (value_of call w) = MBEDTLS_ERR_PLATFORM_HW_ACCEL_FAILED
           /\ op_R (value_of call w) = Some R)
        \/ (exists e1 e2 P1x P1y P2x P2y ox oy,
              calls = [e1; e2; EvPointAdd c P1x P1y P2x P2y PKE_SUCCESS ox oy]
              /\ succeeded e1 /\ succeeded e2
              /\ op_result (value_of call w) = 0%Z
              /\ op_R (value_of call w)
                 = Some {| pt_X := void_read (pt_X R) (overwrite ox P1x) wl;
                           pt_Y := void_read (pt_Y R) (overwrite oy P1y) wl;
                           pt_Z := void_lset (pt_Z R) 1 |}
              /\ (0 < ciL ->
                  mpi_wf (pt_X R) -> mpi_wf (pt_Y R) -> mpi_wf (pt_Z R) ->
                  alloc_granted 1 ->
                  alloc_granted (Nat.max 1 (CHARS_TO_LIMBS (sizeof_words wl))) ->
                  void_read (pt_X R) (overwrite ox P1x) wl
                  = decoded (overwrite ox P1x) (sizeof_words wl)
                  /\ void_read (pt_Y R) (overwrite oy P1y) wl
                     = decoded (overwrite oy P1y) (sizeof_words wl)
                  /\ mpi_value (void_lset (pt_Z R) 1) = 1%Z))).
Proof.
  intros Hty Hget Hle wl call. apply Nat.leb_le in Hle.
  pose proof (eccp_curve_get_enabled grp c Hget) as Hen.
  unfold call, value_of, world_after, op_result, op_R, ecp_alt_b91_backend_muladd.
  rewrite Hle, Hen, Hty, Hget. fold wl.
  unfold bind, ret, local_array, mbedtls_ecp_lock, mbedtls_ecp_unlock, log. simpl.
  destruct (muladd_steps_cases c m n wl MBEDTLS_ERR_PLATFORM_HW_ACCEL_FAILED R
              (stack_array w 0 wl)
              (void_write (pt_X P) (stack_array w 1 wl) wl)
              (void_write (pt_Y P) (stack_array w 2 wl) wl)
              (void_write (pt_X Q) (stack_array w 3 wl) wl)
              (void_write (pt_Y Q) (stack_array w 4 wl) wl)
              {| w_hw := w_hw w; w_trace := w_trace w ++ [EvLock];
                 w_stack := w_stack w |})
    as (calls & result' & R' & ms' & Q1x' & Q1y' & Q2x' & Q2y' & hw' & ->
        & _ & Hcalls & _ & Hend).
  simpl. exists calls.
  split; [by rewrite <- !app_assoc|]. split; [done|].
  destruct Hend as [(pre & e & -> & Hpre & He & Hlen & -> & ->)
                   |(e1 & e2 & P1x & P1y & P2x & P2y & ox & oy & -> & He1 & He2 & -> & ->)].
  - left. exists pre, e. by repeat split.
  - right. exists e1, e2, P1x, P1y, P2x, P2y, ox, oy.
    repeat split; try done.
    + unfold void_read. by rewrite read_binary_le_decoded.
    + unfold void_read. by rewrite read_binary_le_decoded.
    + destruct (lset_value (pt_Z R) 1) as (Z' & HZ & Hval & _); [done|done| |].
      * simpl. rewrite pow_biL. apply Z.pow_gt_1; lia.
      * unfold void_lset. by rewrite HZ.
Qed.

(** Whatever its arguments, [ecp_alt_b91_backend_muladd] either adds no
    event at all, or takes the lock once, then makes between one and three
    engine calls and nothing else, then releases the lock. *)
Lemma muladd_trace_shape (grp : option mbedtls_ecp_group)
    (R P Q : option mbedtls_ecp_point) (m n : option mbedtls_mpi) (w : world HW) :
  exists t,
    w_trace (world_after (ecp_alt_b91_backend_muladd grp R m P n Q) w) = w_trace w ++ t
    /\ (t = []
        \/ exists calls,
             t = EvLock :: calls ++ [EvUnlock]
             /\ Forall (fun e => is_engine_call e = true) calls
             /\ 1 <= length calls <= 3).
Proof.
  unfold world_after, ecp_alt_b91_backend_muladd.
  assert (forall A (a : A), exists t, w_trace (snd (ret a w)) = w_trace w ++ t
            /\ (t = [] \/ exists calls, t = EvLock :: calls ++ [EvUnlock]
                  /\ Forall (fun e => is_engine_call e = true) calls
                  /\ 1 <= length calls <= 3)) as Hret.
  { intros A a. exists []. split; [by rewrite app_nil_r|by left]. }
  destruct grp as [grp|], R as [R|], m as [m|], P as [P|], n as [n|], Q as [Q|];
    try apply Hret.
  set (wl := GET_WORD_LEN (grp_pbits grp)).
  destruct (wl <=? PKE_OPERAND_MAX_WORD_LEN); [|apply Hret].
  unfold bind, ret, local_array, mbedtls_ecp_lock, mbedtls_ecp_unlock, log. simpl.
  destruct (_ && _); simpl; [|exists []; split; [by rewrite app_nil_r|by left]].
  destruct (eccp_curve_get cfg grp) as [c|]; simpl;
    [|exists []; split; [by rewrite app_nil_r|by left]].
  destruct (muladd_steps_cases c m n wl MBEDTLS_ERR_PLATFORM_HW_ACCEL_FAILED R
              (stack_array w 0 wl)
              (void_write (pt_X P) (stack_array w 1 wl) wl)
              (void_write (pt_Y P) (stack_array w 2 wl) wl)
              (void_write (pt_X Q) (stack_array w 3 wl) wl)
              (void_write (pt_Y Q) (stack_array w 4 wl) wl)
              {| w_hw := w_hw w; w_trace := w_trace w ++ [EvLock];
                 w_stack := w_stack w |})
    as (calls & result' & R' & ms' & Q1x' & Q1y' & Q2x' & Q2y' & hw' & ->
        & _ & Hcalls & _ & Hend).
  simpl. exists (EvLock :: calls ++ [EvUnlock]).
  split; [by rewrite <- !app_assoc|]. right. exists calls.
  split; [done|]. split; [done|].
  destruct Hend as [(pre & e & -> & _ & _ & Hlen & _)
                   |(e1 & e2 & P1x & P1y & P2x & P2y & ox & oy & -> & _)].
  - rewrite length_app. simpl. lia.
  - simpl. lia.
Qed.

(** C10.  The three public functions drop the return code of the export.
    On a registered short-Weierstrass curve, when the first operand a
    function exports (the X coordinate for [check_pubkey] and [muladd], the
    scalar for [mul]) does not fit the array, so that the export fails with
    [MBEDTLS_ERR_MPI_BUFFER_TOO_SMALL], the function still takes the lock
    and calls the engine, handing it for that operand the array as the
    stack held it, never written; and it does not return
    [MBEDTLS_ERR_MPI_BUFFER_TOO_SMALL]. *)
Theorem encode_failure_ignored (grp : mbedtls_ecp_group) (pt R P Q : mbedtls_ecp_point)
    (m n : mbedtls_mpi) (c : eccp_curve_t) (w : world HW) :
  ecp_get_type grp = ECP_TYPE_SHORT_WEIERSTRASS ->
  eccp_curve_get cfg grp = Some c ->
  GET_WORD_LEN (grp_pbits grp) <= PKE_OPERAND_MAX_WORD_LEN ->
  let wl := GET_WORD_LEN (grp_pbits grp) in
  (encode_fails (pt_X pt) wl ->
   let call := ecp_alt_b91_backend_check_pubkey (Some grp) (Some pt) in
   (exists Qy r,
       w_trace (world_after call w)
       = w_trace w ++ [EvLock; EvPointVerify c (stack_array w 0 wl) Qy r; EvUnlock])
   /\ fst (value_of call w) <> MBEDTLS_ERR_MPI_BUFFER_TOO_SMALL)
  /\ (encode_fails m wl ->
      let call := ecp_alt_b91_backend_mul (Some grp) (Some R) (Some m) (Some P) in
      (exists Px Py r ox oy,
          w_trace (world_after call w)
          = w_trace w ++ [EvLock; EvPointMul c (stack_array w 0 wl) Px Py r ox oy; EvUnlock])
      /\ op_result (value_of call w) <> MBEDTLS_ERR_MPI_BUFFER_TOO_SMALL)
  /\ (encode_fails (pt_X P) wl ->
      let call := ecp_alt_b91_backend_muladd
                    (Some grp) (Some R) (Some m) (Some P) (Some n) (Some Q) in
      (exists k Py r ox oy rest,
          w_trace (world_after call w)
          = w_trace w ++ EvLock :: EvPointMul c k (stack_array w 1 wl) Py r ox oy :: rest)
      /\ op_result (value_of call w) <> MBEDTLS_ERR_MPI_BUFFER_TOO_SMALL).
Proof.
  intros Hty Hget Hle wl. apply Nat.leb_le in Hle.
  pose proof (eccp_curve_get_enabled grp c Hget) as Hen.
  split; [|split].
  - intros Hfail call.
    destruct (check_pubkey_run grp pt c w Hty Hget) as (r & hw' & Hrun & Hres).
    { by apply Nat.leb_le. }
    fold wl in Hrun. unfold call, value_of, world_after. rewrite Hrun. simpl.
    rewrite (void_write_fails _ _ _ Hfail). split; [by do 2 eexists|].
    destruct Hres as [-> | ->]; done.
  - intros Hfail call.
    unfold call, value_of, world_after, op_result, ecp_alt_b91_backend_mul.
    rewrite Hle. fold wl. unfold bind, ret, local_array. simpl.
    destruct (mul_short_weierstrass_run grp m P wl c
                MBEDTLS_ERR_PLATFORM_FEATURE_UNSUPPORTED R
                (stack_array w 0 wl) (stack_array w 1 wl) (stack_array w 2 wl) w
                Hty Hget)
      as (r & ox & oy & result' & R' & ms' & Qx' & Qy' & hw' & -> & Hres).
    rewrite mul_montgomery_skip by (left; by rewrite Hty). simpl.
    rewrite (void_write_fails _ _ _ Hfail). split; [by do 5 eexists|].
    destruct Hres as [-> | ->]; done.
  - intros Hfail call.
    unfold call, value_of, world_after, op_result, ecp_alt_b91_backend_muladd.
    rewrite Hle, Hen, Hty, Hget. fold wl.
    unfold bind, ret, local_array, mbedtls_ecp_lock, mbedtls_ecp_unlock, log. simpl.
    rewrite (void_write_fails _ _ _ Hfail).
    destruct (muladd_steps_cases c m n wl MBEDTLS_ERR_PLATFORM_HW_ACCEL_FAILED R
                (stack_array w 0 wl)
                (stack_array w 1 wl)
                (void_write (pt_Y P) (stack_array w 2 wl) wl)
                (void_write (pt_X Q) (stack_array w 3 wl) wl)
                (void_write (pt_Y Q) (stack_array w 4 wl) wl)
                {| w_hw := w_hw w; w_trace := w_trace w ++ [EvLock];
                   w_stack := w_stack w |})
      as (calls & result' & R' & ms' & Q1x' & Q1y' & Q2x' & Q2y' & hw' & ->
          & _ & _ & (r & ox & oy & rest & ->) & Hend).
    simpl. split.
    + do 6 eexists. rewrite <- !app_assoc. simpl. done.
    + destruct Hend as [(pre & e & _ & _ & _ & _ & -> & _)
                       |(e1 & e2 & P1x & P1y & P2x & P2y & ox' & oy' & _ & _ & _ & -> & _)];
        done.
Qed.

(** ** The public functions, case by case *)

Arguments ecp_alt_b91_backend_check_pubkey : simpl never.
Arguments ecp_alt_b91_backend_mul : simpl never.
Arguments ecp_alt_b91_backend_muladd : simpl never.

(** [check_pubkey] either leaves the world alone, or runs on a registered
    short-Weierstrass curve. *)
Lemma check_pubkey_cases (grp : option mbedtls_ecp_group)
    (pt : option mbedtls_ecp_point) (w : world HW) :
  (exists code frame,
      ecp_alt_b91_backend_check_pubkey grp pt w = ((code, frame), w)
      /\ (code = MBEDTLS_ERR_ECP_BAD_INPUT_DATA
          \/ code = MBEDTLS_ERR_PLATFORM_FEATURE_UNSUPPORTED))
  \/ (exists g p c,
        grp = Some g /\ pt = Some p
        /\ ecp_get_type g = ECP_TYPE_SHORT_WEIERSTRASS
        /\ eccp_curve_get cfg g = Some c
        /\ GET_WORD_LEN (grp_pbits g) <= PKE_OPERAND_MAX_WORD_LEN).
Proof.
  destruct grp as [g|], pt as [p|]; try (left; do 2 eexists; split; [done|by left]).
  unfold ecp_alt_b91_backend_check_pubkey.
  destruct (Nat.leb_spec (GET_WORD_LEN (grp_pbits g)) PKE_OPERAND_MAX_WORD_LEN)
    as [Hle|Hgt]; [|left; do 2 eexists; split; [done|by right]].
  unfold bind, ret, local_array. simpl.
  destruct (ECP_SHORTWEIERSTRASS cfg); simpl;
    [|left; do 2 eexists; split; [done|by right]].
  case_bool_decide as Hty; simpl; [|left; do 2 eexists; split; [done|by right]].
  destruct (eccp_curve_get cfg g) as [c|] eqn:Hget; simpl;
    [|left; do 2 eexists; split; [done|by right]].
  right. exists g, p, c. by repeat split.
Qed.

Lemma mul_short_weierstrass_detail (grp : mbedtls_ecp_group) (m : mbedtls_mpi)
    (P : mbedtls_ecp_point) (word_len : nat) (c : eccp_curve_t)
    (result : Z) (R : mbedtls_ecp_point) (ms Qx Qy : list Z) (w : world HW) :
  ecp_get_type grp = ECP_TYPE_SHORT_WEIERSTRASS ->
  eccp_curve_get cfg grp = Some c ->
  let k := void_write m ms word_len in
  let Px := void_write (pt_X P) Qx word_len in
  let Py := void_write (pt_Y P) Qy word_len in
  exists r ox oy hw',
    pke_eccp_point_mul c k Px Py (w_hw w) = (r, (ox, oy), hw')
    /\ mul_short_weierstrass grp m P word_len (result, R, ms, Qx, Qy) w
       = ((if (r =? PKE_SUCCESS)%Z then 0%Z else MBEDTLS_ERR_PLATFORM_HW_ACCEL_FAILED,
           if (r =? PKE_SUCCESS)%Z
           then {| pt_X := void_read (pt_X R) (overwrite ox Px) word_len;
                   pt_Y := void_read (pt_Y R) (overwrite oy Py) word_len;
                   pt_Z := void_lset (pt_Z R) 1 |}
           else R,
           k, overwrite ox Px, overwrite oy Py),
          {| w_hw := hw';
             w_trace := w_trace w ++ [EvLock; EvPointMul c k Px Py r ox oy; EvUnlock];
             w_stack := w_stack w |}).
Proof.
  intros Hty Hget k Px Py. pose proof (eccp_curve_get_enabled grp c Hget) as Hen.
  unfold mul_short_weierstrass. rewrite Hen, Hty, Hget.
  unfold call_point_mul, mbedtls_ecp_lock, mbedtls_ecp_unlock, log, engine, bind, ret.
  simpl. fold k Px Py.
  destruct (pke_eccp_point_mul c k Px Py (w_hw w)) as [[r [ox oy]] hw']. simpl.
  exists r, ox, oy, hw'. split; [done|].
  destruct (r =? PKE_SUCCESS)%Z; simpl; by rewrite <- !app_assoc.
Qed.

Lemma mul_montgomery_detail (grp : mbedtls_ecp_group) (m : mbedtls_mpi)
    (P : mbedtls_ecp_point) (word_len : nat) (c : mont_curve_t)
    (result : Z) (R : mbedtls_ecp_point) (ms Qx Qy : list Z) (w : world HW) :
  ecp_get_type grp = ECP_TYPE_MONTGOMERY ->
  mont_curve_get cfg grp = Some c ->
  let k := void_write m ms word_len in
  let Pu := void_write (pt_X P) Qx word_len in
  exists r ou hw',
    pke_x25519_point_mul c k Pu (w_hw w) = (r, ou, hw')
    /\ mul_montgomery grp m P word_len (result, R, ms, Qx, Qy) w
       = ((if (r =? PKE_SUCCESS)%Z then 0%Z else MBEDTLS_ERR_PLATFORM_HW_ACCEL_FAILED,
           if (r =? PKE_SUCCESS)%Z
           then {| pt_X := void_read (pt_X R) (overwrite ou Pu) word_len;
                   pt_Y := void_lset (pt_Y R) 0;
                   pt_Z := void_lset (pt_Z R) 1 |}
           else R,
           k, overwrite ou Pu, Qy),
          {| w_hw := hw';
             w_trace := w_trace w ++ [EvLock; EvX25519Mul c k Pu r ou; EvUnlock];
             w_stack := w_stack w |}).
Proof.
  intros Hty Hget k Pu. pose proof (mont_curve_get_enabled grp c Hget) as Hen.
  unfold mul_montgomery. rewrite Hen, Hty, Hget.
  unfold call_x25519_point_mul, mbedtls_ecp_lock, mbedtls_ecp_unlock, log, engine,
    bind, ret.
  simpl. fold k Pu.
  destruct (pke_x25519_point_mul c k Pu (w_hw w)) as [[r ou] hw']. simpl.
  exists r, ou, hw'. split; [done|].
  destruct (r =? PKE_SUCCESS)%Z; simpl; by rewrite <- !app_assoc.
Qed.

(** [mul] either leaves the world and [R] alone, or runs on a registered
    curve of one of the two families. *)
Lemma mul_cases (grp : option mbedtls_ecp_group) (R : option mbedtls_ecp_point)
    (m : option mbedtls_mpi) (P : option mbedtls_ecp_point) (w : world HW) :
  (exists code frame,
      ecp_alt_b91_backend_mul grp R m P w = ((code, R, frame), w)
      /\ (code = MBEDTLS_ERR_ECP_BAD_INPUT_DATA
          \/ code = MBEDTLS_ERR_PLATFORM_FEATURE_UNSUPPORTED))
  \/ (exists g R0 m0 P0,
        grp = Some g /\ R = Some R0 /\ m = Some m0 /\ P = Some P0
        /\ GET_WORD_LEN (grp_pbits g) <= PKE_OPERAND_MAX_WORD_LEN
        /\ ((ecp_get_type g = ECP_TYPE_SHORT_WEIERSTRASS
             /\ exists c, eccp_curve_get cfg g = Some c)
            \/ (ecp_get_type g = ECP_TYPE_MONTGOMERY
                /\ exists c, mont_curve_get cfg g = Some c))).
Proof.
  destruct grp as [g|], R as [R0|], m as [m0|], P as [P0|];
    try (left; do 2 eexists; split; [done|by left]).
  unfold ecp_alt_b91_backend_mul.
  destruct (Nat.leb_spec (GET_WORD_LEN (grp_pbits g)) PKE_OPERAND_MAX_WORD_LEN)
    as [Hle|Hgt]; [|left; do 2 eexists; split; [done|by right]].
  destruct (decide (ecp_get_type g = ECP_TYPE_SHORT_WEIERSTRASS)) as [Hsw|Hsw].
  { destruct (eccp_curve_get cfg g) as [c|] eqn:Hget.
    - right. exists g, R0, m0, P0. repeat split; try done. left. split; [done|by exists c].
    - left. unfold bind, ret, local_array. simpl.
      rewrite mul_short_weierstrass_skip by (by right).
      rewrite mul_montgomery_skip by (left; by rewrite Hsw).
      do 2 eexists. split; [done|by right]. }
  destruct (decide (ecp_get_type g = ECP_TYPE_MONTGOMERY)) as [Hmt|Hmt].
  { destruct (mont_curve_get cfg g) as [c|] eqn:Hget.
    - right. exists g, R0, m0, P0. repeat split; try done. right. split; [done|by exists c].
    - left. unfold bind, ret, local_array. simpl.
      rewrite mul_short_weierstrass_skip by (by left).
      rewrite mul_montgomery_skip by (by right).
      do 2 eexists. split; [done|by right]. }
  left. unfold bind, ret, local_array. simpl.
  rewrite mul_short_weierstrass_skip by (by left).
  rewrite mul_montgomery_skip by (by left).
  do 2 eexists. split; [done|by right].
Qed.

(** The run of [mul] on a registered short-Weierstrass curve. *)
Lemma mul_run_short_weierstrass (g : mbedtls_ecp_group) (R P : mbedtls_ecp_point)
    (m : mbedtls_mpi) (c : eccp_curve_t) (w : world HW) :
  ecp_get_type g = ECP_TYPE_SHORT_WEIERSTRASS ->
  eccp_curve_get cfg g = Some c ->
  GET_WORD_LEN (grp_pbits g) <= PKE_OPERAND_MAX_WORD_LEN ->
  let wl := GET_WORD_LEN (grp_pbits g) in
  let k := void_write m (stack_array w 0 wl) wl in
  let Px := void_write (pt_X P) (stack_array w 1 wl) wl in
  let Py := void_write (pt_Y P) (stack_array w 2 wl) wl in
  exists r ox oy hw',
    pke_eccp_point_mul c k Px Py (w_hw w) = (r, (ox, oy), hw')
    /\ ecp_alt_b91_backend_mul (Some g) (Some R) (Some m) (Some P) w
       = ((if (r =? PKE_SUCCESS)%Z then 0%Z else MBEDTLS_ERR_PLATFORM_HW_ACCEL_FAILED,
           Some (if (r =? PKE_SUCCESS)%Z
                 then {| pt_X := void_read (pt_X R) (overwrite ox Px) wl;
                         pt_Y := void_read (pt_Y R) (overwrite oy Py) wl;
                         pt_Z := void_lset (pt_Z R) 1 |}
                 else R),
           Some [wipe k wl; wipe (overwrite ox Px) wl; wipe (overwrite oy Py) wl]),
          {| w_hw := hw';
             w_trace := w_trace w ++ [EvLock; EvPointMul c k Px Py r ox oy; EvUnlock];
             w_stack := w_stack w |}).
Proof.
  intros Hty Hget Hle wl k Px Py. apply Nat.leb_le in Hle.
  unfold ecp_alt_b91_backend_mul. rewrite Hle. fold wl.
  unfold bind, ret, local_array. simpl.
  destruct (mul_short_weierstrass_detail g m P wl c
              MBEDTLS_ERR_PLATFORM_FEATURE_UNSUPPORTED R
              (stack_array w 0 wl) (stack_array w 1 wl) (stack_array w 2 wl) w
              Hty Hget) as (r & ox & oy & hw' & Hcall & ->).
  rewrite mul_montgomery_skip by (left; by rewrite Hty). simpl.
  exists r, ox, oy, hw'. by split.
Qed.

(** The run of [mul] on a registered Montgomery curve. *)
Lemma mul_run_montgomery (g : mbedtls_ecp_group) (R P : mbedtls_ecp_point)
    (m : mbedtls_mpi) (c : mont_curve_t) (w : world HW) :
  ecp_get_type g = ECP_TYPE_MONTGOMERY ->
  mont_curve_get cfg g = Some c ->
  GET_WORD_LEN (grp_pbits g) <= PKE_OPERAND_MAX_WORD_LEN ->
  let wl := GET_WORD_LEN (grp_pbits g) in
  let k := void_write m (stack_array w 0 wl) wl in
  let Pu := void_write (pt_X P) (stack_array w 1 wl) wl in
  exists r ou hw',
    pke_x25519_point_mul c k Pu (w_hw w) = (r, ou, hw')
    /\ ecp_alt_b91_backend_mul (Some g) (Some R) (Some m) (Some P) w
       = ((if (r =? PKE_SUCCESS)%Z then 0%Z else MBEDTLS_ERR_PLATFORM_HW_ACCEL_FAILED,
           Some (if (r =? PKE_SUCCESS)%Z
                 then {| pt_X := void_read (pt_X R) (overwrite ou Pu) wl;
                         pt_Y := void_lset (pt_Y R) 0;
                         pt_Z := void_lset (pt_Z R) 1 |}
                 else R),
           Some [wipe k wl; wipe (overwrite ou Pu) wl; wipe (stack_array w 2 wl) wl]),
          {| w_hw := hw';
             w_trace := w_trace w ++ [EvLock; EvX25519Mul c k Pu r ou; EvUnlock];
             w_stack := w_stack w |}).
Proof.
  intros Hty Hget Hle wl k Pu. apply Nat.leb_le in Hle.
  unfold ecp_alt_b91_backend_mul. rewrite Hle. fold wl.
  unfold bind, ret, local_array. simpl.
  rewrite mul_short_weierstrass_skip by (left; by rewrite Hty).
  destruct (mul_montgomery_detail g m P wl c
              MBEDTLS_ERR_PLATFORM_FEATURE_UNSUPPORTED R
              (stack_array w 0 wl) (stack_array w 1 wl) (stack_array w 2 wl) w
              Hty Hget) as (r & ou & hw' & Hcall & ->).
  simpl. exists r, ou, hw'. by split.
Qed.

Lemma muladd_steps_flow (curve : eccp_curve_t) (m n : mbedtls_mpi) (word_len : nat)
    (result0 : Z) (R : mbedtls_ecp_point) (ms Q1x Q1y Q2x Q2y : list Z) (w : world HW) :
  exists calls result' R' ms' Q1x' Q1y' Q2x' Q2y' hw',
    muladd_steps curve m n word_len (result0, R, ms, Q1x, Q1y, Q2x, Q2y) w
    = ((result', R', ms', Q1x', Q1y', Q2x', Q2y'),
       {| w_hw := hw'; w_trace := w_trace w ++ calls; w_stack := w_stack w |})
    /\ muladd_flow curve (void_write m ms word_len)
         (void_write n (void_write m ms word_len) word_len) Q1x Q1y Q2x Q2y calls
    /\ muladd_ending curve word_len result0 R calls result' R'.
Proof.
  unfold muladd_steps, call_point_mul, call_point_add, engine, bind, ret, muladd_flow.
  destruct (pke_eccp_point_mul curve (void_write m ms word_len) Q1x Q1y (w_hw w))
    as [[r1 [ox1 oy1]] hw1] eqn:E1.
  simpl.
  destruct (Z.eqb_spec r1 PKE_SUCCESS) as [Hr1|Hr1]; simpl.
  2:{ do 9 eexists. split; [done|]. split.
      - do 4 eexists. split; [done|]. split; [done|]. intros H. by destruct Hr1.
      - left. exists [], (EvPointMul curve (void_write m ms word_len) Q1x Q1y r1 ox1 oy1).
        repeat split; [by constructor|by exists r1|simpl; lia]. }
  destruct (pke_eccp_point_mul curve
              (void_write n (void_write m ms word_len) word_len) Q2x Q2y hw1)
    as [[r2 [ox2 oy2]] hw2] eqn:E2.
  simpl.
  destruct (Z.eqb_spec r2 PKE_SUCCESS) as [Hr2|Hr2]; simpl.
  2:{ do 9 eexists. split; [by rewrite <- app_assoc|]. split.
      - do 4 eexists. split; [done|]. split; [by intros H; destruct H|]. intros _.
        do 4 eexists. split; [done|]. split; [done|]. intros H. by destruct Hr2.
      - left. eexists [_], _.
        repeat split; [repeat constructor; unfold succeeded; simpl; by rewrite Hr1
                      |by exists r2|simpl; lia]. }
  destruct (pke_eccp_point_add curve (overwrite ox1 Q1x) (overwrite oy1 Q1y)
              (overwrite ox2 Q2x) (overwrite oy2 Q2y) hw2)
    as [[r3 [ox3 oy3]] hw3] eqn:E3.
  simpl.
  destruct (Z.eqb_spec r3 PKE_SUCCESS) as [Hr3|Hr3]; simpl;
    (do 9 eexists; split; [by rewrite <- !app_assoc|]; split;
     [do 4 eexists; split; [done|]; split; [by intros H; destruct H|]; intros _;
      do 4 eexists; split; [done|]; split; [by intros H; destruct H|]; intros _;
      by do 3 eexists|]).
  - right. subst r3. do 8 eexists.
    repeat split; unfold succeeded; simpl; by rewrite ?Hr1, ?Hr2.
  - left. eexists [_; _], _.
    repeat split; [repeat constructor; unfold succeeded; simpl; by rewrite ?Hr1, ?Hr2
                  |by exists r3|simpl; lia].
Qed.

(** The run of [muladd] on a registered short-Weierstrass curve. *)
Lemma muladd_run (g : mbedtls_ecp_group) (R P Q : mbedtls_ecp_point)
    (m n : mbedtls_mpi) (c : eccp_curve_t) (w : world HW) :
  ecp_get_type g = ECP_TYPE_SHORT_WEIERSTRASS ->
  eccp_curve_get cfg g = Some c ->
  GET_WORD_LEN (grp_pbits g) <= PKE_OPERAND_MAX_WORD_LEN ->
  let wl := GET_WORD_LEN (grp_pbits g) in
  let k1 := void_write m (stack_array w 0 wl) wl in
  exists calls result' R' frame hw',
    ecp_alt_b91_backend_muladd (Some g) (Some R) (Some m) (Some P) (Some n) (Some Q) w
    = ((result', Some R', Some frame),
       {| w_hw := hw';
          w_trace := w_trace w ++ EvLock :: calls ++ [EvUnlock];
          w_stack := w_stack w |})
    /\ muladd_flow c k1 (void_write n k1 wl)
         (void_write (pt_X P) (stack_array w 1 wl) wl)
         (void_write (pt_Y P) (stack_array w 2 wl) wl)
         (void_write (pt_X Q) (stack_array w 3 wl) wl)
         (void_write (pt_Y Q) (stack_array w 4 wl) wl) calls
    /\ muladd_ending c wl MBEDTLS_ERR_PLATFORM_HW_ACCEL_FAILED R calls result' R'.
Proof.
  intros Hty Hget Hle wl k1. apply Nat.leb_le in Hle.
  pose proof (eccp_curve_get_enabled g c Hget) as Hen.
  unfold ecp_alt_b91_backend_muladd. rewrite Hle, Hen, Hty, Hget. fold wl.
  unfold bind, ret, local_array, mbedtls_ecp_lock, mbedtls_ecp_unlock, log. simpl.
  destruct (muladd_steps_flow c m n wl MBEDTLS_ERR_PLATFORM_HW_ACCEL_FAILED R
              (stack_array w 0 wl)
              (void_write (pt_X P) (stack_array w 1 wl) wl)
              (void_write (pt_Y P) (stack_array w 2 wl) wl)
              (void_write (pt_X Q) (stack_array w 3 wl) wl)
              (void_write (pt_Y Q) (stack_array w 4 wl) wl)
              {| w_hw := w_hw w; w_trace := w_trace w ++ [EvLock];
                 w_stack := w_stack w |})
    as (calls & result' & R' & ms' & Q1x' & Q1y' & Q2x' & Q2y' & hw' & -> & Hflow & Hend).
  simpl. exists calls. do 4 eexists.
  split; [by rewrite <- !app_assoc|]. by split.
Qed.

(** [muladd] either leaves the world and [R] alone, or runs on a registered
    short-Weierstrass curve. *)
Lemma muladd_cases (grp : option mbedtls_ecp_group) (R : option mbedtls_ecp_point)
    (m : option mbedtls_mpi) (P : option mbedtls_ecp_point)
    (n : option mbedtls_mpi) (Q : option mbedtls_ecp_point) (w : world HW) :
  (exists code frame,
      ecp_alt_b91_backend_muladd grp R m P n Q w = ((code, R, frame), w)
      /\ (code = MBEDTLS_ERR_ECP_BAD_INPUT_DATA
          \/ code = MBEDTLS_ERR_PLATFORM_FEATURE_UNSUPPORTED))
  \/ (exists g R0 m0 P0 n0 Q0 c,
        grp = Some g /\ R = Some R0 /\ m = Some m0 /\ P = Some P0
        /\ n = Some n0 /\ Q = Some Q0
        /\ ecp_get_type g = ECP_TYPE_SHORT_WEIERSTRASS
        /\ eccp_curve_get cfg g = Some c
        /\ GET_WORD_LEN (grp_pbits g) <= PKE_OPERAND_MAX_WORD_LEN).
Proof.
  destruct grp as [g|], R as [R0|], m as [m0|], P as [P0|], n as [n0|], Q as [Q0|];
    try (left; do 2 eexists; split; [done|by left]).
  unfold ecp_alt_b91_backend_muladd.
  destruct (Nat.leb_spec (GET_WORD_LEN (grp_pbits g)) PKE_OPERAND_MAX_WORD_LEN)
    as [Hle|Hgt]; [|left; do 2 eexists; split; [done|by right]].
  unfold bind, ret, local_array. simpl.
  destruct (ECP_SHORTWEIERSTRASS cfg); simpl;
    [|left; do 2 eexists; split; [done|by right]].
  case_bool_decide as Hty; simpl; [|left; do 2 eexists; split; [done|by right]].
  destruct (eccp_curve_get cfg g) as [c|] eqn:Hget; simpl;
    [|left; do 2 eexists; split; [done|by right]].
  right. exists g, R0, m0, P0, n0, Q0, c. by repeat split.
Qed.

(** X13.  The codes the three functions can return, whatever their
    arguments and whatever the engine does: 0, BAD_INPUT_DATA,
    FEATURE_UNSUPPORTED, and INVALID_KEY for [check_pubkey] only,
    HW_ACCEL_FAILED for [mul] and [muladd] only.  No code of the codec
    (buffer too small, allocation failed) ever comes out. *)
Theorem backend_return_codes (grp : option mbedtls_ecp_group)
    (pt R P Q : option mbedtls_ecp_point) (m n : option mbedtls_mpi) (w : world HW) :
  In (fst (value_of (ecp_alt_b91_backend_check_pubkey grp pt) w))
     [0%Z; MBEDTLS_ERR_ECP_BAD_INPUT_DATA; MBEDTLS_ERR_PLATFORM_FEATURE_UNSUPPORTED;
      MBEDTLS_ERR_ECP_INVALID_KEY]
  /\ In (op_result (value_of (ecp_alt_b91_backend_mul grp R m P) w))
        [0%Z; MBEDTLS_ERR_ECP_BAD_INPUT_DATA; MBEDTLS_ERR_PLATFORM_FEATURE_UNSUPPORTED;
         MBEDTLS_ERR_PLATFORM_HW_ACCEL_FAILED]
  /\ In (op_result (value_of (ecp_alt_b91_backend_muladd grp R m P n Q) w))
        [0%Z; MBEDTLS_ERR_ECP_BAD_INPUT_DATA; MBEDTLS_ERR_PLATFORM_FEATURE_UNSUPPORTED;
         MBEDTLS_ERR_PLATFORM_HW_ACCEL_FAILED].
Proof.
  unfold value_of, op_result. split; [|split].
  - destruct (check_pubkey_cases grp pt w)
      as [(code & frame & -> & [-> | ->])
         |(g & p & c & -> & -> & Hty & Hget & Hle)]; simpl; [tauto|tauto|].
    destruct (check_pubkey_run g p c w Hty Hget Hle) as (r & hw' & -> & _). simpl.
    destruct (r =? PKE_SUCCESS)%Z; tauto.
  - destruct (mul_cases grp R m P w)
      as [(code & frame & -> & [-> | ->])
         |(g & R0 & m0 & P0 & -> & -> & -> & -> & Hle
             & [[Hty [c Hget]]|[Hty [c Hget]]])]; simpl; [tauto|tauto| |].
    + destruct (mul_run_short_weierstrass g R0 P0 m0 c w Hty Hget Hle)
        as (r & ox & oy & hw' & _ & ->). simpl.
      destruct (r =? PKE_SUCCESS)%Z; tauto.
    + destruct (mul_run_montgomery g R0 P0 m0 c w Hty Hget Hle)
        as (r & ou & hw' & _ & ->). simpl.
      destruct (r =? PKE_SUCCESS)%Z; tauto.
  - destruct (muladd_cases grp R m P n Q w)
      as [(code & frame & -> & [-> | ->])
         |(g & R0 & m0 & P0 & n0 & Q0 & c & -> & -> & -> & -> & -> & ->
             & Hty & Hget & Hle)]; simpl; [tauto|tauto|].
    destruct (muladd_run g R0 P0 Q0 m0 n0 c w Hty Hget Hle)
      as (calls & result' & R' & frame & hw' & -> & _ & Hend). simpl.
    destruct Hend as [(pre & e & _ & _ & _ & _ & -> & _)
                     |(e1 & e2 & P1x & P1y & P2x & P2y & ox & oy & _ & _ & _ & -> & _)];
      tauto.
Qed.

(** X14.  [check_pubkey] and [mul] make at most one engine call, and make
    it between taking and releasing the lock: the events they add are none
    (and then the world is untouched), or lock, one call, unlock.  The call
    of [check_pubkey] is a point verification; that of [mul] is a point
    multiplication or an X25519 multiplication. *)
Theorem single_call_under_lock (grp : option mbedtls_ecp_group)
    (pt R P : option mbedtls_ecp_point) (m : option mbedtls_mpi) (w : world HW) :
  (world_after (ecp_alt_b91_backend_check_pubkey grp pt) w = w
   \/ exists c Qx Qy r,
        w_trace (world_after (ecp_alt_b91_backend_check_pubkey grp pt) w)
        = w_trace w ++ [EvLock; EvPointVerify c Qx Qy r; EvUnlock])
  /\ (world_after (ecp_alt_b91_backend_mul grp R m P) w = w
      \/ (exists c k Px Py r ox oy,
            w_trace (world_after (ecp_alt_b91_backend_mul grp R m P) w)
            = w_trace w ++ [EvLock; EvPointMul c k Px Py r ox oy; EvUnlock])
      \/ (exists c k Pu r ou,
            w_trace (world_after (ecp_alt_b91_backend_mul grp R m P) w)
            = w_trace w ++ [EvLock; EvX25519Mul c k Pu r ou; EvUnlock])).
Proof.
  unfold world_after. split.
  - destruct (check_pubkey_cases grp pt w)
      as [(code & frame & -> & _)|(g & p & c & -> & -> & Hty & Hget & Hle)];
      [by left|right].
    destruct (check_pubkey_run g p c w Hty Hget Hle) as (r & hw' & -> & _).
    by do 4 eexists.
  - destruct (mul_cases grp R m P w)
      as [(code & frame & -> & _)
         |(g & R0 & m0 & P0 & -> & -> & -> & -> & Hle
             & [[Hty [c Hget]]|[Hty [c Hget]]])]; [by left| |].
    + right. left.
      destruct (mul_run_short_weierstrass g R0 P0 m0 c w Hty Hget Hle)
        as (r & ox & oy & hw' & _ & ->).
      by do 7 eexists.
    + right. right.
      destruct (mul_run_montgomery g R0 P0 m0 c w Hty Hget Hle)
        as (r & ou & hw' & _ & ->).
      by do 5 eexists.
Qed.

(** X15.  The output point is written on success only: whenever [mul] or
    [muladd] returns a code other than 0, [R] is what it was (NULL
    included). *)
Theorem output_point_only_on_success (grp : option mbedtls_ecp_group)
    (R P Q : option mbedtls_ecp_point) (m n : option mbedtls_mpi) (w : world HW) :
  (op_result (value_of (ecp_alt_b91_backend_mul grp R m P) w) <> 0%Z ->
   op_R (value_of (ecp_alt_b91_backend_mul grp R m P) w) = R)
  /\ (op_result (value_of (ecp_alt_b91_backend_muladd grp R m P n Q) w) <> 0%Z ->
      op_R (value_of (ecp_alt_b91_backend_muladd grp R m P n Q) w) = R).
Proof.
  unfold value_of, op_result, op_R. split.
  - destruct (mul_cases grp R m P w)
      as [(code & frame & -> & _)
         |(g & R0 & m0 & P0 & -> & -> & -> & -> & Hle
             & [[Hty [c Hget]]|[Hty [c Hget]]])]; [done| |].
    + destruct (mul_run_short_weierstrass g R0 P0 m0 c w Hty Hget Hle)
        as (r & ox & oy & hw' & _ & ->). simpl.
      by destruct (r =? PKE_SUCCESS)%Z.
    + destruct (mul_run_montgomery g R0 P0 m0 c w Hty Hget Hle)
        as (r & ou & hw' & _ & ->). simpl.
      by destruct (r =? PKE_SUCCESS)%Z.
  - destruct (muladd_cases grp R m P n Q w)
      as [(code & frame & -> & _)
         |(g & R0 & m0 & P0 & n0 & Q0 & c & -> & -> & -> & -> & -> & ->
             & Hty & Hget & Hle)]; [done|].
    destruct (muladd_run g R0 P0 Q0 m0 n0 c w Hty Hget Hle)
      as (calls & result' & R' & frame & hw' & -> & _ & Hend). simpl.
    destruct Hend as [(pre & e & _ & _ & _ & _ & -> & ->)
                     |(e1 & e2 & P1x & P1y & P2x & P2y & ox & oy & _ & _ & _ & -> & _)];
      done.
Qed.

(** X16.  [mul] on a registered short-Weierstrass curve: the engine is
    handed, under the lock, the arrays the scalar and the two coordinates of
    [P] were exported into; when it returns [PKE_SUCCESS] the function
    returns 0 and [R] holds the import of the two arrays the engine wrote,
    with [Z] set by [mbedtls_mpi_lset] to 1; for any other code it returns
    [MBEDTLS_ERR_PLATFORM_HW_ACCEL_FAILED] and [R] is unchanged. *)
Theorem mul_short_weierstrass_outcome (g : mbedtls_ecp_group) (R P : mbedtls_ecp_point)
    (m : mbedtls_mpi) (c : eccp_curve_t) (w : world HW) :
  ecp_get_type g = ECP_TYPE_SHORT_WEIERSTRASS ->
  eccp_curve_get cfg g = Some c ->
  GET_WORD_LEN (grp_pbits g) <= PKE_OPERAND_MAX_WORD_LEN ->
  let wl := GET_WORD_LEN (grp_pbits g) in
  let k := void_write m (stack_array w 0 wl) wl in
  let Px := void_write (pt_X P) (stack_array w 1 wl) wl in
  let Py := void_write (pt_Y P) (stack_array w 2 wl) wl in
  let call := ecp_alt_b91_backend_mul (Some g) (Some R) (Some m) (Some P) in
  exists r ox oy,
    fst (pke_eccp_point_mul c k Px Py (w_hw w)) = (r, (ox, oy))
    /\ w_trace (world_after call w)
       = w_trace w ++ [EvLock; EvPointMul c k Px Py r ox oy; EvUnlock]
    /\ (r = PKE_SUCCESS ->
        op_result (value_of call w) = 0%Z
        /\ op_R (value_of call w)
           = Some {| pt_X := void_read (pt_X R) (overwrite ox Px) wl;
                     pt_Y := void_read (pt_Y R) (overwrite oy Py) wl;
                     pt_Z := void_lset (pt_Z R) 1 |})
    /\ (r <> PKE_SUCCESS ->
        op_result (value_of call w) = MBEDTLS_ERR_PLATFORM_HW_ACCEL_FAILED
        /\ op_R (value_of call w) = Some R).
Proof.
  intros Hty Hget Hle wl k Px Py call.
  destruct (mul_run_short_weierstrass g R P m c w Hty Hget Hle)
    as (r & ox & oy & hw' & Hcall & Hrun).
  fold wl k Px Py in Hcall, Hrun. fold call in Hrun.
  exists r, ox, oy. unfold value_of, world_after, op_result, op_R.
  rewrite Hcall, Hrun. simpl. split; [done|]. split; [done|].
  destruct (Z.eqb_spec r PKE_SUCCESS) as [Hr|Hr]; split; intros Hr'; done.
Qed.

(** X17.  [mul] on a registered Montgomery curve: the engine is handed,
    under the lock, the arrays of the scalar and of the X coordinate only;
    when it returns [PKE_SUCCESS] the function returns 0 and [R] holds the
    import of the array the engine wrote, with [Y] set to 0 and [Z] to 1
    by [mbedtls_mpi_lset]; for any other code it returns
    [MBEDTLS_ERR_PLATFORM_HW_ACCEL_FAILED] and [R] is unchanged.  The Y
    coordinate of [P] is never read. *)
Theorem mul_montgomery_outcome (g : mbedtls_ecp_group) (R P : mbedtls_ecp_point)
    (m : mbedtls_mpi) (c : mont_curve_t) (w : world HW) :
  ecp_get_type g = ECP_TYPE_MONTGOMERY ->
  mont_curve_get cfg g = Some c ->
  GET_WORD_LEN (grp_pbits g) <= PKE_OPERAND_MAX_WORD_LEN ->
  let wl := GET_WORD_LEN (grp_pbits g) in
  let k := void_write m (stack_array w 0 wl) wl in
  let Pu := void_write (pt_X P) (stack_array w 1 wl) wl in
  let call := ecp_alt_b91_backend_mul (Some g) (Some R) (Some m) (Some P) in
  (exists r ou,
      fst (pke_x25519_point_mul c k Pu (w_hw w)) = (r, ou)
      /\ w_trace (world_after call w)
         = w_trace w ++ [EvLock; EvX25519Mul c k Pu r ou; EvUnlock]
      /\ (r = PKE_SUCCESS ->
          op_result (value_of call w) = 0%Z
          /\ op_R (value_of call w)
             = Some {| pt_X := void_read (pt_X R) (overwrite ou Pu) wl;
                       pt_Y := void_lset (pt_Y R) 0;
                       pt_Z := void_lset (pt_Z R) 1 |}
          /\ (0 < ciL -> mpi_wf (pt_Y R) -> mpi_wf (pt_Z R) -> alloc_granted 1 ->
              mpi_value (void_lset (pt_Y R) 0) = 0%Z
              /\ mpi_value (void_lset (pt_Z R) 1) = 1%Z))
      /\ (r <> PKE_SUCCESS ->
          op_result (value_of call w) = MBEDTLS_ERR_PLATFORM_HW_ACCEL_FAILED
          /\ op_R (value_of call w) = Some R))
  /\ (forall Y' Z',
        ecp_alt_b91_backend_mul (Some g) (Some R) (Some m)
          (Some {| pt_X := pt_X P; pt_Y := Y'; pt_Z := Z' |}) w
        = call w).
Proof.
  intros Hty Hget Hle wl k Pu call. split.
  - destruct (mul_run_montgomery g R P m c w Hty Hget Hle)
      as (r & ou & hw' & Hcall & Hrun).
    fold wl k Pu in Hcall, Hrun. fold call in Hrun.
    exists r, ou. unfold value_of, world_after, op_result, op_R.
    rewrite Hcall, Hrun. simpl. split; [done|]. split; [done|].
    destruct (Z.eqb_spec r PKE_SUCCESS) as [Hr|Hr]; split; intros Hr'; try done.
    split; [done|]. split; [done|]. intros Hc HY HZ Ha.
    assert (0 < 2 ^ biL)%Z as Hpos by (apply Z.pow_pos_nonneg; unfold biL; lia).
    destruct (lset_value (pt_Y R) 0 HY Ha) as (Y1 & HY1 & HvY & _); [simpl; lia|].
    destruct (lset_value (pt_Z R) 1 HZ Ha) as (Z1 & HZ1 & HvZ & _).
    { simpl. rewrite pow_biL. apply Z.pow_gt_1; lia. }
    unfold void_lset. by rewrite HY1, HZ1.
  - intros Y' Z'. unfold call.
    destruct (mul_run_montgomery g R P m c w Hty Hget Hle)
      as (r & ou & hw' & Hcall & ->).
    destruct (mul_run_montgomery g R {| pt_X := pt_X P; pt_Y := Y'; pt_Z := Z' |}
                m c w Hty Hget Hle) as (r2 & ou2 & hw2 & Hcall2 & ->).
    simpl in Hcall2. fold wl k Pu in Hcall, Hcall2.
    rewrite Hcall in Hcall2. injection Hcall2 as <- <- <-. done.
Qed.

Lemma muladd_flow_calls (c : eccp_curve_t) (k1 k2 Q1x Q1y Q2x Q2y : list Z)
    (calls : list event) :
  muladd_flow c k1 k2 Q1x Q1y Q2x Q2y calls -> muladd_calls c calls.
Proof.
  intros (r1 & ox1 & oy1 & rest1 & -> & Hfail1 & Hok1).
  destruct (decide (r1 = PKE_SUCCESS)) as [->|Hr1].
  2:{ left. rewrite (Hfail1 Hr1). by do 6 eexists. }
  destruct (Hok1 eq_refl) as (r2 & ox2 & oy2 & rest2 & -> & Hfail2 & Hok2).
  destruct (decide (r2 = PKE_SUCCESS)) as [->|Hr2].
  2:{ right. left. rewrite (Hfail2 Hr2). by do 11 eexists. }
  destruct (Hok2 eq_refl) as (r3 & ox3 & oy3 & ->).
  right. right. by do 17 eexists.
Qed.

(** C9.  On a registered short-Weierstrass curve, with all arguments
    present and the word length within the limit,
    [ecp_alt_b91_backend_muladd] adds to the log exactly: one lock, then
    its engine calls, then one unlock.  The engine calls are the first
    point multiplication, then (if it succeeded) the second, then (if that
    succeeded) the point addition; there is neither a lock nor an unlock
    among them.  So the lock is taken once before the first call, released
    once after the last, and held in between. *)
Theorem muladd_single_lock (g : mbedtls_ecp_group) (R P Q : mbedtls_ecp_point)
    (m n : mbedtls_mpi) (c : eccp_curve_t) (w : world HW) :
  ecp_get_type g = ECP_TYPE_SHORT_WEIERSTRASS ->
  eccp_curve_get cfg g = Some c ->
  GET_WORD_LEN (grp_pbits g) <= PKE_OPERAND_MAX_WORD_LEN ->
  exists calls,
    w_trace (world_after
               (ecp_alt_b91_backend_muladd
                  (Some g) (Some R) (Some m) (Some P) (Some n) (Some Q)) w)
    = w_trace w ++ EvLock :: calls ++ [EvUnlock]
    /\ muladd_calls c calls
    /\ Forall (fun e => e <> EvLock /\ e <> EvUnlock) calls
    /\ 1 <= length calls <= 3.
Proof.
  intros Hty Hget Hle.
  destruct (muladd_run g R P Q m n c w Hty Hget Hle)
    as (calls & result' & R' & frame & hw' & Hrun & Hflow & _).
  exists calls. unfold world_after. rewrite Hrun.
  split; [done|]. apply muladd_flow_calls in Hflow.
  split; [done|].
  destruct Hflow as [(k & Px & Py & r & ox & oy & -> & _)
    |[(k1 & P1x & P1y & ox1 & oy1 & k2 & P2x & P2y & r & ox2 & oy2 & -> & _)
     |(k1 & P1x & P1y & ox1 & oy1 & k2 & P2x & P2y & ox2 & oy2
       & Q1x & Q1y & Q2x & Q2y & r & ox & oy & ->)]];
    (split; [by repeat constructor|simpl; lia]).
Qed.

(** X20.  The data flow of [muladd] on a registered short-Weierstrass
    curve.  Between lock and unlock, the first multiplication is handed the
    export of [m] and of the coordinates of [P]; if it succeeds the second
    is handed the export of [n], written over that of [m] in the same
    array, and of the coordinates of [Q]; if that succeeds too the addition
    is handed the four arrays as the two multiplications left them. *)
Theorem muladd_data_flow (g : mbedtls_ecp_group) (R P Q : mbedtls_ecp_point)
    (m n : mbedtls_mpi) (c : eccp_curve_t) (w : world HW) :
  ecp_get_type g = ECP_TYPE_SHORT_WEIERSTRASS ->
  eccp_curve_get cfg g = Some c ->
  GET_WORD_LEN (grp_pbits g) <= PKE_OPERAND_MAX_WORD_LEN ->
  let wl := GET_WORD_LEN (grp_pbits g) in
  let k1 := void_write m (stack_array w 0 wl) wl in
  let k2 := void_write n k1 wl in
  exists calls,
    w_trace (world_after
               (ecp_alt_b91_backend_muladd
                  (Some g) (Some R) (Some m) (Some P) (Some n) (Some Q)) w)
    = w_trace w ++ EvLock :: calls ++ [EvUnlock]
    /\ muladd_flow c k1 k2
         (void_write (pt_X P) (stack_array w 1 wl) wl)
         (void_write (pt_Y P) (stack_array w 2 wl) wl)
         (void_write (pt_X Q) (stack_array w 3 wl) wl)
         (void_write (pt_Y Q) (stack_array w 4 wl) wl) calls.
Proof.
  intros Hty Hget Hle wl k1 k2.
  destruct (muladd_run g R P Q m n c w Hty Hget Hle)
    as (calls & result' & R' & frame & hw' & Hrun & Hflow & _).
  exists calls. unfold world_after. rewrite Hrun. by split.
Qed.

(** X21.  A scalar left over: on a registered short-Weierstrass curve,
    when the export of the second scalar [n] fails, the scalar array still
    holds what the export of [m] left there, and the second multiplication,
    if it is reached, is handed the same scalar array as the first. *)
Theorem muladd_stale_scalar (g : mbedtls_ecp_group) (R P Q : mbedtls_ecp_point)
    (m n : mbedtls_mpi) (c : eccp_curve_t) (w : world HW) :
  ecp_get_type g = ECP_TYPE_SHORT_WEIERSTRASS ->
  eccp_curve_get cfg g = Some c ->
  GET_WORD_LEN (grp_pbits g) <= PKE_OPERAND_MAX_WORD_LEN ->
  encode_fails n (GET_WORD_LEN (grp_pbits g)) ->
  let wl := GET_WORD_LEN (grp_pbits g) in
  let k1 := void_write m (stack_array w 0 wl) wl in
  exists calls,
    w_trace (world_after
               (ecp_alt_b91_backend_muladd
                  (Some g) (Some R) (Some m) (Some P) (Some n) (Some Q)) w)
    = w_trace w ++ EvLock :: calls ++ [EvUnlock]
    /\ muladd_flow c k1 k1
         (void_write (pt_X P) (stack_array w 1 wl) wl)
         (void_write (pt_Y P) (stack_array w 2 wl) wl)
         (void_write (pt_X Q) (stack_array w 3 wl) wl)
         (void_write (pt_Y Q) (stack_array w 4 wl) wl) calls.
Proof.
  intros Hty Hget Hle Hfail wl k1.
  destruct (muladd_run g R P Q m n c w Hty Hget Hle)
    as (calls & result' & R' & frame & hw' & Hrun & Hflow & _).
  fold wl k1 in Hflow. rewrite (void_write_fails n k1 wl Hfail) in Hflow.
  exists calls. unfold world_after. rewrite Hrun. by split.
Qed.

(** ** What the engine is handed *)

Lemma GET_BYTE_byte (X : mbedtls_mpi) (i : nat) : is_byte (GET_BYTE X i).
Proof.
  unfold GET_BYTE, is_byte. change 255%Z with (Z.ones 8).
  rewrite Z.land_ones by done. apply Z.mod_pos_bound. done.
Qed.

Lemma copy_bytes_is_bytes (X : mbedtls_mpi) (i count : nat) (buf : list Z) :
  Forall is_byte buf -> Forall is_byte (copy_bytes X i count buf).
Proof.
  revert i buf. induction count as [|count IH]; intros i buf Hb; simpl; [done|].
  apply IH. apply Forall_insert; [done|apply GET_BYTE_byte].
Qed.

Lemma memset_0_is_bytes (buf : list Z) (off len : nat) :
  Forall is_byte buf -> Forall is_byte (memset buf off 0%Z len).
Proof.
  revert off buf. induction len as [|len IH]; intros off buf Hb; simpl; [done|].
  apply IH. apply Forall_insert; [done|by unfold is_byte].
Qed.

Lemma void_write_ok (X : mbedtls_mpi) (a : list Z) (word_len : nat) :
  operand_ok word_len a -> operand_ok word_len (void_write X a word_len).
Proof.
  intros [Hlen Hb]. split; [by rewrite length_void_write|].
  unfold void_write, mbedtls_mpi_write_binary_le.
  destruct (_ && _); simpl; [done|].
  destruct (_ <? _); [apply memset_0_is_bytes|]; by apply copy_bytes_is_bytes.
Qed.

Lemma stack_array_ok (w : world HW) (k word_len : nat) :
  operand_ok word_len (stack_array w k word_len).
Proof.
  split; [apply length_stack_array|].
  unfold stack_array. apply Forall_fmap, Forall_forall. intros j _.
  unfold is_byte, byte_wrap. simpl. apply Z.mod_pos_bound. done.
Qed.

Lemma overwrite_ok (out old : list Z) (word_len : nat) :
  operand_ok word_len old -> operand_ok word_len (overwrite out old).
Proof.
  intros [Hlen Hb]. split; [by rewrite length_overwrite|].
  unfold overwrite. apply Forall_take, Forall_app. split.
  - apply Forall_fmap, Forall_forall. intros z _.
    unfold is_byte, byte_wrap. simpl. apply Z.mod_pos_bound. done.
  - by apply Forall_drop.
Qed.

Lemma muladd_flow_operands (c : eccp_curve_t) (word_len : nat)
    (k1 k2 Q1x Q1y Q2x Q2y : list Z) (calls : list event) :
  operand_ok word_len k1 -> operand_ok word_len k2 ->
  operand_ok word_len Q1x -> operand_ok word_len Q1y ->
  operand_ok word_len Q2x -> operand_ok word_len Q2y ->
  muladd_flow c k1 k2 Q1x Q1y Q2x Q2y calls ->
  forall e a, In e calls -> In a (event_operands e) -> operand_ok word_len a.
Proof.
  intros Hk1 Hk2 H1x H1y H2x H2y (r1 & ox1 & oy1 & rest1 & -> & Hf1 & Hs1) e a He Ha.
  destruct He as [<-|He].
  { simpl in Ha. destruct Ha as [<-|[<-|[<-|[]]]]; done. }
  destruct (Z.eq_dec r1 PKE_SUCCESS) as [Hr1|Hr1]; [|by rewrite (Hf1 Hr1) in He].
  destruct (Hs1 Hr1) as (r2 & ox2 & oy2 & rest2 & -> & Hf2 & Hs2).
  destruct He as [<-|He].
  { simpl in Ha. destruct Ha as [<-|[<-|[<-|[]]]]; done. }
  destruct (Z.eq_dec r2 PKE_SUCCESS) as [Hr2|Hr2]; [|by rewrite (Hf2 Hr2) in He].
  destruct (Hs2 Hr2) as (r3 & ox3 & oy3 & ->).
  destruct He as [<-|[]].
  simpl in Ha. destruct Ha as [<-|[<-|[<-|[<-|[]]]]]; by apply overwrite_ok.
Qed.

(** X22.  Fixed-width operands: every array any of the three functions
    hands to the engine has exactly [GET_WORD_LEN( grp->pbits )] words and
    holds bytes only, whatever the numbers exported into it and whatever
    the engine wrote before. *)
Theorem engine_operands_fixed_width (grp : option mbedtls_ecp_group)
    (pt R P Q : option mbedtls_ecp_point) (m n : option mbedtls_mpi) (w : world HW)
    (t : list event) :
  w_trace (world_after (ecp_alt_b91_backend_check_pubkey grp pt) w) = w_trace w ++ t
  \/ w_trace (world_after (ecp_alt_b91_backend_mul grp R m P) w) = w_trace w ++ t
  \/ w_trace (world_after (ecp_alt_b91_backend_muladd grp R m P n Q) w)
     = w_trace w ++ t ->
  forall e a, In e t -> In a (event_operands e) ->
    exists g, grp = Some g /\ operand_ok (GET_WORD_LEN (grp_pbits g)) a.
Proof.
  unfold world_after. intros Ht e a He Ha.
  assert (forall l : list event, w_trace w = w_trace w ++ l -> l = []) as Hnil.
  { intros l Hl. apply (app_inv_head (w_trace w)). by rewrite app_nil_r. }
  destruct Ht as [Ht|[Ht|Ht]].
  - destruct (check_pubkey_cases grp pt w)
      as [(code & frame & Hrun & _)|(g & p & c & -> & -> & Hty & Hget & Hle)].
    { rewrite Hrun in Ht. simpl in Ht. rewrite (Hnil t Ht) in He. destruct He. }
    destruct (check_pubkey_run g p c w Hty Hget Hle) as (r & hw' & Hrun & _).
    rewrite Hrun in Ht. simpl in Ht. apply app_inv_head in Ht. subst t.
    exists g. split; [done|].
    destruct He as [<-|[<-|[<-|[]]]]; simpl in Ha; try done.
    destruct Ha as [<-|[<-|[]]]; apply void_write_ok, stack_array_ok.
  - destruct (mul_cases grp R m P w)
      as [(code & frame & Hrun & _)
         |(g & R0 & m0 & P0 & -> & -> & -> & -> & Hle
             & [[Hty [c Hget]]|[Hty [c Hget]]])].
    { rewrite Hrun in Ht. simpl in Ht. rewrite (Hnil t Ht) in He. destruct He. }
    + destruct (mul_run_short_weierstrass g R0 P0 m0 c w Hty Hget Hle)
        as (r & ox & oy & hw' & _ & Hrun).
      rewrite Hrun in Ht. simpl in Ht. apply app_inv_head in Ht. subst t.
      exists g. split; [done|].
      destruct He as [<-|[<-|[<-|[]]]]; simpl in Ha; try done.
      destruct Ha as [<-|[<-|[<-|[]]]]; apply void_write_ok, stack_array_ok.
    + destruct (mul_run_montgomery g R0 P0 m0 c w Hty Hget Hle)
        as (r & ou & hw' & _ & Hrun).
      rewrite Hrun in Ht. simpl in Ht. apply app_inv_head in Ht. subst t.
      exists g. split; [done|].
      destruct He as [<-|[<-|[<-|[]]]]; simpl in Ha; try done.
      destruct Ha as [<-|[<-|[]]]; apply void_write_ok, stack_array_ok.
  - destruct (muladd_cases grp R m P n Q w)
      as [(code & frame & Hrun & _)
         |(g & R0 & m0 & P0 & n0 & Q0 & c & -> & -> & -> & -> & -> & ->
             & Hty & Hget & Hle)].
    { rewrite Hrun in Ht. simpl in Ht. rewrite (Hnil t Ht) in He. destruct He. }
    destruct (muladd_run g R0 P0 Q0 m0 n0 c w Hty Hget Hle)
      as (calls & result' & R' & frame & hw' & Hrun & Hflow & _).
    rewrite Hrun in Ht. simpl in Ht. apply app_inv_head in Ht. subst t.
    exists g. split; [done|].
    destruct He as [<-|He]; [destruct Ha|].
    apply in_app_or in He as [He|[<-|[]]]; [|destruct Ha].
    eapply muladd_flow_operands; [..|exact Hflow|exact He|exact Ha];
      repeat apply void_write_ok; apply stack_array_ok.
Qed.

(** ** Values in and out *)

Lemma overwrite_full (out old : list Z) :
  Forall is_byte out -> length out = length old -> overwrite out old = out.
Proof.
  intros Hb Hlen. unfold overwrite.
  rewrite drop_ge by lia. rewrite app_nil_r, take_ge by (rewrite length_map; lia).
  apply list_eq. intros i. rewrite list_lookup_fmap.
  destruct (out !! i) as [z|] eqn:E; [|done]. simpl. f_equal.
  apply (Forall_lookup_1 _ _ _ _ Hb) in E. unfold is_byte in E.
  unfold byte_wrap. by apply Z.mod_small.
Qed.

Lemma void_write_value (X : mbedtls_mpi) (a : list Z) (word_len : nat) :
  0 < ciL -> mpi_wf X -> length a = sizeof_words word_len ->
  (mpi_magnitude X < 256 ^ Z.of_nat (sizeof_words word_len))%Z ->
  le_value (void_write X a word_len) = mpi_magnitude X.
Proof.
  intros Hc Hwf Hlen Hfit.
  pose proof (fits_no_excess Hc X (sizeof_words word_len) Hwf Hfit) as Hz.
  destruct (write_binary_le_cases X a (sizeof_words word_len) Hwf Hlen)
    as [[(i & Hi & Hb) _]|[_ (buf' & Hw & Hex)]].
  { exfalso. apply Hb, Hz, Hi. }
  unfold void_write. rewrite Hw. simpl.
  by apply (exported_value Hc X (sizeof_words word_len)).
Qed.

(** X18.  Faithful marshalling in [check_pubkey]: on a registered
    short-Weierstrass curve, when the two coordinates of the point are
    well-formed and below [256 ^ sizeof( Qx )], the arrays the engine is
    asked about denote, least significant byte first, exactly the
    magnitudes of [X] and [Y]. *)
Theorem check_pubkey_marshals (g : mbedtls_ecp_group) (pt : mbedtls_ecp_point)
    (c : eccp_curve_t) (w : world HW) :
  0 < ciL ->
  ecp_get_type g = ECP_TYPE_SHORT_WEIERSTRASS ->
  eccp_curve_get cfg g = Some c ->
  GET_WORD_LEN (grp_pbits g) <= PKE_OPERAND_MAX_WORD_LEN ->
  mpi_wf (pt_X pt) -> mpi_wf (pt_Y pt) ->
  (mpi_magnitude (pt_X pt) < 256 ^ Z.of_nat (sizeof_words (GET_WORD_LEN (grp_pbits g))))%Z ->
  (mpi_magnitude (pt_Y pt) < 256 ^ Z.of_nat (sizeof_words (GET_WORD_LEN (grp_pbits g))))%Z ->
  exists Qx Qy r,
    w_trace (world_after (ecp_alt_b91_backend_check_pubkey (Some g) (Some pt)) w)
    = w_trace w ++ [EvLock; EvPointVerify c Qx Qy r; EvUnlock]
    /\ le_value Qx = mpi_magnitude (pt_X pt)
    /\ le_value Qy = mpi_magnitude (pt_Y pt).
Proof.
  intros Hc Hty Hget Hle HX HY HfX HfY.
  destruct (check_pubkey_run g pt c w Hty Hget Hle) as (r & hw' & Hrun & _).
  unfold world_after. rewrite Hrun. simpl.
  do 3 eexists. split; [done|].
  split; apply void_write_value; try done; apply length_stack_array.
Qed.

(** X19.  Values through [mul] on a registered short-Weierstrass curve:
    when the scalar and the coordinates of [P] are well-formed and fit the
    arrays, the engine is handed arrays that denote their magnitudes; and
    when the engine succeeds and writes two full arrays of bytes, [R]
    (well-formed before, its storage requests granted) ends up with the
    numbers these arrays denote in [X] and [Y], and 1 in [Z]. *)
Theorem mul_short_weierstrass_values (g : mbedtls_ecp_group) (R P : mbedtls_ecp_point)
    (m : mbedtls_mpi) (c : eccp_curve_t) (w : world HW) :
  0 < ciL ->
  ecp_get_type g = ECP_TYPE_SHORT_WEIERSTRASS ->
  eccp_curve_get cfg g = Some c ->
  GET_WORD_LEN (grp_pbits g) <= PKE_OPERAND_MAX_WORD_LEN ->
  let size := sizeof_words (GET_WORD_LEN (grp_pbits g)) in
  mpi_wf m -> mpi_wf (pt_X P) -> mpi_wf (pt_Y P) ->
  (mpi_magnitude m < 256 ^ Z.of_nat size)%Z ->
  (mpi_magnitude (pt_X P) < 256 ^ Z.of_nat size)%Z ->
  (mpi_magnitude (pt_Y P) < 256 ^ Z.of_nat size)%Z ->
  let call := ecp_alt_b91_backend_mul (Some g) (Some R) (Some m) (Some P) in
  exists k Px Py r ox oy,
    w_trace (world_after call w)
    = w_trace w ++ [EvLock; EvPointMul c k Px Py r ox oy; EvUnlock]
    /\ le_value k = mpi_magnitude m
    /\ le_value Px = mpi_magnitude (pt_X P)
    /\ le_value Py = mpi_magnitude (pt_Y P)
    /\ (r = PKE_SUCCESS ->
        Forall is_byte ox -> length ox = size ->
        Forall is_byte oy -> length oy = size ->
        mpi_wf (pt_X R) -> mpi_wf (pt_Y R) -> mpi_wf (pt_Z R) ->
        alloc_granted 1 -> alloc_granted (Nat.max 1 (CHARS_TO_LIMBS size)) ->
        exists R',
          op_R (value_of call w) = Some R'
          /\ op_result (value_of call w) = 0%Z
          /\ mpi_value (pt_X R') = le_value ox
          /\ mpi_value (pt_Y R') = le_value oy
          /\ mpi_value (pt_Z R') = 1%Z).
Proof.
  intros Hc Hty Hget Hle size Hm HX HY Hfm HfX HfY call.
  destruct (mul_run_short_weierstrass g R P m c w Hty Hget Hle)
    as (r & ox & oy & hw' & _ & Hrun).
  unfold call, world_after, value_of, op_R, op_result. rewrite Hrun. simpl.
  do 6 eexists. split; [done|].
  split; [apply void_write_value; try done; apply length_stack_array|].
  split; [apply void_write_value; try done; apply length_stack_array|].
  split; [apply void_write_value; try done; apply length_stack_array|].
  intros -> Hbx Hlx Hby Hly HRX HRY HRZ Ha1 Ha.
  rewrite Z.eqb_refl. eexists. split; [done|]. split; [done|]. simpl.
  rewrite !overwrite_full
    by (try done; by rewrite length_void_write, length_stack_array).
  unfold void_read, void_lset.
  rewrite !read_binary_le_decoded by done. simpl snd.
  rewrite !(decoded_value Hc) by done.
  split; [done|]. split; [done|].
  destruct (lset_value (pt_Z R) 1 HRZ Ha1) as (Z1 & HZ1 & HvZ & _).
  { simpl. rewrite pow_biL. apply Z.pow_gt_1; lia. }
  by rewrite HZ1.
Qed.

(** ** Groups the back end declines *)

Lemma not_registered_declined (g : mbedtls_ecp_group) (pt R P Q : mbedtls_ecp_point)
    (m n : mbedtls_mpi) (w : world HW) :
  registered g = false ->
  (exists frame,
      ecp_alt_b91_backend_check_pubkey (Some g) (Some pt) w
      = ((MBEDTLS_ERR_PLATFORM_FEATURE_UNSUPPORTED, frame), w))
  /\ (exists frame,
        ecp_alt_b91_backend_mul (Some g) (Some R) (Some m) (Some P) w
        = ((MBEDTLS_ERR_PLATFORM_FEATURE_UNSUPPORTED, Some R, frame), w))
  /\ (exists frame,
        ecp_alt_b91_backend_muladd (Some g) (Some R) (Some m) (Some P) (Some n) (Some Q) w
        = ((MBEDTLS_ERR_PLATFORM_FEATURE_UNSUPPORTED, Some R, frame), w)).
Proof.
  intros Hreg.
  assert (ecp_get_type g <> ECP_TYPE_SHORT_WEIERSTRASS \/ eccp_curve_get cfg g = None)
    as Hsw.
  { destruct (decide (ecp_get_type g = ECP_TYPE_SHORT_WEIERSTRASS)) as [Hty|Hty];
      [right; by apply registered_short_weierstrass|by left]. }
  assert (ecp_get_type g <> ECP_TYPE_MONTGOMERY \/ mont_curve_get cfg g = None) as Hmt.
  { destruct (decide (ecp_get_type g = ECP_TYPE_MONTGOMERY)) as [Hty|Hty];
      [right; by apply registered_montgomery|by left]. }
  split; [|split].
  - unfold ecp_alt_b91_backend_check_pubkey.
    destruct (_ <=? _); [|by eexists].
    unfold bind, ret, local_array. simpl.
    destruct (ECP_SHORTWEIERSTRASS cfg); simpl; [|by eexists].
    case_bool_decide as Hty; simpl; [|by eexists].
    destruct Hsw as [Hsw|Hsw]; [done|]. rewrite Hsw. by eexists.
  - unfold ecp_alt_b91_backend_mul.
    destruct (_ <=? _); [|by eexists].
    unfold bind, ret, local_array. simpl.
    rewrite mul_short_weierstrass_skip, mul_montgomery_skip by done.
    by eexists.
  - unfold ecp_alt_b91_backend_muladd.
    destruct (_ <=? _); [|by eexists].
    unfold bind, ret, local_array. simpl.
    destruct (ECP_SHORTWEIERSTRASS cfg); simpl; [|by eexists].
    case_bool_decide as Hty; simpl; [|by eexists].
    destruct Hsw as [Hsw|Hsw]; [done|]. rewrite Hsw. by eexists.
Qed.

(** X23.  Curves enabled without an entry: for the ids SECP384R1,
    SECP521R1, BP384R1, BP512R1 and CURVE448 (and NONE), whatever the build
    configuration, so even with their curve enabled, and however the group
    is classified, the three functions called with present arguments
    return [MBEDTLS_ERR_PLATFORM_FEATURE_UNSUPPORTED] and leave the world
    and [R] as they were. *)
Theorem ids_without_entry_declined (g : mbedtls_ecp_group) (pt R P Q : mbedtls_ecp_point)
    (m n : mbedtls_mpi) (w : world HW) :
  without_entry (grp_id g) ->
  (exists frame,
      ecp_alt_b91_backend_check_pubkey (Some g) (Some pt) w
      = ((MBEDTLS_ERR_PLATFORM_FEATURE_UNSUPPORTED, frame), w))
  /\ (exists frame,
        ecp_alt_b91_backend_mul (Some g) (Some R) (Some m) (Some P) w
        = ((MBEDTLS_ERR_PLATFORM_FEATURE_UNSUPPORTED, Some R, frame), w))
  /\ (exists frame,
        ecp_alt_b91_backend_muladd (Some g) (Some R) (Some m) (Some P) (Some n) (Some Q) w
        = ((MBEDTLS_ERR_PLATFORM_FEATURE_UNSUPPORTED, Some R, frame), w)).
Proof.
  intros Hid. apply not_registered_declined.
  unfold registered. rewrite eccp_curve_get_direct, mont_curve_get_direct.
  unfold without_entry in Hid. simpl in Hid.
  destruct Hid as [<-|[<-|[<-|[<-|[<-|[<-|[]]]]]]];
    destruct (ecp_get_type g); try done;
    apply bool_decide_eq_false; by intros [? ?].
Qed.

(** X24.  Classification and id must agree: a group classified as
    short-Weierstrass that carries the id of Curve25519, or classified as
    Montgomery with any other id, is looked up in the table of the wrong
    family and declined: the three functions return
    [MBEDTLS_ERR_PLATFORM_FEATURE_UNSUPPORTED] and leave the world and [R]
    as they were, whatever the build configuration. *)
Theorem family_mismatch_declined (g : mbedtls_ecp_group) (pt R P Q : mbedtls_ecp_point)
    (m n : mbedtls_mpi) (w : world HW) :
  family_mismatch g ->
  (exists frame,
      ecp_alt_b91_backend_check_pubkey (Some g) (Some pt) w
      = ((MBEDTLS_ERR_PLATFORM_FEATURE_UNSUPPORTED, frame), w))
  /\ (exists frame,
        ecp_alt_b91_backend_mul (Some g) (Some R) (Some m) (Some P) w
        = ((MBEDTLS_ERR_PLATFORM_FEATURE_UNSUPPORTED, Some R, frame), w))
  /\ (exists frame,
        ecp_alt_b91_backend_muladd (Some g) (Some R) (Some m) (Some P) (Some n) (Some Q) w
        = ((MBEDTLS_ERR_PLATFORM_FEATURE_UNSUPPORTED, Some R, frame), w)).
Proof.
  intros Hmis. apply not_registered_declined.
  unfold registered. rewrite eccp_curve_get_direct, mont_curve_get_direct.
  destruct Hmis as [[-> ->]|[-> Hid]].
  - apply bool_decide_eq_false. by intros [? ?].
  - apply bool_decide_eq_false. intros [c Hc].
    unfold mont_curve_of in Hc. destruct (grp_id g); done.
Qed.

(** X26.  The [Z] coordinate of an input point is never read: replacing
    [Z] in the point given to [check_pubkey], in [P] given to [mul], or in
    [P] and [Q] given to [muladd], changes nothing in what the function
    returns, writes or asks of the engine.  Inputs are taken as affine. *)
Theorem input_Z_ignored (grp : option mbedtls_ecp_group) (R : option mbedtls_ecp_point)
    (pt P Q : mbedtls_ecp_point) (m n : option mbedtls_mpi)
    (Z1 Z2 : mbedtls_mpi) (w : world HW) :
  ecp_alt_b91_backend_check_pubkey grp (Some (with_Z pt Z1)) w
  = ecp_alt_b91_backend_check_pubkey grp (Some pt) w
  /\ ecp_alt_b91_backend_mul grp R m (Some (with_Z P Z1)) w
     = ecp_alt_b91_backend_mul grp R m (Some P) w
  /\ ecp_alt_b91_backend_muladd grp R m (Some (with_Z P Z1)) n (Some (with_Z Q Z2)) w
     = ecp_alt_b91_backend_muladd grp R m (Some P) n (Some Q) w.
Proof.
  split; [|split].
  - by destruct grp.
  - by destruct grp, R, m.
  - by destruct grp, R, m, n.
Qed.

(** ** The firmware signature check *)

Lemma memcmp_zero_iff (a b : list Z) (n : nat) :
  n <= length a -> n <= length b ->
  memcmp a b n = 0%Z <-> take n a = take n b.
Proof.
  revert a b. induction n as [|n IH]; intros a b Ha Hb; [by split|].
  destruct a as [|x a]; [simpl in Ha; lia|].
  destruct b as [|y b]; [simpl in Hb; lia|].
  simpl in Ha, Hb. simpl.
  destruct (Z.eqb_spec x y) as [->|Hne].
  - rewrite IH by lia. split; [by intros ->|intros H; by injection H].
  - split; [lia|intros H; injection H as H1 _; done].
Qed.

(** X25.  The firmware signature gate: with key arrays of 16 bytes,
    [blt_firmware_signature_check] returns exactly when reading the flash
    UID did not report an error (flag other than 0) and the key derived
    from the UID equals, byte for byte, the key read from flash at
    [flash_sector_calibration + CALIB_OFFSET_FIRMWARE_SIGNKEY]; in every
    other case it never returns. *)
Theorem firmware_signature_gate (env : flash_env) (uid0 enc0 key0 : list Z)
    (flag mid : Z) (uid : list Z) :
  flash_read_mid_uid_with_check env uid0 = (flag, mid, uid) ->
  let enc := firmware_encrypt_based_on_uid env uid enc0 in
  let key := flash_read_page env
               (u32_add (flash_sector_calibration env) (CALIB_OFFSET_FIRMWARE_SIGNKEY env))
               16 key0 in
  length enc = 16 -> length key = 16 ->
  (blt_firmware_signature_check env uid0 enc0 key0 = Returns
   <-> flag <> 0%Z /\ enc = key)
  /\ (blt_firmware_signature_check env uid0 enc0 key0 = Hangs
      <-> flag = 0%Z \/ enc <> key).
Proof.
  intros Hread enc key Henc Hkey.
  unfold blt_firmware_signature_check. rewrite Hread. fold enc key.
  pose proof (memcmp_zero_iff enc key 16 ltac:(lia) ltac:(lia)) as Hcmp.
  rewrite !take_ge in Hcmp by lia.
  destruct (Z.eqb_spec flag 0) as [Hf|Hf].
  - split; split; try done; [by intros [? _]|by left].
  - destruct (Z.eqb_spec (memcmp enc key 16) 0) as [Hm|Hm]; simpl.
    + apply Hcmp in Hm. split; split; try done. intros [?|?]; done.
    + assert (enc <> key) as Hne by (intros Heq; by apply Hm, Hcmp).
      split; split; try done; [by intros [_ ?]|by right].
Qed.

End Backend.

(** ** The theorems at concrete inputs

    The platform of the B91: limbs of 4 chars, every curve enabled, words of
    32 bits, operands of at most 8 words, success code 0, the engine of the
    fixtures, and an optimising build, which removes dead stores. *)

Local Abbreviation check_pubkey_b91 :=
  (ecp_alt_b91_backend_check_pubkey 4 cfg_all word_len_32 8 0%Z (list Z) fake_verify false).
Local Abbreviation mul_b91 :=
  (ecp_alt_b91_backend_mul 4 100 calloc_always cfg_all word_len_32 8 0%Z (list Z)
     fake_mul fake_x25519 false).
Local Abbreviation muladd_b91 :=
  (ecp_alt_b91_backend_muladd 4 100 calloc_always cfg_all word_len_32 8 0%Z (list Z)
     fake_mul fake_add false).

Ltac mpi_wf_by_computation :=
  unfold mpi_wf, mpi_limbs, is_limb, biL, SIZE_BITS; simpl;
  repeat split; try lia; try (by left); try (right; by eexists);
  repeat constructor; lia.

(** The codec on small inputs: two limbs into six bytes, a value too wide
    for six bytes, zero fill, and imports of five bytes. *)
Example write_two_limbs :
  mbedtls_mpi_write_binary_le 4 (mpi_of_words [0x01020304; 5]%Z) (replicate 6 7%Z) 6
  = (0%Z, [4; 3; 2; 1; 5; 0]%Z).
Proof. reflexivity. Qed.

Example write_too_small :
  mbedtls_mpi_write_binary_le 4 (mpi_of_words [0x01020304; 0x50000]%Z) (replicate 6 7%Z) 6
  = (MBEDTLS_ERR_MPI_BUFFER_TOO_SMALL, replicate 6 7%Z).
Proof. reflexivity. Qed.

Example write_zero_fill :
  mbedtls_mpi_write_binary_le 4 (mpi_of_words [0x01020304]%Z) (replicate 6 7%Z) 6
  = (0%Z, [4; 3; 2; 1; 0; 0]%Z).
Proof. reflexivity. Qed.

Example read_five_bytes :
  mbedtls_mpi_read_binary_le 4 100 calloc_always (mpi_of_words [77; 88; 99]%Z)
    [4; 3; 2; 1; 5]%Z 5
  = (0%Z, mpi_of_words [0x01020304; 5]%Z).
Proof. reflexivity. Qed.

Example read_no_storage :
  mbedtls_mpi_read_binary_le 4 100 (fun _ => false) (mpi_of_words [77; 88; 99]%Z)
    [4; 3; 2; 1; 5]%Z 5
  = (MBEDTLS_ERR_MPI_ALLOC_FAILED, {| mpi_s := 1; mpi_n := 0; mpi_p := None |}).
Proof. reflexivity. Qed.

(** A multiplication on Curve25519 with a well-behaved engine: one call
    under the lock, the result read back with Y = 0 and Z = 1. *)
Example mul_curve25519 :
  let out := mul_b91 (Some grp_curve25519) (Some (point_of_words [0%Z] [0%Z]))
               (Some (mpi_of_words [2%Z])) (Some (point_of_words [9%Z] [0%Z]))
               (world_with []) in
  op_result (fst out) = 0%Z
  /\ map is_engine_call (w_trace (snd out)) = [false; true; false]
  /\ (mpi_value 4 <$> (pt_X <$> op_R (fst out))) = Some 9%Z
  /\ (mpi_value 4 <$> (pt_Y <$> op_R (fst out))) = Some 0%Z
  /\ (mpi_value 4 <$> (pt_Z <$> op_R (fst out))) = Some 1%Z.
Proof. vm_compute. repeat split. Qed.

Lemma alloc_granted_b91 (n : nat) : n <= 100 -> alloc_granted 100 calloc_always n.
Proof. intros Hn. by split. Defined.

Lemma write_binary_le_too_small_iff_witness :
  let X := mpi_of_words [0x01020304; 0x50000]%Z in
  let buf := replicate 6 7%Z in
  mpi_wf 4 X /\ length buf = 6
  /\ (fst (mbedtls_mpi_write_binary_le 4 X buf 6) = MBEDTLS_ERR_MPI_BUFFER_TOO_SMALL
      <-> exists i, 6 <= i < mpi_n X * 4 /\ stored_byte 4 X i <> 0%Z)
  /\ ((forall i, 6 <= i < mpi_n X * 4 -> stored_byte 4 X i = 0%Z) ->
      exists buf',
        mbedtls_mpi_write_binary_le 4 X buf 6 = (0%Z, buf')
        /\ length buf' = 6
        /\ forall i, i < 6 ->
             buf' !! i = Some (if decide (i < mpi_n X * 4)
                               then stored_byte 4 X i else 0%Z)).
Proof.
  intros X buf.
  assert (mpi_wf 4 X) as Hwf by mpi_wf_by_computation.
  assert (0 < 4) as Hc by lia.
  split; [exact Hwf|]. split; [reflexivity|].
  exact (write_binary_le_too_small_iff 4 Hc X buf 6 Hwf eq_refl).
Defined.

Lemma codec_round_trip_witness :
  let v := mpi_of_words [0x01020304; 5]%Z in
  let X0 := mpi_of_words [77; 88; 99]%Z in
  let buf := replicate 6 7%Z in
  mpi_wf 4 v /\ mpi_wf 4 X0 /\ length buf = 6
  /\ (0 <= mpi_value 4 v < 256 ^ Z.of_nat 6)%Z
  /\ alloc_granted 100 calloc_always (Nat.max 1 (CHARS_TO_LIMBS 4 6))
  /\ exists buf' X',
       mbedtls_mpi_write_binary_le 4 v buf 6 = (0%Z, buf')
       /\ mbedtls_mpi_read_binary_le 4 100 calloc_always X0 buf' 6 = (0%Z, X')
       /\ mpi_value 4 X' = mpi_value 4 v.
Proof.
  intros v X0 buf.
  assert (mpi_wf 4 v) as Hv by mpi_wf_by_computation.
  assert (mpi_wf 4 X0) as HX0 by mpi_wf_by_computation.
  assert (0 <= mpi_value 4 v < 256 ^ Z.of_nat 6)%Z as Hfit by (vm_compute; split; congruence).
  assert (alloc_granted 100 calloc_always (Nat.max 1 (CHARS_TO_LIMBS 4 6))) as Ha
    by (apply alloc_granted_b91; vm_compute; lia).
  split; [exact Hv|]. split; [exact HX0|]. split; [reflexivity|].
  split; [exact Hfit|]. split; [exact Ha|].
  assert (0 < 4) as Hc by lia.
  apply (codec_round_trip 4 100 calloc_always Hc v X0 buf 6 Hv HX0 eq_refl Hfit Ha).
Defined.

Lemma read_binary_le_spec_witness :
  let X := mpi_of_words [77; 88; 99]%Z in
  let buf := [4; 3; 2; 1; 5]%Z in
  mpi_wf 4 X /\ Forall is_byte buf /\ length buf = 5
  /\ alloc_granted 100 calloc_always (Nat.max 1 (CHARS_TO_LIMBS 4 5))
  /\ mbedtls_mpi_read_binary_le 4 100 calloc_always X buf 5 = (0%Z, decoded 4 buf 5)
  /\ mpi_value 4 (decoded 4 buf 5) = le_value buf
  /\ mpi_n (decoded 4 buf 5) = Nat.max 1 (CHARS_TO_LIMBS 4 5)
  /\ length (mpi_limbs (decoded 4 buf 5)) = mpi_n (decoded 4 buf 5)
  /\ Forall (is_limb 4) (mpi_limbs (decoded 4 buf 5))
  /\ 5 <= CHARS_TO_LIMBS 4 5 * 4
  /\ (forall n, 5 <= n * 4 -> CHARS_TO_LIMBS 4 5 <= n).
Proof.
  intros X buf.
  assert (mpi_wf 4 X) as HX by mpi_wf_by_computation.
  assert (Forall is_byte buf) as Hb by (repeat constructor; unfold is_byte; lia).
  assert (alloc_granted 100 calloc_always (Nat.max 1 (CHARS_TO_LIMBS 4 5))) as Ha
    by (apply alloc_granted_b91; vm_compute; lia).
  split; [exact HX|]. split; [exact Hb|]. split; [reflexivity|]. split; [exact Ha|].
  assert (0 < 4) as Hc by lia.
  apply (read_binary_le_spec 4 100 calloc_always Hc X buf 5 HX Hb eq_refl Ha).
Defined.

(** C4 as stated fails: importing the five bytes 01 00 00 00 00 succeeds with
    value 1 and two limbs, although one limb holds 1; the limb count follows
    the size of the buffer, not the value. *)
Lemma read_binary_le_not_minimal :
  let r := mbedtls_mpi_read_binary_le 4 100 calloc_always
             (mpi_of_words [77; 88; 99]%Z) [1; 0; 0; 0; 0]%Z 5 in
  fst r = 0%Z
  /\ mpi_value 4 (snd r) = 1%Z
  /\ mpi_n (snd r) = 2
  /\ holds_in 4 1 1
  /\ ~ minimal_limb_count 4 (snd r).
Proof.
  intros r.
  assert (holds_in 4 1 1) as Hholds by (vm_compute; split; congruence).
  split; [reflexivity|]. split; [reflexivity|]. split; [reflexivity|].
  split; [exact Hholds|].
  intros Hmin. specialize (Hmin 1 Hholds). vm_compute in Hmin. lia.
Qed.

Lemma check_pubkey_outcome_witness :
  let grp := grp_secp256r1 in
  let pt := point_of_words [1; 2]%Z [3]%Z in
  let w := world_with [0%Z] in
  ecp_get_type grp = ECP_TYPE_SHORT_WEIERSTRASS
  /\ eccp_curve_get cfg_all grp = Some secp256r1
  /\ word_len_32 (grp_pbits grp) <= 8
  /\ (let wl := word_len_32 (grp_pbits grp) in
      let Qx := void_write 4 (pt_X pt) (stack_array (list Z) w 0 wl) wl in
      let Qy := void_write 4 (pt_Y pt) (stack_array (list Z) w 1 wl) wl in
      let r := fst (fake_verify secp256r1 Qx Qy (w_hw w)) in
      let call := check_pubkey_b91 (Some grp) (Some pt) in
      w_trace (world_after (list Z) call w)
      = w_trace w ++ [EvLock; EvPointVerify secp256r1 Qx Qy r; EvUnlock]
      /\ (r = 0%Z -> fst (value_of (list Z) call w) = 0%Z)
      /\ (r <> 0%Z -> fst (value_of (list Z) call w) = MBEDTLS_ERR_ECP_INVALID_KEY)
      /\ fst (value_of (list Z) call w) <> MBEDTLS_ERR_PLATFORM_FEATURE_UNSUPPORTED).
Proof.
  intros grp pt w.
  assert (word_len_32 (grp_pbits grp) <= 8) as Hle by (vm_compute; lia).
  split; [reflexivity|]. split; [reflexivity|]. split; [exact Hle|].
  exact (check_pubkey_outcome 4 cfg_all word_len_32 8 0%Z (list Z) fake_verify false
           grp pt secp256r1 w eq_refl eq_refl Hle).
Defined.

(** C1 as stated fails: asked about a point on secp256r1, the engine answers
    with code 2, an internal fault; [ecp_alt_b91_backend_check_pubkey]
    returns [MBEDTLS_ERR_ECP_INVALID_KEY], not
    [MBEDTLS_ERR_PLATFORM_FEATURE_UNSUPPORTED]. *)
Lemma check_pubkey_fault_is_invalid_key :
  let call := check_pubkey_b91 (Some grp_secp256r1) (Some (point_of_words [1; 2]%Z [3]%Z)) in
  let w := world_with [2%Z] in
  (exists Qx Qy, w_trace (world_after (list Z) call w)
                 = [EvLock; EvPointVerify secp256r1 Qx Qy 2; EvUnlock])
  /\ fake_answer 2 = EngineFault
  /\ fst (value_of (list Z) call w) = MBEDTLS_ERR_ECP_INVALID_KEY
  /\ fst (value_of (list Z) call w) <> MBEDTLS_ERR_PLATFORM_FEATURE_UNSUPPORTED.
Proof.
  intros call w.
  split; [do 2 eexists; vm_compute; reflexivity|].
  split; [reflexivity|]. split; [reflexivity|]. vm_compute. congruence.
Qed.

Lemma preconditions_fail_before_engine_witness :
  let grp := {| grp_id := MBEDTLS_ECP_DP_SECP521R1; grp_pbits := 521;
                grp_G := point_of_words [1%Z] [2%Z] |} in
  let pt := point_of_words [1; 2]%Z [3]%Z in
  let w := world_with [0%Z] in
  (8 < word_len_32 (grp_pbits grp) \/ registered cfg_all grp = false)
  /\ fst (value_of (list Z) (check_pubkey_b91 (Some grp) (Some pt)) w)
     = MBEDTLS_ERR_PLATFORM_FEATURE_UNSUPPORTED
  /\ world_after (list Z) (check_pubkey_b91 (Some grp) (Some pt)) w = w.
Proof.
  intros grp pt w.
  assert (8 < word_len_32 (grp_pbits grp) \/ registered cfg_all grp = false) as H
    by (left; vm_compute; lia).
  split; [exact H|].
  exact (proj1 (proj2 (proj2 (proj2
           (preconditions_fail_before_engine 4 100 calloc_always cfg_all word_len_32 8 0%Z
              (list Z) fake_verify fake_mul fake_add fake_x25519 false)))) grp pt w H).
Defined.

Lemma muladd_all_or_nothing_witness :
  let grp := grp_secp256r1 in
  let R := point_of_words [0%Z] [0%Z] in
  let P := point_of_words [1; 2]%Z [3]%Z in
  let Q := point_of_words [4]%Z [5; 6]%Z in
  let m := mpi_of_words [2%Z] in
  let n := mpi_of_words [3%Z] in
  let w := world_with [0; 7]%Z in
  ecp_get_type grp = ECP_TYPE_SHORT_WEIERSTRASS
  /\ eccp_curve_get cfg_all grp = Some secp256r1
  /\ word_len_32 (grp_pbits grp) <= 8
  /\ (let wl := word_len_32 (grp_pbits grp) in
      let call := muladd_b91 (Some grp) (Some R) (Some m) (Some P) (Some n) (Some Q) in
      exists calls,
        w_trace (world_after (list Z) call w) = w_trace w ++ EvLock :: calls ++ [EvUnlock]
        /\ Forall (fun e => is_engine_call e = true) calls
        /\ ((exists pre e,
               calls = pre ++ [e] /\ Forall (succeeded 0) pre /\ failed 0 e
               /\ length pre <= 2
               /\ op_result (value_of (list Z) call w) = MBEDTLS_ERR_PLATFORM_HW_ACCEL_FAILED
               /\ op_R (value_of (list Z) call w) = Some R)
            \/ (exists e1 e2 P1x P1y P2x P2y ox oy,
                  calls = [e1; e2; EvPointAdd secp256r1 P1x P1y P2x P2y 0 ox oy]
                  /\ succeeded 0 e1 /\ succeeded 0 e2
                  /\ op_result (value_of (list Z) call w) = 0%Z
                  /\ op_R (value_of (list Z) call w)
                     = Some {| pt_X := void_read 4 100 calloc_always (pt_X R)
                                         (overwrite ox P1x) wl;
                               pt_Y := void_read 4 100 calloc_always (pt_Y R)
                                         (overwrite oy P1y) wl;
                               pt_Z := void_lset 4 100 calloc_always (pt_Z R) 1 |}
                  /\ (0 < 4 ->
                      mpi_wf 4 (pt_X R) -> mpi_wf 4 (pt_Y R) -> mpi_wf 4 (pt_Z R) ->
                      alloc_granted 100 calloc_always 1 ->
                      alloc_granted 100 calloc_always
                        (Nat.max 1 (CHARS_TO_LIMBS 4 (sizeof_words wl))) ->
                      void_read 4 100 calloc_always (pt_X R) (overwrite ox P1x) wl
                      = decoded 4 (overwrite ox P1x) (sizeof_words wl)
                      /\ void_read 4 100 calloc_always (pt_Y R) (overwrite oy P1y) wl
                         = decoded 4 (overwrite oy P1y) (sizeof_words wl)
                      /\ mpi_value 4 (void_lset 4 100 calloc_always (pt_Z R) 1) = 1%Z)))).
Proof.
  intros grp R P Q m n w.
  assert (word_len_32 (grp_pbits grp) <= 8) as Hle by (vm_compute; lia).
  split; [reflexivity|]. split; [reflexivity|]. split; [exact Hle|].
  exact (muladd_all_or_nothing 4 100 calloc_always cfg_all word_len_32 8 0%Z (list Z)
           fake_mul fake_add false grp R P Q m n secp256r1 w eq_refl eq_refl Hle).
Defined.

Lemma muladd_single_lock_witness :
  let grp := grp_secp256r1 in
  let R := point_of_words [0%Z] [0%Z] in
  let P := point_of_words [1; 2]%Z [3]%Z in
  let Q := point_of_words [4]%Z [5; 6]%Z in
  let m := mpi_of_words [2%Z] in
  let n := mpi_of_words [3%Z] in
  let w := world_with [0; 0; 0]%Z in
  let call := muladd_b91 (Some grp) (Some R) (Some m) (Some P) (Some n) (Some Q) in
  ecp_get_type grp = ECP_TYPE_SHORT_WEIERSTRASS
  /\ eccp_curve_get cfg_all grp = Some secp256r1
  /\ word_len_32 (grp_pbits grp) <= 8
  /\ map is_engine_call (w_trace (world_after (list Z) call w))
     = [false; true; true; true; false]
  /\ exists calls,
       w_trace (world_after (list Z) call w) = w_trace w ++ EvLock :: calls ++ [EvUnlock]
       /\ muladd_calls 0 secp256r1 calls
       /\ Forall (fun e => e <> EvLock /\ e <> EvUnlock) calls
       /\ 1 <= length calls <= 3.
Proof.
  intros grp R P Q m n w call.
  assert (word_len_32 (grp_pbits grp) <= 8) as Hle by (vm_compute; lia).
  split; [reflexivity|]. split; [reflexivity|]. split; [exact Hle|].
  split; [reflexivity|].
  exact (muladd_single_lock 4 100 calloc_always cfg_all word_len_32 8 0%Z (list Z)
           fake_mul fake_add false grp R P Q m n secp256r1 w eq_refl eq_refl Hle).
Defined.

Lemma montgomery_unsupported_witness :
  let grp := grp_curve25519 in
  let pt := point_of_words [9%Z] [0%Z] in
  let m := mpi_of_words [2%Z] in
  let w := world_with [0%Z] in
  ecp_get_type grp = ECP_TYPE_MONTGOMERY
  /\ fst (value_of (list Z) (check_pubkey_b91 (Some grp) (Some pt)) w)
     = MBEDTLS_ERR_PLATFORM_FEATURE_UNSUPPORTED
  /\ op_result (value_of (list Z)
                  (muladd_b91 (Some grp) (Some pt) (Some m) (Some pt) (Some m) (Some pt)) w)
     = MBEDTLS_ERR_PLATFORM_FEATURE_UNSUPPORTED.
Proof.
  intros grp pt m w.
  split; [reflexivity|].
  exact (montgomery_unsupported 4 100 calloc_always cfg_all word_len_32 8 0%Z (list Z)
           fake_verify fake_mul fake_add false grp pt pt pt pt m m w eq_refl).
Defined.

Arguments wipe : simpl never.
Arguments stack_array : simpl never.
Arguments void_write : simpl never.
Arguments mul_short_weierstrass : simpl never.
Arguments mul_montgomery : simpl never.
Arguments muladd_steps : simpl never.

(** The wipes are dead stores: whether the build keeps them or not, the
    three functions return the same code, leave the same [R], the same
    engine state and the same log.  Only the content of the local arrays at
    the moment of return differs. *)
Lemma wipes_unobserved (ciL MBEDTLS_MPI_MAX_LIMBS : nat) (calloc_ok : nat -> bool)
    (cfg : mbedtls_config) (GET_WORD_LEN : nat -> nat) (PKE_OPERAND_MAX_WORD_LEN : nat)
    (PKE_SUCCESS : Z) (HW : Type)
    (pke_eccp_point_verify : eccp_curve_t -> list Z -> list Z -> HW -> Z * HW)
    (pke_eccp_point_mul :
       eccp_curve_t -> list Z -> list Z -> list Z -> HW -> Z * (list Z * list Z) * HW)
    (pke_eccp_point_add :
       eccp_curve_t -> list Z -> list Z -> list Z -> list Z -> HW
       -> Z * (list Z * list Z) * HW)
    (pke_x25519_point_mul : mont_curve_t -> list Z -> list Z -> HW -> Z * list Z * HW)
    (kept kept' : bool)
    (grp : option mbedtls_ecp_group) (pt R P Q : option mbedtls_ecp_point)
    (m n : option mbedtls_mpi) (w : world HW) :
  let check_pubkey k :=
    ecp_alt_b91_backend_check_pubkey ciL cfg GET_WORD_LEN PKE_OPERAND_MAX_WORD_LEN
      PKE_SUCCESS HW pke_eccp_point_verify k grp pt w in
  let mul k :=
    ecp_alt_b91_backend_mul ciL MBEDTLS_MPI_MAX_LIMBS calloc_ok cfg GET_WORD_LEN
      PKE_OPERAND_MAX_WORD_LEN PKE_SUCCESS HW pke_eccp_point_mul pke_x25519_point_mul
      k grp R m P w in
  let muladd k :=
    ecp_alt_b91_backend_muladd ciL MBEDTLS_MPI_MAX_LIMBS calloc_ok cfg GET_WORD_LEN
      PKE_OPERAND_MAX_WORD_LEN PKE_SUCCESS HW pke_eccp_point_mul pke_eccp_point_add
      k grp R m P n Q w in
  (fst (fst (check_pubkey kept)) = fst (fst (check_pubkey kept'))
   /\ snd (check_pubkey kept) = snd (check_pubkey kept'))
  /\ (fst (fst (mul kept)) = fst (fst (mul kept'))
      /\ snd (mul kept) = snd (mul kept'))
  /\ (fst (fst (muladd kept)) = fst (fst (muladd kept'))
      /\ snd (muladd kept) = snd (muladd kept')).
Proof.
  intros check_pubkey mul muladd. subst check_pubkey mul muladd.
  unfold ecp_alt_b91_backend_check_pubkey, ecp_alt_b91_backend_mul,
    ecp_alt_b91_backend_muladd.
  split; [|split].
  - destruct grp as [g|], pt as [pt0|]; try done.
    destruct (_ <=? _); [|done].
    unfold bind, ret, local_array. simpl.
    destruct (_ && _); [|done].
    destruct (eccp_curve_get cfg g) as [c|]; [|done].
    unfold call_point_verify, engine, mbedtls_ecp_lock, mbedtls_ecp_unlock, log. simpl.
    by destruct (pke_eccp_point_verify _ _ _ _).
  - destruct grp as [g|], R as [R0|], m as [m0|], P as [P0|]; try done.
    destruct (_ <=? _); [|done].
    unfold bind, ret, local_array. simpl.
    destruct (mul_short_weierstrass _ _ _ _ _ _ _ _ _ _ _ _ _)
      as [[[[[result1 R1] ms1] Qx1] Qy1] w1].
    by destruct (mul_montgomery _ _ _ _ _ _ _ _ _ _ _ _ _)
      as [[[[[result2 R2] ms2] Qx2] Qy2] w2].
  - destruct grp as [g|], R as [R0|], m as [m0|], P as [P0|], n as [n0|], Q as [Q0|];
      try done.
    destruct (_ <=? _); [|done].
    unfold bind, ret, local_array. simpl.
    destruct (_ && _); [|done].
    destruct (eccp_curve_get cfg g) as [c|]; [|done].
    unfold mbedtls_ecp_lock, mbedtls_ecp_unlock, log. simpl.
    by destruct (muladd_steps _ _ _ _ _ _ _ _ _ _ _ _ _)
      as [[[[[[[result1 R1] ms1] Q1x] Q1y] Q2x] Q2y] w1].
Qed.


Lemma encode_failure_ignored_witness :
  let grp := grp_secp256r1 in
  let wide := {| pt_X := mpi_nine_words; pt_Y := mpi_of_words [3%Z];
                 pt_Z := mpi_of_words [1%Z] |} in
  let R := point_of_words [0%Z] [0%Z] in
  let n := mpi_of_words [3%Z] in
  let w := world_with [0%Z] in
  let wl := word_len_32 (grp_pbits grp) in
  ecp_get_type grp = ECP_TYPE_SHORT_WEIERSTRASS
  /\ eccp_curve_get cfg_all grp = Some secp256r1
  /\ wl <= 8
  /\ encode_fails 4 mpi_nine_words wl
  /\ ((exists Qy r,
          w_trace (world_after (list Z) (check_pubkey_b91 (Some grp) (Some wide)) w)
          = w_trace w ++ [EvLock;
                          EvPointVerify secp256r1 (stack_array (list Z) w 0 wl) Qy r;
                          EvUnlock])
      /\ fst (value_of (list Z) (check_pubkey_b91 (Some grp) (Some wide)) w)
         <> MBEDTLS_ERR_MPI_BUFFER_TOO_SMALL)
  /\ ((exists Px Py r ox oy,
          w_trace (world_after (list Z)
                     (mul_b91 (Some grp) (Some R) (Some mpi_nine_words) (Some wide)) w)
          = w_trace w ++ [EvLock;
                          EvPointMul secp256r1 (stack_array (list Z) w 0 wl) Px Py r ox oy;
                          EvUnlock])
      /\ op_result (value_of (list Z)
                      (mul_b91 (Some grp) (Some R) (Some mpi_nine_words) (Some wide)) w)
         <> MBEDTLS_ERR_MPI_BUFFER_TOO_SMALL)
  /\ ((exists k Py r ox oy rest,
          w_trace (world_after (list Z)
                     (muladd_b91 (Some grp) (Some R) (Some mpi_nine_words) (Some wide)
                        (Some n) (Some wide)) w)
          = w_trace w ++ EvLock
              :: EvPointMul secp256r1 k (stack_array (list Z) w 1 wl) Py r ox oy :: rest)
      /\ op_result (value_of (list Z)
                      (muladd_b91 (Some grp) (Some R) (Some mpi_nine_words) (Some wide)
                         (Some n) (Some wide)) w)
         <> MBEDTLS_ERR_MPI_BUFFER_TOO_SMALL).
Proof.
  intros grp wide R n w wl.
  assert (wl <= 8) as Hle by (vm_compute; lia).
  assert (encode_fails 4 mpi_nine_words wl) as Hf by (intros a; vm_compute; reflexivity).
  destruct (encode_failure_ignored 4 100 calloc_always cfg_all word_len_32 8 0%Z (list Z)
              fake_verify fake_mul fake_add fake_x25519 false
              grp wide R wide wide mpi_nine_words n secp256r1 w eq_refl eq_refl Hle)
    as (Hcheck & Hmul & Hmuladd).
  split; [reflexivity|]. split; [reflexivity|]. split; [exact Hle|]. split; [exact Hf|].
  split; [exact (Hcheck Hf)|]. split; [exact (Hmul Hf)|exact (Hmuladd Hf)].
Defined.

(** ** The further properties at concrete inputs *)

Lemma write_binary_le_succeeds_iff_fits_witness :
  let X := mpi_of_words [0x01020304; 5]%Z in
  let buf := replicate 6 7%Z in
  mpi_wf 4 X /\ length buf = 6
  /\ (fst (mbedtls_mpi_write_binary_le 4 X buf 6) = 0%Z
      <-> (mpi_magnitude 4 X < 256 ^ Z.of_nat 6)%Z)
  /\ (fst (mbedtls_mpi_write_binary_le 4 X buf 6) <> 0%Z ->
      fst (mbedtls_mpi_write_binary_le 4 X buf 6) = MBEDTLS_ERR_MPI_BUFFER_TOO_SMALL).
Proof.
  intros X buf.
  assert (mpi_wf 4 X) as Hwf by mpi_wf_by_computation.
  assert (0 < 4) as Hc by lia.
  split; [exact Hwf|]. split; [reflexivity|].
  exact (write_binary_le_succeeds_iff_fits 4 Hc X buf 6 Hwf eq_refl).
Defined.

Lemma write_binary_le_value_witness :
  let X := mpi_of_words [0x01020304; 5]%Z in
  let buf := replicate 6 7%Z in
  let buf' := [4; 3; 2; 1; 5; 0]%Z in
  mpi_wf 4 X /\ length buf = 6
  /\ mbedtls_mpi_write_binary_le 4 X buf 6 = (0%Z, buf')
  /\ length buf' = 6 /\ Forall is_byte buf'
  /\ le_value buf' = Z.abs (mpi_value 4 X).
Proof.
  intros X buf buf'.
  assert (mpi_wf 4 X) as Hwf by mpi_wf_by_computation.
  assert (0 < 4) as Hc by lia.
  split; [exact Hwf|]. split; [reflexivity|]. split; [reflexivity|].
  exact (write_binary_le_value 4 Hc X buf buf' 6 Hwf eq_refl eq_refl).
Defined.

Lemma write_binary_le_widen_witness :
  let X := mpi_of_words [0x01020304; 5]%Z in
  let buf1 := replicate 6 7%Z in
  let buf2 := replicate 8 9%Z in
  let out := [4; 3; 2; 1; 5; 0]%Z in
  mpi_wf 4 X /\ length buf1 = 6 /\ length buf2 = 8 /\ 6 <= 8
  /\ mbedtls_mpi_write_binary_le 4 X buf1 6 = (0%Z, out)
  /\ mbedtls_mpi_write_binary_le 4 X buf2 8 = (0%Z, out ++ replicate (8 - 6) 0%Z).
Proof.
  intros X buf1 buf2 out.
  assert (mpi_wf 4 X) as Hwf by mpi_wf_by_computation.
  assert (6 <= 8) as Hle by lia.
  split; [exact Hwf|]. split; [reflexivity|]. split; [reflexivity|].
  split; [exact Hle|]. split; [reflexivity|].
  exact (write_binary_le_widen 4 X buf1 buf2 out 6 8 Hwf eq_refl eq_refl Hle eq_refl).
Defined.

Lemma import_export_round_trip_witness :
  let X := mpi_of_words [77; 88; 99]%Z in
  let buf := [4; 3; 2; 1; 5]%Z in
  let out := replicate 5 9%Z in
  mpi_wf 4 X /\ Forall is_byte buf /\ length buf = 5 /\ length out = 5
  /\ alloc_granted 100 calloc_always (Nat.max 1 (CHARS_TO_LIMBS 4 5))
  /\ (Z.of_nat (Nat.max 1 (CHARS_TO_LIMBS 4 5)) * Z.of_nat 4 < 2 ^ SIZE_BITS)%Z
  /\ exists X',
       mbedtls_mpi_read_binary_le 4 100 calloc_always X buf 5 = (0%Z, X')
       /\ mpi_wf 4 X'
       /\ mbedtls_mpi_write_binary_le 4 X' out 5 = (0%Z, buf).
Proof.
  intros X buf out.
  assert (mpi_wf 4 X) as HX by mpi_wf_by_computation.
  assert (Forall is_byte buf) as Hb by (repeat constructor; unfold is_byte; lia).
  assert (alloc_granted 100 calloc_always (Nat.max 1 (CHARS_TO_LIMBS 4 5))) as Ha
    by (apply alloc_granted_b91; vm_compute; lia).
  assert (Z.of_nat (Nat.max 1 (CHARS_TO_LIMBS 4 5)) * Z.of_nat 4 < 2 ^ SIZE_BITS)%Z as Hs
    by (vm_compute; reflexivity).
  assert (0 < 4) as Hc by lia.
  split; [exact HX|]. split; [exact Hb|]. split; [reflexivity|]. split; [reflexivity|].
  split; [exact Ha|]. split; [exact Hs|].
  exact (import_export_round_trip 4 100 calloc_always Hc X buf out 5
           HX Hb eq_refl eq_refl Ha Hs).
Defined.

Lemma read_binary_le_failure_witness :
  let X := mpi_of_words [77; 88; 99]%Z in
  let buf := [4; 3; 2; 1; 5]%Z in
  let r := mbedtls_mpi_read_binary_le 4 100 (fun _ => false) X buf 5 in
  fst r <> 0%Z
  /\ fst r = MBEDTLS_ERR_MPI_ALLOC_FAILED
  /\ (snd r = X \/ snd r = {| mpi_s := 1; mpi_n := 0; mpi_p := None |})
  /\ (forall buf2, mbedtls_mpi_read_binary_le 4 100 (fun _ => false) X buf2 5 = r).
Proof.
  intros X buf r.
  assert (fst r <> 0%Z) as Hr by (vm_compute; congruence).
  split; [exact Hr|].
  exact (read_binary_le_failure 4 100 (fun _ => false) X buf 5 Hr).
Defined.

Lemma read_binary_le_reuses_storage_witness :
  let X := mpi_of_words [77; 88]%Z in
  let buf := [4; 3; 2; 1; 5]%Z in
  mpi_wf 4 X /\ mpi_n X = CHARS_TO_LIMBS 4 5 /\ 1 <= mpi_n X /\ 1 <= 100
  /\ mbedtls_mpi_read_binary_le 4 100 (fun _ => false) X buf 5 = (0%Z, decoded 4 buf 5).
Proof.
  intros X buf.
  assert (mpi_wf 4 X) as HX by mpi_wf_by_computation.
  assert (1 <= mpi_n X) as Hn by (vm_compute; lia).
  assert (1 <= 100) as Hmax by lia.
  split; [exact HX|]. split; [reflexivity|]. split; [exact Hn|]. split; [exact Hmax|].
  exact (read_binary_le_reuses_storage 4 100 (fun _ => false) X buf 5 HX eq_refl Hn Hmax).
Defined.

Lemma registries_monotone_witness :
  cfg_le cfg_p256_only cfg_all
  /\ (forall c, eccp_curve_get cfg_p256_only grp_secp256r1 = Some c ->
                eccp_curve_get cfg_all grp_secp256r1 = Some c)
  /\ (forall c, mont_curve_get cfg_p256_only grp_secp256r1 = Some c ->
                mont_curve_get cfg_all grp_secp256r1 = Some c).
Proof.
  assert (cfg_le cfg_p256_only cfg_all) as Hle.
  { intros flag Hin _. simpl in Hin.
    repeat (destruct Hin as [<-|Hin]; [reflexivity|]). destruct Hin. }
  split; [exact Hle|].
  exact (registries_monotone cfg_p256_only cfg_all grp_secp256r1 Hle).
Defined.

Lemma mul_short_weierstrass_outcome_witness :
  let grp := grp_secp256r1 in
  let R := point_of_words [0%Z] [0%Z] in
  let P := point_of_words [1; 2]%Z [3]%Z in
  let m := mpi_of_words [2%Z] in
  let w := world_with [0%Z] in
  ecp_get_type grp = ECP_TYPE_SHORT_WEIERSTRASS
  /\ eccp_curve_get cfg_all grp = Some secp256r1
  /\ word_len_32 (grp_pbits grp) <= 8
  /\ (let wl := word_len_32 (grp_pbits grp) in
      let k := void_write 4 m (stack_array (list Z) w 0 wl) wl in
      let Px := void_write 4 (pt_X P) (stack_array (list Z) w 1 wl) wl in
      let Py := void_write 4 (pt_Y P) (stack_array (list Z) w 2 wl) wl in
      let call := mul_b91 (Some grp) (Some R) (Some m) (Some P) in
      exists r ox oy,
        fst (fake_mul secp256r1 k Px Py (w_hw w)) = (r, (ox, oy))
        /\ w_trace (world_after (list Z) call w)
           = w_trace w ++ [EvLock; EvPointMul secp256r1 k Px Py r ox oy; EvUnlock]
        /\ (r = 0%Z ->
            op_result (value_of (list Z) call w) = 0%Z
            /\ op_R (value_of (list Z) call w)
               = Some {| pt_X := void_read 4 100 calloc_always (pt_X R) (overwrite ox Px) wl;
                         pt_Y := void_read 4 100 calloc_always (pt_Y R) (overwrite oy Py) wl;
                         pt_Z := void_lset 4 100 calloc_always (pt_Z R) 1 |})
        /\ (r <> 0%Z ->
            op_result (value_of (list Z) call w) = MBEDTLS_ERR_PLATFORM_HW_ACCEL_FAILED
            /\ op_R (value_of (list Z) call w) = Some R)).
Proof.
  intros grp R P m w.
  assert (word_len_32 (grp_pbits grp) <= 8) as Hle by (vm_compute; lia).
  split; [reflexivity|]. split; [reflexivity|]. split; [exact Hle|].
  exact (mul_short_weierstrass_outcome 4 100 calloc_always cfg_all word_len_32 8 0%Z (list Z)
           fake_mul fake_x25519 false grp R P m secp256r1 w eq_refl eq_refl Hle).
Defined.

Lemma mul_montgomery_outcome_witness :
  let grp := grp_curve25519 in
  let R := point_of_words [0%Z] [0%Z] in
  let P := point_of_words [9%Z] [0%Z] in
  let m := mpi_of_words [2%Z] in
  let w := world_with [0%Z] in
  ecp_get_type grp = ECP_TYPE_MONTGOMERY
  /\ mont_curve_get cfg_all grp = Some x25519
  /\ word_len_32 (grp_pbits grp) <= 8
  /\ (let wl := word_len_32 (grp_pbits grp) in
      let k := void_write 4 m (stack_array (list Z) w 0 wl) wl in
      let Pu := void_write 4 (pt_X P) (stack_array (list Z) w 1 wl) wl in
      let call := mul_b91 (Some grp) (Some R) (Some m) (Some P) in
      (exists r ou,
         fst (fake_x25519 x25519 k Pu (w_hw w)) = (r, ou)
         /\ w_trace (world_after (list Z) call w)
            = w_trace w ++ [EvLock; EvX25519Mul x25519 k Pu r ou; EvUnlock]
         /\ (r = 0%Z ->
             op_result (value_of (list Z) call w) = 0%Z
             /\ op_R (value_of (list Z) call w)
                = Some {| pt_X := void_read 4 100 calloc_always (pt_X R) (overwrite ou Pu) wl;
                          pt_Y := void_lset 4 100 calloc_always (pt_Y R) 0;
                          pt_Z := void_lset 4 100 calloc_always (pt_Z R) 1 |}
             /\ (0 < 4 -> mpi_wf 4 (pt_Y R) -> mpi_wf 4 (pt_Z R) ->
                 alloc_granted 100 calloc_always 1 ->
                 mpi_value 4 (void_lset 4 100 calloc_always (pt_Y R) 0) = 0%Z
                 /\ mpi_value 4 (void_lset 4 100 calloc_always (pt_Z R) 1) = 1%Z))
         /\ (r <> 0%Z ->
             op_result (value_of (list Z) call w) = MBEDTLS_ERR_PLATFORM_HW_ACCEL_FAILED
             /\ op_R (value_of (list Z) call w) = Some R))
      /\ forall Y' Z',
           mul_b91 (Some grp) (Some R) (Some m)
             (Some {| pt_X := pt_X P; pt_Y := Y'; pt_Z := Z' |}) w
           = call w).
Proof.
  intros grp R P m w.
  assert (word_len_32 (grp_pbits grp) <= 8) as Hle by (vm_compute; lia).
  split; [reflexivity|]. split; [reflexivity|]. split; [exact Hle|].
  exact (mul_montgomery_outcome 4 100 calloc_always cfg_all word_len_32 8 0%Z (list Z)
           fake_mul fake_x25519 false grp R P m x25519 w eq_refl eq_refl Hle).
Defined.

Lemma muladd_data_flow_witness :
  let grp := grp_secp256r1 in
  let R := point_of_words [0%Z] [0%Z] in
  let P := point_of_words [1; 2]%Z [3]%Z in
  let Q := point_of_words [4]%Z [5; 6]%Z in
  let m := mpi_of_words [2%Z] in
  let n := mpi_of_words [3%Z] in
  let w := world_with [0; 0; 0]%Z in
  ecp_get_type grp = ECP_TYPE_SHORT_WEIERSTRASS
  /\ eccp_curve_get cfg_all grp = Some secp256r1
  /\ word_len_32 (grp_pbits grp) <= 8
  /\ (let wl := word_len_32 (grp_pbits grp) in
      let k1 := void_write 4 m (stack_array (list Z) w 0 wl) wl in
      let k2 := void_write 4 n k1 wl in
      exists calls,
        w_trace (world_after (list Z)
                   (muladd_b91 (Some grp) (Some R) (Some m) (Some P) (Some n) (Some Q)) w)
        = w_trace w ++ EvLock :: calls ++ [EvUnlock]
        /\ muladd_flow 0 secp256r1 k1 k2
             (void_write 4 (pt_X P) (stack_array (list Z) w 1 wl) wl)
             (void_write 4 (pt_Y P) (stack_array (list Z) w 2 wl) wl)
             (void_write 4 (pt_X Q) (stack_array (list Z) w 3 wl) wl)
             (void_write 4 (pt_Y Q) (stack_array (list Z) w 4 wl) wl) calls).
Proof.
  intros grp R P Q m n w.
  assert (word_len_32 (grp_pbits grp) <= 8) as Hle by (vm_compute; lia).
  split; [reflexivity|]. split; [reflexivity|]. split; [exact Hle|].
  exact (muladd_data_flow 4 100 calloc_always cfg_all word_len_32 8 0%Z (list Z)
           fake_mul fake_add false grp R P Q m n secp256r1 w eq_refl eq_refl Hle).
Defined.

Lemma muladd_stale_scalar_witness :
  let grp := grp_secp256r1 in
  let R := point_of_words [0%Z] [0%Z] in
  let P := point_of_words [1; 2]%Z [3]%Z in
  let Q := point_of_words [4]%Z [5; 6]%Z in
  let m := mpi_of_words [2%Z] in
  let n := mpi_nine_words in
  let w := world_with [0; 0; 0]%Z in
  let wl := word_len_32 (grp_pbits grp) in
  ecp_get_type grp = ECP_TYPE_SHORT_WEIERSTRASS
  /\ eccp_curve_get cfg_all grp = Some secp256r1
  /\ wl <= 8
  /\ encode_fails 4 n wl
  /\ (let k1 := void_write 4 m (stack_array (list Z) w 0 wl) wl in
      exists calls,
        w_trace (world_after (list Z)
                   (muladd_b91 (Some grp) (Some R) (Some m) (Some P) (Some n) (Some Q)) w)
        = w_trace w ++ EvLock :: calls ++ [EvUnlock]
        /\ muladd_flow 0 secp256r1 k1 k1
             (void_write 4 (pt_X P) (stack_array (list Z) w 1 wl) wl)
             (void_write 4 (pt_Y P) (stack_array (list Z) w 2 wl) wl)
             (void_write 4 (pt_X Q) (stack_array (list Z) w 3 wl) wl)
             (void_write 4 (pt_Y Q) (stack_array (list Z) w 4 wl) wl) calls).
Proof.
  intros grp R P Q m n w wl.
  assert (wl <= 8) as Hle by (vm_compute; lia).
  assert (encode_fails 4 n wl) as Hf by (intros a; vm_compute; reflexivity).
  split; [reflexivity|]. split; [reflexivity|]. split; [exact Hle|]. split; [exact Hf|].
  exact (muladd_stale_scalar 4 100 calloc_always cfg_all word_len_32 8 0%Z (list Z)
           fake_mul fake_add false grp R P Q m n secp256r1 w eq_refl eq_refl Hle Hf).
Defined.

Lemma engine_operands_fixed_width_witness :
  let grp := grp_secp256r1 in
  let R := point_of_words [0%Z] [0%Z] in
  let P := point_of_words [1; 2]%Z [3]%Z in
  let Q := point_of_words [4]%Z [5; 6]%Z in
  let m := mpi_nine_words in
  let n := mpi_of_words [3%Z] in
  let w := world_with [0; 0; 0]%Z in
  let t := w_trace (world_after (list Z)
                      (muladd_b91 (Some grp) (Some R) (Some m) (Some P) (Some n) (Some Q)) w) in
  w_trace (world_after (list Z)
             (muladd_b91 (Some grp) (Some R) (Some m) (Some P) (Some n) (Some Q)) w)
  = w_trace w ++ t
  /\ length t = 5
  /\ forall e a, In e t -> In a (event_operands e) ->
       exists g, Some grp = Some g /\ operand_ok (word_len_32 (grp_pbits g)) a.
Proof.
  intros grp R P Q m n w t.
  assert (w_trace (world_after (list Z)
                     (muladd_b91 (Some grp) (Some R) (Some m) (Some P) (Some n) (Some Q)) w)
          = w_trace w ++ t) as Ht by reflexivity.
  split; [exact Ht|]. split; [reflexivity|].
  intros e a He Ha.
  exact (engine_operands_fixed_width 4 100 calloc_always cfg_all word_len_32 8 0%Z (list Z)
           fake_verify fake_mul fake_add fake_x25519 false
           (Some grp) (Some P) (Some R) (Some P) (Some Q) (Some m) (Some n) w t
           (or_intror (or_intror Ht)) e a He Ha).
Defined.

Lemma check_pubkey_marshals_witness :
  let grp := grp_secp256r1 in
  let pt := point_of_words [1; 2]%Z [3]%Z in
  let w := world_with [0%Z] in
  let size := sizeof_words (word_len_32 (grp_pbits grp)) in
  0 < 4
  /\ ecp_get_type grp = ECP_TYPE_SHORT_WEIERSTRASS
  /\ eccp_curve_get cfg_all grp = Some secp256r1
  /\ word_len_32 (grp_pbits grp) <= 8
  /\ mpi_wf 4 (pt_X pt) /\ mpi_wf 4 (pt_Y pt)
  /\ (mpi_magnitude 4 (pt_X pt) < 256 ^ Z.of_nat size)%Z
  /\ (mpi_magnitude 4 (pt_Y pt) < 256 ^ Z.of_nat size)%Z
  /\ exists Qx Qy r,
       w_trace (world_after (list Z) (check_pubkey_b91 (Some grp) (Some pt)) w)
       = w_trace w ++ [EvLock; EvPointVerify secp256r1 Qx Qy r; EvUnlock]
       /\ le_value Qx = mpi_magnitude 4 (pt_X pt)
       /\ le_value Qy = mpi_magnitude 4 (pt_Y pt).
Proof.
  intros grp pt w size.
  assert (0 < 4) as Hc by lia.
  assert (word_len_32 (grp_pbits grp) <= 8) as Hle by (vm_compute; lia).
  assert (mpi_wf 4 (pt_X pt)) as HX by mpi_wf_by_computation.
  assert (mpi_wf 4 (pt_Y pt)) as HY by mpi_wf_by_computation.
  assert (mpi_magnitude 4 (pt_X pt) < 256 ^ Z.of_nat size)%Z as HfX
    by (vm_compute; reflexivity).
  assert (mpi_magnitude 4 (pt_Y pt) < 256 ^ Z.of_nat size)%Z as HfY
    by (vm_compute; reflexivity).
  split; [exact Hc|]. split; [reflexivity|]. split; [reflexivity|]. split; [exact Hle|].
  split; [exact HX|]. split; [exact HY|]. split; [exact HfX|]. split; [exact HfY|].
  exact (check_pubkey_marshals 4 cfg_all word_len_32 8 0%Z (list Z) fake_verify false
           grp pt secp256r1 w Hc eq_refl eq_refl Hle HX HY HfX HfY).
Defined.

Lemma mul_short_weierstrass_values_witness :
  let grp := grp_secp256r1 in
  let R := point_of_words [0%Z] [0%Z] in
  let P := point_of_words [1; 2]%Z [3]%Z in
  let m := mpi_of_words [2%Z] in
  let w := world_with [0%Z] in
  let size := sizeof_words (word_len_32 (grp_pbits grp)) in
  let call := mul_b91 (Some grp) (Some R) (Some m) (Some P) in
  0 < 4
  /\ ecp_get_type grp = ECP_TYPE_SHORT_WEIERSTRASS
  /\ eccp_curve_get cfg_all grp = Some secp256r1
  /\ word_len_32 (grp_pbits grp) <= 8
  /\ mpi_wf 4 m /\ mpi_wf 4 (pt_X P) /\ mpi_wf 4 (pt_Y P)
  /\ (mpi_magnitude 4 m < 256 ^ Z.of_nat size)%Z
  /\ (mpi_magnitude 4 (pt_X P) < 256 ^ Z.of_nat size)%Z
  /\ (mpi_magnitude 4 (pt_Y P) < 256 ^ Z.of_nat size)%Z
  /\ exists k Px Py r ox oy,
       w_trace (world_after (list Z) call w)
       = w_trace w ++ [EvLock; EvPointMul secp256r1 k Px Py r ox oy; EvUnlock]
       /\ le_value k = mpi_magnitude 4 m
       /\ le_value Px = mpi_magnitude 4 (pt_X P)
       /\ le_value Py = mpi_magnitude 4 (pt_Y P)
       /\ (r = 0%Z ->
           Forall is_byte ox -> length ox = size ->
           Forall is_byte oy -> length oy = size ->
           mpi_wf 4 (pt_X R) -> mpi_wf 4 (pt_Y R) -> mpi_wf 4 (pt_Z R) ->
           alloc_granted 100 calloc_always 1 ->
           alloc_granted 100 calloc_always (Nat.max 1 (CHARS_TO_LIMBS 4 size)) ->
           exists R',
             op_R (value_of (list Z) call w) = Some R'
             /\ op_result (value_of (list Z) call w) = 0%Z
             /\ mpi_value 4 (pt_X R') = le_value ox
             /\ mpi_value 4 (pt_Y R') = le_value oy
             /\ mpi_value 4 (pt_Z R') = 1%Z).
Proof.
  intros grp R P m w size call.
  assert (0 < 4) as Hc by lia.
  assert (word_len_32 (grp_pbits grp) <= 8) as Hle by (vm_compute; lia).
  assert (mpi_wf 4 m) as Hm by mpi_wf_by_computation.
  assert (mpi_wf 4 (pt_X P)) as HX by mpi_wf_by_computation.
  assert (mpi_wf 4 (pt_Y P)) as HY by mpi_wf_by_computation.
  assert (mpi_magnitude 4 m < 256 ^ Z.of_nat size)%Z as Hfm by (vm_compute; reflexivity).
  assert (mpi_magnitude 4 (pt_X P) < 256 ^ Z.of_nat size)%Z as HfX
    by (vm_compute; reflexivity).
  assert (mpi_magnitude 4 (pt_Y P) < 256 ^ Z.of_nat size)%Z as HfY
    by (vm_compute; reflexivity).
  split; [exact Hc|]. split; [reflexivity|]. split; [reflexivity|]. split; [exact Hle|].
  split; [exact Hm|]. split; [exact HX|]. split; [exact HY|].
  split; [exact Hfm|]. split; [exact HfX|]. split; [exact HfY|].
  exact (mul_short_weierstrass_values 4 100 calloc_always cfg_all word_len_32 8 0%Z (list Z)
           fake_mul fake_x25519 false grp R P m secp256r1 w Hc eq_refl eq_refl Hle
           Hm HX HY Hfm HfX HfY).
Defined.

Lemma ids_without_entry_declined_witness :
  let grp := {| grp_id := MBEDTLS_ECP_DP_BP384R1; grp_pbits := 384;
                grp_G := point_of_words [1%Z] [2%Z] |} in
  let R := point_of_words [0%Z] [0%Z] in
  let P := point_of_words [1; 2]%Z [3]%Z in
  let m := mpi_of_words [2%Z] in
  let w := world_with [0%Z] in
  without_entry (grp_id grp)
  /\ (exists frame,
        check_pubkey_b91 (Some grp) (Some P) w
        = (MBEDTLS_ERR_PLATFORM_FEATURE_UNSUPPORTED, frame, w))
  /\ (exists frame,
        mul_b91 (Some grp) (Some R) (Some m) (Some P) w
        = (MBEDTLS_ERR_PLATFORM_FEATURE_UNSUPPORTED, Some R, frame, w))
  /\ (exists frame,
        muladd_b91 (Some grp) (Some R) (Some m) (Some P) (Some m) (Some P) w
        = (MBEDTLS_ERR_PLATFORM_FEATURE_UNSUPPORTED, Some R, frame, w)).
Proof.
  intros grp R P m w.
  assert (without_entry (grp_id grp)) as H by (do 3 right; left; reflexivity).
  split; [exact H|].
  exact (ids_without_entry_declined 4 100 calloc_always cfg_all word_len_32 8 0%Z (list Z)
           fake_verify fake_mul fake_add fake_x25519 false grp P R P P m m w H).
Defined.

Lemma family_mismatch_declined_witness :
  let grp := {| grp_id := MBEDTLS_ECP_DP_CURVE25519; grp_pbits := 255;
                grp_G := point_of_words [9%Z] [1%Z] |} in
  let R := point_of_words [0%Z] [0%Z] in
  let P := point_of_words [1; 2]%Z [3]%Z in
  let m := mpi_of_words [2%Z] in
  let w := world_with [0%Z] in
  family_mismatch grp
  /\ (exists frame,
        check_pubkey_b91 (Some grp) (Some P) w
        = (MBEDTLS_ERR_PLATFORM_FEATURE_UNSUPPORTED, frame, w))
  /\ (exists frame,
        mul_b91 (Some grp) (Some R) (Some m) (Some P) w
        = (MBEDTLS_ERR_PLATFORM_FEATURE_UNSUPPORTED, Some R, frame, w))
  /\ (exists frame,
        muladd_b91 (Some grp) (Some R) (Some m) (Some P) (Some m) (Some P) w
        = (MBEDTLS_ERR_PLATFORM_FEATURE_UNSUPPORTED, Some R, frame, w)).
Proof.
  intros grp R P m w.
  assert (family_mismatch grp) as H by (left; split; reflexivity).
  split; [exact H|].
  exact (family_mismatch_declined 4 100 calloc_always cfg_all word_len_32 8 0%Z (list Z)
           fake_verify fake_mul fake_add fake_x25519 false grp P R P P m m w H).
Defined.

Lemma firmware_signature_gate_witness :
  let env := flash_signed in
  let uid := replicate 16 7%Z in
  let enc := firmware_encrypt_based_on_uid env uid [] in
  let key := flash_read_page env
               (u32_add (flash_sector_calibration env) (CALIB_OFFSET_FIRMWARE_SIGNKEY env))
               16 [] in
  flash_read_mid_uid_with_check env [] = (1%Z, 0x1460c8%Z, uid)
  /\ length enc = 16 /\ length key = 16
  /\ (blt_firmware_signature_check env [] [] [] = Returns <-> 1%Z <> 0%Z /\ enc = key)
  /\ (blt_firmware_signature_check env [] [] [] = Hangs <-> 1%Z = 0%Z \/ enc <> key).
Proof.
  intros env uid enc key.
  split; [reflexivity|]. split; [reflexivity|]. split; [reflexivity|].
  exact (firmware_signature_gate env [] [] [] 1 0x1460c8 uid eq_refl eq_refl eq_refl).
Defined.
